(** * Trait inference engine: a shallow embedding of [services/BayesianInference]

    The engine is a naive-Bayes style scorer over two static tables
    (prior probabilities and likelihood multipliers).  This file embeds the
    tables, the posterior computation, the confidence heuristic, the
    autocomplete layer, the compatibility scorer and the rapport strategies,
    together with the reducer of [contexts/CharacterContext] that calls
    them, and states the properties of the specification about them.

    Numbers.  Every TypeScript [number] is embedded as a real number: the
    arithmetic of the engine ([+], [*], [/], [Math.pow], [Math.abs],
    [Math.min], [Math.max], comparisons) is the exact one, and a statement
    "within floating-point tolerance" is read as an exact equality.  Rounding
    has no counterpart in this embedding.  Where a property depends on what
    doubles do beyond rounding, the file says so in one of two ways: the
    statement carries [within_double_range], which bounds the tables and the
    length of the evidence so that no running product leaves the range of a
    double, or it is stated on [Double], the same loops of the posterior
    computation on IEEE binary64 numbers, where an overflow and a [NaN] can
    be observed.

    Strings.  The string enums of [Character.ts] are kept as the strings they
    are at run time; an unset scalar trait field is the empty string (the
    falsy string), an unset list field is the empty list. *)

From Stdlib Require Import Reals Lra Lia String List Bool Arith.
From Stdlib Require Import Permutation Sorted.
From Stdlib Require Floats.
Import ListNotations.
Open Scope string_scope.
Open Scope R_scope.

(** ** Run-time library *)

(** [Math.pow] on reals.  An exponent [0] gives [1] for every base; a positive
    base is the real power [exp (e * ln b)]; base [0] with a non-zero
    exponent gives [0] (the exponents used by the engine are weights, hence
    not negative).  A negative base under a fractional exponent is [NaN] in
    JavaScript; no multiplier of the table is negative, and the embedding
    returns [0] there. *)
Definition Math_pow (base exponent : R) : R :=
  if Req_dec_T exponent 0 then 1
  else if Rlt_dec 0 base then Rpower base exponent
  else 0.

Definition Math_abs (x : R) : R := Rabs x.
Definition Math_min (x y : R) : R := Rmin x y.
Definition Math_max (x y : R) : R := Rmax x y.

(** A [Map<string, V>] (and an object used as a dictionary) is an association
    list in insertion order.  [Map_set] overwrites the value of a key already
    present, in place, and appends a new key at the end. *)
Definition JSMap (V : Type) : Type := list (string * V).

Fixpoint Map_set {V : Type} (k : string) (v : V) (m : JSMap V) : JSMap V :=
  match m with
  | [] => [(k, v)]
  | (k', v') :: m' =>
      if k' =? k then (k, v) :: m' else (k', v') :: Map_set k v m'
  end.

Fixpoint Map_get {V : Type} (k : string) (m : JSMap V) : option V :=
  match m with
  | [] => None
  | (k', v') :: m' => if k' =? k then Some v' else Map_get k m'
  end.

Definition Map_values {V : Type} (m : JSMap V) : list V := map snd m.
Definition Map_keys {V : Type} (m : JSMap V) : list string := map fst m.

(** [Array.from(new Set(xs))]: the distinct elements, each at the place of
    its first occurrence. *)
Definition Set_add (x : string) (seen : list string) : list string :=
  if existsb (String.eqb x) seen then seen else (seen ++ [x])%list.

Definition Array_from_Set (xs : list string) : list string :=
  fold_left (fun seen x => Set_add x seen) xs [].

(** [Array.prototype.sort(compareFn)] is a stable sort; with a consistent
    comparator its result is determined, and insertion sort computes it.
    [cmp x y > 0] means that [x] is placed after [y]. *)
Fixpoint Array_insert {A : Type} (cmp : A -> A -> R) (x : A) (l : list A)
  : list A :=
  match l with
  | [] => [x]
  | y :: l' =>
      if Rlt_dec 0 (cmp x y) then y :: Array_insert cmp x l' else x :: l
  end.

Definition Array_sort {A : Type} (cmp : A -> A -> R) (l : list A) : list A :=
  fold_right (Array_insert cmp) [] l.

Definition Array_slice {A : Type} (from to : nat) (l : list A) : list A :=
  firstn (to - from) (skipn from l).

(** ** [types/Character.ts] *)

Module IntroversionExtroversion.
Definition HIGHLY_INTROVERTED := "Highly Introverted".
Definition INTROVERTED := "Introverted".
Definition AMBIVERT := "Ambivert".
Definition EXTROVERTED := "Extroverted".
Definition HIGHLY_EXTROVERTED := "Highly Extroverted".
End IntroversionExtroversion.

Module AttachmentStyle.
Definition SECURE := "Secure".
Definition ANXIOUS := "Anxious".
Definition AVOIDANT := "Avoidant".
Definition FEARFUL_AVOIDANT := "Fearful-Avoidant".
End AttachmentStyle.

Module TrustLevel.
Definition HIGHLY_SKEPTICAL := "Highly Skeptical".
Definition SKEPTICAL := "Skeptical".
Definition NEUTRAL := "Neutral".
Definition TRUSTING := "Trusting".
Definition HIGHLY_TRUSTING := "Highly Trusting".
End TrustLevel.

Module SocialRole.
Definition LEADER := "Leader".
Definition FOLLOWER := "Follower".
Definition CONNECTOR := "Connector".
Definition OUTLIER := "Outlier".
Definition GATEKEEPER := "Gatekeeper".
Definition MEDIATOR := "Mediator".
End SocialRole.

Module CommunicationStyle.
Definition DIRECT := "Direct".
Definition INDIRECT := "Indirect".
Definition RESERVED := "Reserved".
Definition ANALYTICAL := "Analytical".
Definition EMOTIONAL := "Emotional".
Definition FUNCTIONAL := "Functional".
Definition PERSONAL := "Personal".
Definition INTUITIVE := "Intuitive".
End CommunicationStyle.

Module CommunicationChannel.
Definition VERBAL := "Verbal".
Definition WRITTEN := "Written".
Definition NONVERBAL := "Non-verbal".
Definition DIGITAL := "Digital".
End CommunicationChannel.

Record Vulnerability := {
  vuln_type : string;
  vuln_probability : R
}.

Record PsychologicalProfile := {
  introversionExtroversion : string;
  attachmentStyle : string;
  trustLevel : string;
  likelyVulnerabilities : list Vulnerability
}.

Record SocialHierarchyPosition := {
  role : string;
  influence : R;
  approvalDependency : R
}.

Record MotivationFactor := {
  motivation_type : string;
  motivation_strength : R
}.

Record InsecurityFactor := {
  insecurity_type : string;
  insecurity_strength : R
}.

Record MotivationsInsecurities := {
  desires : list MotivationFactor;
  fears : list InsecurityFactor
}.

Record TrustTrigger := {
  trigger_type : string;
  trigger_effectiveness : R
}.

Record TrustSignalsVulnerabilityMarkers := {
  triggers : list TrustTrigger
}.

Record Communication := {
  primaryStyle : string;
  preferredChannels : list string
}.

Record DecisionMaking := {
  emotionVsLogic : R;
  pacing : string
}.

Record IdentityAnchor := {
  anchor_type : string;
  anchor_centrality : R;
  anchor_visibility : R
}.

Record IdentityAnchors := {
  coreAnchors : list IdentityAnchor
}.

(** The sections of a [Character] that the engine reads or writes.  The
    remaining sections ([basicInfo], [routinePatterns], [loyaltyNetwork],
    [digitalFootprint], [relationships]) and the optional fields are never
    touched by the engine and are left out. *)
Record Character := {
  psychologicalProfile : PsychologicalProfile;
  socialHierarchyPosition : SocialHierarchyPosition;
  motivationsInsecurities : MotivationsInsecurities;
  trustSignalsVulnerabilityMarkers : TrustSignalsVulnerabilityMarkers;
  communication : Communication;
  decisionMaking : DecisionMaking;
  identityAnchors : IdentityAnchors
}.

Record PriorProbability := {
  prior_trait : string;
  prior_category : string;
  prior_probability : R
}.

Record LikelihoodMultiplier := {
  lm_evidence : string;
  lm_trait : string;
  lm_multiplier : R
}.

Record EvidenceVariable := {
  ev_trait : string;
  ev_probability : R
}.

Record BayesianInference := {
  inf_priors : list PriorProbability;
  inf_likelihoods : list LikelihoodMultiplier;
  inf_evidence : list EvidenceVariable;
  inf_posteriors : JSMap (JSMap R)
}.

Record InferenceResult := {
  res_category : string;
  res_traits : JSMap R;
  recommendedTrait : string;
  confidence : R
}.

(** ** Prior probabilities *)

(** These represent base rates in the general population. *)
Definition PRIORS : list PriorProbability := [
  (* Psychological Profile Priors *)
  {| prior_trait := IntroversionExtroversion.HIGHLY_INTROVERTED; prior_category := "introversionExtroversion"; prior_probability := 0.10 |};
  {| prior_trait := IntroversionExtroversion.INTROVERTED; prior_category := "introversionExtroversion"; prior_probability := 0.30 |};
  {| prior_trait := IntroversionExtroversion.AMBIVERT; prior_category := "introversionExtroversion"; prior_probability := 0.40 |};
  {| prior_trait := IntroversionExtroversion.EXTROVERTED; prior_category := "introversionExtroversion"; prior_probability := 0.15 |};
  {| prior_trait := IntroversionExtroversion.HIGHLY_EXTROVERTED; prior_category := "introversionExtroversion"; prior_probability := 0.05 |};

  {| prior_trait := AttachmentStyle.SECURE; prior_category := "attachmentStyle"; prior_probability := 0.55 |};
  {| prior_trait := AttachmentStyle.ANXIOUS; prior_category := "attachmentStyle"; prior_probability := 0.20 |};
  {| prior_trait := AttachmentStyle.AVOIDANT; prior_category := "attachmentStyle"; prior_probability := 0.20 |};
  {| prior_trait := AttachmentStyle.FEARFUL_AVOIDANT; prior_category := "attachmentStyle"; prior_probability := 0.05 |};

  {| prior_trait := TrustLevel.HIGHLY_SKEPTICAL; prior_category := "trustLevel"; prior_probability := 0.05 |};
  {| prior_trait := TrustLevel.SKEPTICAL; prior_category := "trustLevel"; prior_probability := 0.25 |};
  {| prior_trait := TrustLevel.NEUTRAL; prior_category := "trustLevel"; prior_probability := 0.40 |};
  {| prior_trait := TrustLevel.TRUSTING; prior_category := "trustLevel"; prior_probability := 0.25 |};
  {| prior_trait := TrustLevel.HIGHLY_TRUSTING; prior_category := "trustLevel"; prior_probability := 0.05 |};

  (* Vulnerabilities *)
  {| prior_trait := "Fear of abandonment"; prior_category := "vulnerabilities"; prior_probability := 0.15 |};
  {| prior_trait := "Need for validation"; prior_category := "vulnerabilities"; prior_probability := 0.30 |};
  {| prior_trait := "Fear of rejection"; prior_category := "vulnerabilities"; prior_probability := 0.25 |};
  {| prior_trait := "Overthinking"; prior_category := "vulnerabilities"; prior_probability := 0.35 |};
  {| prior_trait := "Imposter syndrome"; prior_category := "vulnerabilities"; prior_probability := 0.20 |};
  {| prior_trait := "Perfectionism"; prior_category := "vulnerabilities"; prior_probability := 0.15 |};
  {| prior_trait := "Need for control"; prior_category := "vulnerabilities"; prior_probability := 0.10 |};
  {| prior_trait := "Fear of failure"; prior_category := "vulnerabilities"; prior_probability := 0.30 |};
  {| prior_trait := "Fear of intimacy"; prior_category := "vulnerabilities"; prior_probability := 0.15 |};
  {| prior_trait := "Fear of conflict"; prior_category := "vulnerabilities"; prior_probability := 0.25 |};
  {| prior_trait := "Need for reassurance"; prior_category := "vulnerabilities"; prior_probability := 0.20 |};
  {| prior_trait := "Fear of being irrelevant"; prior_category := "vulnerabilities"; prior_probability := 0.15 |};

  (* Social Hierarchy Position Priors *)
  {| prior_trait := SocialRole.LEADER; prior_category := "socialRole"; prior_probability := 0.10 |};
  {| prior_trait := SocialRole.FOLLOWER; prior_category := "socialRole"; prior_probability := 0.50 |};
  {| prior_trait := SocialRole.CONNECTOR; prior_category := "socialRole"; prior_probability := 0.15 |};
  {| prior_trait := SocialRole.OUTLIER; prior_category := "socialRole"; prior_probability := 0.15 |};
  {| prior_trait := SocialRole.GATEKEEPER; prior_category := "socialRole"; prior_probability := 0.05 |};
  {| prior_trait := SocialRole.MEDIATOR; prior_category := "socialRole"; prior_probability := 0.05 |};

  (* Communication Style Priors *)
  {| prior_trait := CommunicationStyle.DIRECT; prior_category := "communicationStyle"; prior_probability := 0.20 |};
  {| prior_trait := CommunicationStyle.INDIRECT; prior_category := "communicationStyle"; prior_probability := 0.25 |};
  {| prior_trait := CommunicationStyle.RESERVED; prior_category := "communicationStyle"; prior_probability := 0.15 |};
  {| prior_trait := CommunicationStyle.ANALYTICAL; prior_category := "communicationStyle"; prior_probability := 0.10 |};
  {| prior_trait := CommunicationStyle.EMOTIONAL; prior_category := "communicationStyle"; prior_probability := 0.15 |};
  {| prior_trait := CommunicationStyle.FUNCTIONAL; prior_category := "communicationStyle"; prior_probability := 0.05 |};
  {| prior_trait := CommunicationStyle.PERSONAL; prior_category := "communicationStyle"; prior_probability := 0.05 |};
  {| prior_trait := CommunicationStyle.INTUITIVE; prior_category := "communicationStyle"; prior_probability := 0.05 |};

  (* Communication Channel Priors *)
  {| prior_trait := CommunicationChannel.VERBAL; prior_category := "communicationChannel"; prior_probability := 0.40 |};
  {| prior_trait := CommunicationChannel.WRITTEN; prior_category := "communicationChannel"; prior_probability := 0.20 |};
  {| prior_trait := CommunicationChannel.NONVERBAL; prior_category := "communicationChannel"; prior_probability := 0.15 |};
  {| prior_trait := CommunicationChannel.DIGITAL; prior_category := "communicationChannel"; prior_probability := 0.25 |};

  (* Motivations Priors *)
  {| prior_trait := "Belonging"; prior_category := "desires"; prior_probability := 0.30 |};
  {| prior_trait := "Achievement"; prior_category := "desires"; prior_probability := 0.25 |};
  {| prior_trait := "Recognition"; prior_category := "desires"; prior_probability := 0.15 |};
  {| prior_trait := "Power"; prior_category := "desires"; prior_probability := 0.10 |};
  {| prior_trait := "Security"; prior_category := "desires"; prior_probability := 0.20 |};
  {| prior_trait := "Freedom"; prior_category := "desires"; prior_probability := 0.15 |};
  {| prior_trait := "Understanding"; prior_category := "desires"; prior_probability := 0.10 |};
  {| prior_trait := "Being understood"; prior_category := "desires"; prior_probability := 0.25 |};
  {| prior_trait := "Creativity"; prior_category := "desires"; prior_probability := 0.10 |};
  {| prior_trait := "Harmony"; prior_category := "desires"; prior_probability := 0.15 |};
  {| prior_trait := "Growth"; prior_category := "desires"; prior_probability := 0.15 |};
  {| prior_trait := "Helping others"; prior_category := "desires"; prior_probability := 0.10 |};

  (* Insecurities Priors *)
  {| prior_trait := "Rejection"; prior_category := "fears"; prior_probability := 0.30 |};
  {| prior_trait := "Failure"; prior_category := "fears"; prior_probability := 0.25 |};
  {| prior_trait := "Abandonment"; prior_category := "fears"; prior_probability := 0.15 |};
  {| prior_trait := "Inadequacy"; prior_category := "fears"; prior_probability := 0.20 |};
  {| prior_trait := "Criticism"; prior_category := "fears"; prior_probability := 0.15 |};
  {| prior_trait := "Being controlled"; prior_category := "fears"; prior_probability := 0.10 |};
  {| prior_trait := "Being irrelevant"; prior_category := "fears"; prior_probability := 0.15 |};
  {| prior_trait := "Uncertainty"; prior_category := "fears"; prior_probability := 0.20 |};
  {| prior_trait := "Vulnerability"; prior_category := "fears"; prior_probability := 0.15 |};
  {| prior_trait := "Conflict"; prior_category := "fears"; prior_probability := 0.25 |};
  {| prior_trait := "Intimacy"; prior_category := "fears"; prior_probability := 0.10 |};
  {| prior_trait := "Being misunderstood"; prior_category := "fears"; prior_probability := 0.20 |};

  (* Trust Triggers Priors *)
  {| prior_trait := "Shared interests"; prior_category := "trustTriggers"; prior_probability := 0.25 |};
  {| prior_trait := "Vulnerability disclosure"; prior_category := "trustTriggers"; prior_probability := 0.15 |};
  {| prior_trait := "Consistent behavior"; prior_category := "trustTriggers"; prior_probability := 0.20 |};
  {| prior_trait := "Shared values"; prior_category := "trustTriggers"; prior_probability := 0.15 |};
  {| prior_trait := "Active listening"; prior_category := "trustTriggers"; prior_probability := 0.10 |};
  {| prior_trait := "Shared experiences"; prior_category := "trustTriggers"; prior_probability := 0.20 |};
  {| prior_trait := "Relatability"; prior_category := "trustTriggers"; prior_probability := 0.25 |};
  {| prior_trait := "Shared emotional language"; prior_category := "trustTriggers"; prior_probability := 0.15 |};
  {| prior_trait := "Shared humor"; prior_category := "trustTriggers"; prior_probability := 0.15 |};
  {| prior_trait := "Perceived competence"; prior_category := "trustTriggers"; prior_probability := 0.10 |};
  {| prior_trait := "Shared adversity"; prior_category := "trustTriggers"; prior_probability := 0.10 |};
  {| prior_trait := "Perceived authenticity"; prior_category := "trustTriggers"; prior_probability := 0.20 |};

  (* Decision Making Priors *)
  {| prior_trait := "Highly emotional"; prior_category := "emotionVsLogic"; prior_probability := 0.10 |};
  {| prior_trait := "Moderately emotional"; prior_category := "emotionVsLogic"; prior_probability := 0.25 |};
  {| prior_trait := "Balanced"; prior_category := "emotionVsLogic"; prior_probability := 0.30 |};
  {| prior_trait := "Moderately logical"; prior_category := "emotionVsLogic"; prior_probability := 0.25 |};
  {| prior_trait := "Highly logical"; prior_category := "emotionVsLogic"; prior_probability := 0.10 |};

  {| prior_trait := "Very slow"; prior_category := "decisionPacing"; prior_probability := 0.10 |};
  {| prior_trait := "Slow"; prior_category := "decisionPacing"; prior_probability := 0.20 |};
  {| prior_trait := "Moderate"; prior_category := "decisionPacing"; prior_probability := 0.40 |};
  {| prior_trait := "Fast"; prior_category := "decisionPacing"; prior_probability := 0.20 |};
  {| prior_trait := "Very fast"; prior_category := "decisionPacing"; prior_probability := 0.10 |};

  (* Identity Anchors Priors *)
  {| prior_trait := "Professional role"; prior_category := "identityAnchors"; prior_probability := 0.25 |};
  {| prior_trait := "Relationships"; prior_category := "identityAnchors"; prior_probability := 0.20 |};
  {| prior_trait := "Beliefs/values"; prior_category := "identityAnchors"; prior_probability := 0.15 |};
  {| prior_trait := "Skills/abilities"; prior_category := "identityAnchors"; prior_probability := 0.15 |};
  {| prior_trait := "Group membership"; prior_category := "identityAnchors"; prior_probability := 0.10 |};
  {| prior_trait := "Personal history"; prior_category := "identityAnchors"; prior_probability := 0.10 |};
  {| prior_trait := "Physical attributes"; prior_category := "identityAnchors"; prior_probability := 0.05 |}].

(** ** Likelihood multipliers *)

(** These represent how much more/less likely a trait is given evidence. *)
Definition LIKELIHOOD_MULTIPLIERS : list LikelihoodMultiplier := [
  (* Introverted/Extroverted Evidence Effects *)
  {| lm_evidence := IntroversionExtroversion.HIGHLY_INTROVERTED; lm_trait := AttachmentStyle.AVOIDANT; lm_multiplier := 1.8 |};
  {| lm_evidence := IntroversionExtroversion.HIGHLY_INTROVERTED; lm_trait := AttachmentStyle.FEARFUL_AVOIDANT; lm_multiplier := 1.5 |};
  {| lm_evidence := IntroversionExtroversion.HIGHLY_INTROVERTED; lm_trait := TrustLevel.SKEPTICAL; lm_multiplier := 1.3 |};
  {| lm_evidence := IntroversionExtroversion.HIGHLY_INTROVERTED; lm_trait := TrustLevel.HIGHLY_SKEPTICAL; lm_multiplier := 1.4 |};
  {| lm_evidence := IntroversionExtroversion.HIGHLY_INTROVERTED; lm_trait := "Fear of rejection"; lm_multiplier := 1.5 |};
  {| lm_evidence := IntroversionExtroversion.HIGHLY_INTROVERTED; lm_trait := "Overthinking"; lm_multiplier := 1.7 |};
  {| lm_evidence := IntroversionExtroversion.HIGHLY_INTROVERTED; lm_trait := SocialRole.OUTLIER; lm_multiplier := 2.0 |};
  {| lm_evidence := IntroversionExtroversion.HIGHLY_INTROVERTED; lm_trait := CommunicationStyle.RESERVED; lm_multiplier := 2.2 |};
  {| lm_evidence := IntroversionExtroversion.HIGHLY_INTROVERTED; lm_trait := CommunicationStyle.ANALYTICAL; lm_multiplier := 1.6 |};
  {| lm_evidence := IntroversionExtroversion.HIGHLY_INTROVERTED; lm_trait := CommunicationChannel.WRITTEN; lm_multiplier := 1.8 |};
  {| lm_evidence := IntroversionExtroversion.HIGHLY_INTROVERTED; lm_trait := "Being misunderstood"; lm_multiplier := 1.5 |};
  {| lm_evidence := IntroversionExtroversion.HIGHLY_INTROVERTED; lm_trait := "Slow"; lm_multiplier := 1.6 |};
  {| lm_evidence := IntroversionExtroversion.HIGHLY_INTROVERTED; lm_trait := "Very slow"; lm_multiplier := 1.4 |};

  {| lm_evidence := IntroversionExtroversion.INTROVERTED; lm_trait := AttachmentStyle.AVOIDANT; lm_multiplier := 1.4 |};
  {| lm_evidence := IntroversionExtroversion.INTROVERTED; lm_trait := TrustLevel.SKEPTICAL; lm_multiplier := 1.2 |};
  {| lm_evidence := IntroversionExtroversion.INTROVERTED; lm_trait := "Overthinking"; lm_multiplier := 1.5 |};
  {| lm_evidence := IntroversionExtroversion.INTROVERTED; lm_trait := SocialRole.OUTLIER; lm_multiplier := 1.5 |};
  {| lm_evidence := IntroversionExtroversion.INTROVERTED; lm_trait := CommunicationStyle.RESERVED; lm_multiplier := 1.8 |};
  {| lm_evidence := IntroversionExtroversion.INTROVERTED; lm_trait := CommunicationStyle.ANALYTICAL; lm_multiplier := 1.4 |};
  {| lm_evidence := IntroversionExtroversion.INTROVERTED; lm_trait := CommunicationChannel.WRITTEN; lm_multiplier := 1.5 |};
  {| lm_evidence := IntroversionExtroversion.INTROVERTED; lm_trait := "Slow"; lm_multiplier := 1.3 |};

  {| lm_evidence := IntroversionExtroversion.EXTROVERTED; lm_trait := AttachmentStyle.SECURE; lm_multiplier := 1.3 |};
  {| lm_evidence := IntroversionExtroversion.EXTROVERTED; lm_trait := TrustLevel.TRUSTING; lm_multiplier := 1.4 |};
  {| lm_evidence := IntroversionExtroversion.EXTROVERTED; lm_trait := SocialRole.CONNECTOR; lm_multiplier := 1.8 |};
  {| lm_evidence := IntroversionExtroversion.EXTROVERTED; lm_trait := SocialRole.LEADER; lm_multiplier := 1.5 |};
  {| lm_evidence := IntroversionExtroversion.EXTROVERTED; lm_trait := CommunicationStyle.DIRECT; lm_multiplier := 1.6 |};
  {| lm_evidence := IntroversionExtroversion.EXTROVERTED; lm_trait := CommunicationStyle.EMOTIONAL; lm_multiplier := 1.4 |};
  {| lm_evidence := IntroversionExtroversion.EXTROVERTED; lm_trait := CommunicationChannel.VERBAL; lm_multiplier := 1.7 |};
  {| lm_evidence := IntroversionExtroversion.EXTROVERTED; lm_trait := "Fast"; lm_multiplier := 1.5 |};

  {| lm_evidence := IntroversionExtroversion.HIGHLY_EXTROVERTED; lm_trait := AttachmentStyle.SECURE; lm_multiplier := 1.5 |};
  {| lm_evidence := IntroversionExtroversion.HIGHLY_EXTROVERTED; lm_trait := TrustLevel.TRUSTING; lm_multiplier := 1.6 |};
  {| lm_evidence := IntroversionExtroversion.HIGHLY_EXTROVERTED; lm_trait := TrustLevel.HIGHLY_TRUSTING; lm_multiplier := 1.8 |};
  {| lm_evidence := IntroversionExtroversion.HIGHLY_EXTROVERTED; lm_trait := SocialRole.CONNECTOR; lm_multiplier := 2.0 |};
  {| lm_evidence := IntroversionExtroversion.HIGHLY_EXTROVERTED; lm_trait := SocialRole.LEADER; lm_multiplier := 1.9 |};
  {| lm_evidence := IntroversionExtroversion.HIGHLY_EXTROVERTED; lm_trait := CommunicationStyle.DIRECT; lm_multiplier := 1.8 |};
  {| lm_evidence := IntroversionExtroversion.HIGHLY_EXTROVERTED; lm_trait := CommunicationStyle.EMOTIONAL; lm_multiplier := 1.7 |};
  {| lm_evidence := IntroversionExtroversion.HIGHLY_EXTROVERTED; lm_trait := CommunicationChannel.VERBAL; lm_multiplier := 2.0 |};
  {| lm_evidence := IntroversionExtroversion.HIGHLY_EXTROVERTED; lm_trait := "Recognition"; lm_multiplier := 1.7 |};
  {| lm_evidence := IntroversionExtroversion.HIGHLY_EXTROVERTED; lm_trait := "Fast"; lm_multiplier := 1.6 |};
  {| lm_evidence := IntroversionExtroversion.HIGHLY_EXTROVERTED; lm_trait := "Very fast"; lm_multiplier := 1.8 |};

  (* Attachment Style Evidence Effects *)
  {| lm_evidence := AttachmentStyle.ANXIOUS; lm_trait := "Fear of abandonment"; lm_multiplier := 2.5 |};
  {| lm_evidence := AttachmentStyle.ANXIOUS; lm_trait := "Need for reassurance"; lm_multiplier := 2.2 |};
  {| lm_evidence := AttachmentStyle.ANXIOUS; lm_trait := "Fear of rejection"; lm_multiplier := 2.0 |};
  {| lm_evidence := AttachmentStyle.ANXIOUS; lm_trait := "Overthinking"; lm_multiplier := 1.8 |};
  {| lm_evidence := AttachmentStyle.ANXIOUS; lm_trait := CommunicationStyle.EMOTIONAL; lm_multiplier := 1.7 |};
  {| lm_evidence := AttachmentStyle.ANXIOUS; lm_trait := "Belonging"; lm_multiplier := 1.9 |};
  {| lm_evidence := AttachmentStyle.ANXIOUS; lm_trait := "Being understood"; lm_multiplier := 1.8 |};
  {| lm_evidence := AttachmentStyle.ANXIOUS; lm_trait := "Vulnerability disclosure"; lm_multiplier := 1.6 |};
  {| lm_evidence := AttachmentStyle.ANXIOUS; lm_trait := "Highly emotional"; lm_multiplier := 1.7 |};
  {| lm_evidence := AttachmentStyle.ANXIOUS; lm_trait := "Moderately emotional"; lm_multiplier := 1.5 |};

  {| lm_evidence := AttachmentStyle.AVOIDANT; lm_trait := "Fear of intimacy"; lm_multiplier := 2.3 |};
  {| lm_evidence := AttachmentStyle.AVOIDANT; lm_trait := CommunicationStyle.RESERVED; lm_multiplier := 1.9 |};
  {| lm_evidence := AttachmentStyle.AVOIDANT; lm_trait := "Freedom"; lm_multiplier := 1.8 |};
  {| lm_evidence := AttachmentStyle.AVOIDANT; lm_trait := "Being controlled"; lm_multiplier := 1.7 |};
  {| lm_evidence := AttachmentStyle.AVOIDANT; lm_trait := SocialRole.OUTLIER; lm_multiplier := 1.6 |};
  {| lm_evidence := AttachmentStyle.AVOIDANT; lm_trait := "Moderately logical"; lm_multiplier := 1.4 |};
  {| lm_evidence := AttachmentStyle.AVOIDANT; lm_trait := "Highly logical"; lm_multiplier := 1.5 |};

  {| lm_evidence := AttachmentStyle.FEARFUL_AVOIDANT; lm_trait := "Fear of abandonment"; lm_multiplier := 2.0 |};
  {| lm_evidence := AttachmentStyle.FEARFUL_AVOIDANT; lm_trait := "Fear of intimacy"; lm_multiplier := 2.0 |};
  {| lm_evidence := AttachmentStyle.FEARFUL_AVOIDANT; lm_trait := "Overthinking"; lm_multiplier := 2.1 |};
  {| lm_evidence := AttachmentStyle.FEARFUL_AVOIDANT; lm_trait := TrustLevel.HIGHLY_SKEPTICAL; lm_multiplier := 1.9 |};
  {| lm_evidence := AttachmentStyle.FEARFUL_AVOIDANT; lm_trait := "Vulnerability"; lm_multiplier := 1.8 |};

  {| lm_evidence := AttachmentStyle.SECURE; lm_trait := TrustLevel.TRUSTING; lm_multiplier := 1.8 |};
  {| lm_evidence := AttachmentStyle.SECURE; lm_trait := "Consistent behavior"; lm_multiplier := 1.6 |};
  {| lm_evidence := AttachmentStyle.SECURE; lm_trait := "Balanced"; lm_multiplier := 1.7 |};
  {| lm_evidence := AttachmentStyle.SECURE; lm_trait := "Moderate"; lm_multiplier := 1.5 |};

  (* Trust Level Evidence Effects *)
  {| lm_evidence := TrustLevel.HIGHLY_SKEPTICAL; lm_trait := "Fear of betrayal"; lm_multiplier := 2.2 |};
  {| lm_evidence := TrustLevel.HIGHLY_SKEPTICAL; lm_trait := CommunicationStyle.RESERVED; lm_multiplier := 1.8 |};
  {| lm_evidence := TrustLevel.HIGHLY_SKEPTICAL; lm_trait := "Perceived authenticity"; lm_multiplier := 0.5 |};

  {| lm_evidence := TrustLevel.TRUSTING; lm_trait := "Vulnerability disclosure"; lm_multiplier := 1.7 |};
  {| lm_evidence := TrustLevel.TRUSTING; lm_trait := "Shared experiences"; lm_multiplier := 1.6 |};

  (* Social Role Evidence Effects *)
  {| lm_evidence := SocialRole.LEADER; lm_trait := "Power"; lm_multiplier := 2.0 |};
  {| lm_evidence := SocialRole.LEADER; lm_trait := "Achievement"; lm_multiplier := 1.8 |};
  {| lm_evidence := SocialRole.LEADER; lm_trait := CommunicationStyle.DIRECT; lm_multiplier := 1.7 |};
  {| lm_evidence := SocialRole.LEADER; lm_trait := "Fast"; lm_multiplier := 1.6 |};

  {| lm_evidence := SocialRole.FOLLOWER; lm_trait := "Security"; lm_multiplier := 1.6 |};
  {| lm_evidence := SocialRole.FOLLOWER; lm_trait := "Belonging"; lm_multiplier := 1.5 |};

  {| lm_evidence := SocialRole.CONNECTOR; lm_trait := "Relatability"; lm_multiplier := 1.9 |};
  {| lm_evidence := SocialRole.CONNECTOR; lm_trait := "Shared interests"; lm_multiplier := 1.7 |};
  {| lm_evidence := SocialRole.CONNECTOR; lm_trait := CommunicationStyle.PERSONAL; lm_multiplier := 1.8 |};

  {| lm_evidence := SocialRole.OUTLIER; lm_trait := "Being misunderstood"; lm_multiplier := 1.8 |};
  {| lm_evidence := SocialRole.OUTLIER; lm_trait := "Freedom"; lm_multiplier := 1.7 |};
  {| lm_evidence := SocialRole.OUTLIER; lm_trait := "Being irrelevant"; lm_multiplier := 1.6 |};

  (* Communication Style Evidence Effects *)
  {| lm_evidence := CommunicationStyle.DIRECT; lm_trait := "Conflict"; lm_multiplier := 1.4 |};
  {| lm_evidence := CommunicationStyle.DIRECT; lm_trait := TrustLevel.TRUSTING; lm_multiplier := 1.3 |};

  {| lm_evidence := CommunicationStyle.INDIRECT; lm_trait := "Conflict"; lm_multiplier := 0.7 |};
  {| lm_evidence := CommunicationStyle.INDIRECT; lm_trait := "Fear of rejection"; lm_multiplier := 1.5 |};

  {| lm_evidence := CommunicationStyle.RESERVED; lm_trait := "Being misunderstood"; lm_multiplier := 1.6 |};
  {| lm_evidence := CommunicationStyle.RESERVED; lm_trait := "Vulnerability"; lm_multiplier := 1.5 |};

  {| lm_evidence := CommunicationStyle.ANALYTICAL; lm_trait := "Highly logical"; lm_multiplier := 2.0 |};
  {| lm_evidence := CommunicationStyle.ANALYTICAL; lm_trait := "Moderately logical"; lm_multiplier := 1.7 |};

  {| lm_evidence := CommunicationStyle.EMOTIONAL; lm_trait := "Highly emotional"; lm_multiplier := 2.0 |};
  {| lm_evidence := CommunicationStyle.EMOTIONAL; lm_trait := "Moderately emotional"; lm_multiplier := 1.7 |}

  (* Many more multipliers would be defined for a complete system... *)].

(** ** Helper functions, over arbitrary tables *)

Module Engine.
Section Tables.

Variable priors : list PriorProbability.
Variable likelihoods : list LikelihoodMultiplier.

(** Gets the prior probability for a trait in a category. *)
Definition getPrior (trait category : string) : R :=
  match find (fun p => (prior_trait p =? trait)
                       && (prior_category p =? category)) priors with
  | Some prior => prior_probability prior
  | None => 0.01
  end.

(** Gets all traits for a specific category. *)
Definition getTraitsForCategory (category : string)
  : list PriorProbability :=
  filter (fun p => prior_category p =? category) priors.

(** Gets the likelihood multiplier for evidence affecting a trait. *)
Definition getLikelihoodMultiplier (evidence trait : string) : R :=
  match find (fun lm => (lm_evidence lm =? evidence)
                        && (lm_trait lm =? trait)) likelihoods with
  | Some multiplier => lm_multiplier multiplier
  | None => 1.0
  end.

(** The inner loop shared by [calculateNormalizationFactor] and
    [calculatePosteriors]: starting from the prior of [trait], apply each
    piece of evidence. *)
Definition applyEvidence (trait : PriorProbability)
           (evidence : list EvidenceVariable) : R :=
  fold_left
    (fun posterior ev =>
       let multiplier :=
         getLikelihoodMultiplier (ev_trait ev) (prior_trait trait) in
       posterior * Math_pow multiplier (ev_probability ev))
    evidence (prior_probability trait).

(** Calculates the normalization factor for a category. *)
Definition calculateNormalizationFactor (category : string)
           (evidence : list EvidenceVariable) : R :=
  let traits := getTraitsForCategory category in
  fold_left
    (fun normalizationFactor trait =>
       normalizationFactor + applyEvidence trait evidence)
    traits 0.

(** Calculates posterior probabilities for all traits in a category.
    The body of the source function is given with the operator of
    [posterior /= normalizationFactor] as a parameter: in the source the
    quotient by a zero divisor is not a number of this embedding ([NaN]
    or an infinity), and a property that holds for every [divide] does not
    depend on such a quotient, that is, the division is not evaluated
    there. *)
Definition calculatePosteriorsWith (divide : R -> R -> R)
           (category : string) (evidence : list EvidenceVariable)
  : JSMap R :=
  let traits := getTraitsForCategory category in
  let normalizationFactor :=
    calculateNormalizationFactor category evidence in
  fold_left
    (fun posteriors trait =>
       let posterior := applyEvidence trait evidence in
       let posterior :=
         if Rlt_dec 0 normalizationFactor
         then divide posterior normalizationFactor
         else posterior in
       Map_set (prior_trait trait) posterior posteriors)
    traits [].

(** [calculatePosteriors] itself, with the division of the reals. *)
Definition calculatePosteriors (category : string)
           (evidence : list EvidenceVariable) : JSMap R :=
  calculatePosteriorsWith Rdiv category evidence.

End Tables.
End Engine.

(** ** The engine on the tables of the module *)

Definition getPrior := Engine.getPrior PRIORS.
Definition getTraitsForCategory := Engine.getTraitsForCategory PRIORS.
Definition getLikelihoodMultiplier :=
  Engine.getLikelihoodMultiplier LIKELIHOOD_MULTIPLIERS.
Definition calculateNormalizationFactor :=
  Engine.calculateNormalizationFactor PRIORS LIKELIHOOD_MULTIPLIERS.
Definition calculatePosteriors :=
  Engine.calculatePosteriors PRIORS LIKELIHOOD_MULTIPLIERS.

(** Finds the trait with the highest probability in a map. *)
Definition findHighestProbabilityTrait (posteriors : JSMap R)
  : string * R :=
  fold_left
    (fun '(highestTrait, highestProbability) '(trait, probability) =>
       if Rlt_dec highestProbability probability
       then (trait, probability)
       else (highestTrait, highestProbability))
    posteriors ("", 0).

(** Calculates confidence based on the difference between the highest and
    second highest probabilities. *)
Definition calculateConfidence (posteriors : JSMap R) : R :=
  let probabilities :=
    Array_sort (fun a b => b - a) (Map_values posteriors) in
  match probabilities with
  | p0 :: p1 :: _ =>
      let gap := p0 - p1 in
      Math_min 1.0 (Math_max 0.0 (gap * 3))
  | _ => 1.0
  end.

(** ** Main inference engine *)

(** Performs Bayesian inference to calculate trait probabilities based on
    evidence. *)
Definition performInference (evidence : list EvidenceVariable)
  : BayesianInference :=
  let categories := Array_from_Set (map prior_category PRIORS) in
  {| inf_priors := PRIORS;
     inf_likelihoods := LIKELIHOOD_MULTIPLIERS;
     inf_evidence := evidence;
     inf_posteriors :=
       fold_left
         (fun posteriors category =>
            Map_set category (calculatePosteriors category evidence)
                    posteriors)
         categories [] |}.

(** Gets inference results for a specific category. *)
Definition getInferenceResult (inference : BayesianInference)
           (category : string) : option InferenceResult :=
  match Map_get category (inf_posteriors inference) with
  | None => None
  | Some categoryPosteriors =>
      let '(recommended, _) :=
        findHighestProbabilityTrait categoryPosteriors in
      let confidence := calculateConfidence categoryPosteriors in
      let traitsObject :=
        fold_left (fun obj '(trait, prob) => Map_set trait prob obj)
                  categoryPosteriors [] in
      Some {| res_category := category;
              res_traits := traitsObject;
              recommendedTrait := recommended;
              confidence := confidence |}
  end.

(** Truthiness of the values the engine tests with [!x]: the empty string
    and the number [0] are falsy. *)
Definition truthy_string (s : string) : bool := negb (s =? "").
Definition truthy_number (x : R) : bool :=
  if Req_dec_T x 0 then false else true.

(** The guard [!xs || xs.length === 0] on a list field. *)
Definition unset_list {A : Type} (xs : list A) : bool :=
  match xs with [] => true | _ :: _ => false end.

(** Extracts evidence from a character's existing traits. *)
Definition extractEvidenceFromCharacter (character : Character)
  : list EvidenceVariable :=
  let push (field : string) (evidence : list EvidenceVariable) :=
    if truthy_string field
    then (evidence ++ [ {| ev_trait := field; ev_probability := 1.0 |} ])%list
    else evidence in
  let evidence := [] in
  (* Extract from psychological profile *)
  let evidence :=
    push (introversionExtroversion (psychologicalProfile character))
         evidence in
  let evidence :=
    push (attachmentStyle (psychologicalProfile character)) evidence in
  let evidence :=
    push (trustLevel (psychologicalProfile character)) evidence in
  (* Extract from social hierarchy *)
  let evidence :=
    push (role (socialHierarchyPosition character)) evidence in
  (* Extract from communication *)
  let evidence :=
    push (primaryStyle (communication character)) evidence in
  evidence.

(** ** Autocomplete functions *)

(** [JSON.parse(JSON.stringify(x))]: a structural copy.  The modelled values
    (strings, numbers, arrays and plain objects of these) survive the round
    trip unchanged, and the copy shares nothing with its source. *)
Definition JSON_copy {A : Type} (x : A) : A := x.

(** Assignments to the fields of the copy. *)
Definition set_introversionExtroversion (c : Character) (v : string)
  : Character :=
  let p := psychologicalProfile c in
  {| psychologicalProfile :=
       {| introversionExtroversion := v;
          attachmentStyle := attachmentStyle p;
          trustLevel := trustLevel p;
          likelyVulnerabilities := likelyVulnerabilities p |};
     socialHierarchyPosition := socialHierarchyPosition c;
     motivationsInsecurities := motivationsInsecurities c;
     trustSignalsVulnerabilityMarkers := trustSignalsVulnerabilityMarkers c;
     communication := communication c;
     decisionMaking := decisionMaking c;
     identityAnchors := identityAnchors c |}.

Definition set_attachmentStyle (c : Character) (v : string) : Character :=
  let p := psychologicalProfile c in
  {| psychologicalProfile :=
       {| introversionExtroversion := introversionExtroversion p;
          attachmentStyle := v;
          trustLevel := trustLevel p;
          likelyVulnerabilities := likelyVulnerabilities p |};
     socialHierarchyPosition := socialHierarchyPosition c;
     motivationsInsecurities := motivationsInsecurities c;
     trustSignalsVulnerabilityMarkers := trustSignalsVulnerabilityMarkers c;
     communication := communication c;
     decisionMaking := decisionMaking c;
     identityAnchors := identityAnchors c |}.

Definition set_trustLevel (c : Character) (v : string) : Character :=
  let p := psychologicalProfile c in
  {| psychologicalProfile :=
       {| introversionExtroversion := introversionExtroversion p;
          attachmentStyle := attachmentStyle p;
          trustLevel := v;
          likelyVulnerabilities := likelyVulnerabilities p |};
     socialHierarchyPosition := socialHierarchyPosition c;
     motivationsInsecurities := motivationsInsecurities c;
     trustSignalsVulnerabilityMarkers := trustSignalsVulnerabilityMarkers c;
     communication := communication c;
     decisionMaking := decisionMaking c;
     identityAnchors := identityAnchors c |}.

Definition set_likelyVulnerabilities (c : Character)
           (v : list Vulnerability) : Character :=
  let p := psychologicalProfile c in
  {| psychologicalProfile :=
       {| introversionExtroversion := introversionExtroversion p;
          attachmentStyle := attachmentStyle p;
          trustLevel := trustLevel p;
          likelyVulnerabilities := v |};
     socialHierarchyPosition := socialHierarchyPosition c;
     motivationsInsecurities := motivationsInsecurities c;
     trustSignalsVulnerabilityMarkers := trustSignalsVulnerabilityMarkers c;
     communication := communication c;
     decisionMaking := decisionMaking c;
     identityAnchors := identityAnchors c |}.

Definition set_role (c : Character) (v : string) : Character :=
  let s := socialHierarchyPosition c in
  {| psychologicalProfile := psychologicalProfile c;
     socialHierarchyPosition :=
       {| role := v;
          influence := influence s;
          approvalDependency := approvalDependency s |};
     motivationsInsecurities := motivationsInsecurities c;
     trustSignalsVulnerabilityMarkers := trustSignalsVulnerabilityMarkers c;
     communication := communication c;
     decisionMaking := decisionMaking c;
     identityAnchors := identityAnchors c |}.

Definition set_primaryStyle (c : Character) (v : string) : Character :=
  {| psychologicalProfile := psychologicalProfile c;
     socialHierarchyPosition := socialHierarchyPosition c;
     motivationsInsecurities := motivationsInsecurities c;
     trustSignalsVulnerabilityMarkers := trustSignalsVulnerabilityMarkers c;
     communication :=
       {| primaryStyle := v;
          preferredChannels := preferredChannels (communication c) |};
     decisionMaking := decisionMaking c;
     identityAnchors := identityAnchors c |}.

Definition set_emotionVsLogic (c : Character) (v : R) : Character :=
  {| psychologicalProfile := psychologicalProfile c;
     socialHierarchyPosition := socialHierarchyPosition c;
     motivationsInsecurities := motivationsInsecurities c;
     trustSignalsVulnerabilityMarkers := trustSignalsVulnerabilityMarkers c;
     communication := communication c;
     decisionMaking :=
       {| emotionVsLogic := v; pacing := pacing (decisionMaking c) |};
     identityAnchors := identityAnchors c |}.

Definition set_pacing (c : Character) (v : string) : Character :=
  {| psychologicalProfile := psychologicalProfile c;
     socialHierarchyPosition := socialHierarchyPosition c;
     motivationsInsecurities := motivationsInsecurities c;
     trustSignalsVulnerabilityMarkers := trustSignalsVulnerabilityMarkers c;
     communication := communication c;
     decisionMaking :=
       {| emotionVsLogic := emotionVsLogic (decisionMaking c);
          pacing := v |};
     identityAnchors := identityAnchors c |}.

Definition set_desires (c : Character) (v : list MotivationFactor)
  : Character :=
  {| psychologicalProfile := psychologicalProfile c;
     socialHierarchyPosition := socialHierarchyPosition c;
     motivationsInsecurities :=
       {| desires := v; fears := fears (motivationsInsecurities c) |};
     trustSignalsVulnerabilityMarkers := trustSignalsVulnerabilityMarkers c;
     communication := communication c;
     decisionMaking := decisionMaking c;
     identityAnchors := identityAnchors c |}.

Definition set_fears (c : Character) (v : list InsecurityFactor)
  : Character :=
  {| psychologicalProfile := psychologicalProfile c;
     socialHierarchyPosition := socialHierarchyPosition c;
     motivationsInsecurities :=
       {| desires := desires (motivationsInsecurities c); fears := v |};
     trustSignalsVulnerabilityMarkers := trustSignalsVulnerabilityMarkers c;
     communication := communication c;
     decisionMaking := decisionMaking c;
     identityAnchors := identityAnchors c |}.

Definition set_triggers (c : Character) (v : list TrustTrigger)
  : Character :=
  {| psychologicalProfile := psychologicalProfile c;
     socialHierarchyPosition := socialHierarchyPosition c;
     motivationsInsecurities := motivationsInsecurities c;
     trustSignalsVulnerabilityMarkers := {| triggers := v |};
     communication := communication c;
     decisionMaking := decisionMaking c;
     identityAnchors := identityAnchors c |}.

Definition set_coreAnchors (c : Character) (v : list IdentityAnchor)
  : Character :=
  {| psychologicalProfile := psychologicalProfile c;
     socialHierarchyPosition := socialHierarchyPosition c;
     motivationsInsecurities := motivationsInsecurities c;
     trustSignalsVulnerabilityMarkers := trustSignalsVulnerabilityMarkers c;
     communication := communication c;
     decisionMaking := decisionMaking c;
     identityAnchors := {| coreAnchors := v |} |}.

(** [Object.entries(traits).sort(([, a], [, b]) => b - a).slice(0, 3)]:
    the three entries of highest probability, ties in insertion order. *)
Definition top3 (traits : JSMap R) : list (string * R) :=
  Array_slice 0 3 (Array_sort (fun x y => snd y - snd x) traits).

(** The table mapping the categorical result to a numerical value. *)
Definition emotionLogicMap : JSMap R := [
  ("Highly emotional", 0.9);
  ("Moderately emotional", 0.7);
  ("Balanced", 0.5);
  ("Moderately logical", 0.3);
  ("Highly logical", 0.1)
].

(** [emotionLogicMap[trait] || 0.5] *)
Definition emotionLogicValue (trait : string) : R :=
  match Map_get trait emotionLogicMap with
  | Some v => if truthy_number v then v else 0.5
  | None => 0.5
  end.

(** Every block of [autocompleteCharacter] has the same shape,

      if (unset(completedCharacter)) {
        const result = getInferenceResult(inference, category);
        if (result) { assign(completedCharacter, result); }
      }

    [fill] is that shape.  The fields read by the guards, the guards
    ([needs_x] is the test [!completedCharacter...x], for the list fields
    [!xs || xs.length === 0]) and the assignments of the twelve blocks
    follow. *)
Definition fill (unset : Character -> bool) (category : string)
           (assign : Character -> InferenceResult -> Character)
           (inference : BayesianInference) (c : Character) : Character :=
  if unset c
  then match getInferenceResult inference category with
       | Some result => assign c result
       | None => c
       end
  else c.

Definition get_introversionExtroversion (c : Character) : string :=
  introversionExtroversion (psychologicalProfile c).
Definition get_attachmentStyle (c : Character) : string :=
  attachmentStyle (psychologicalProfile c).
Definition get_trustLevel (c : Character) : string :=
  trustLevel (psychologicalProfile c).
Definition get_likelyVulnerabilities (c : Character) : list Vulnerability :=
  likelyVulnerabilities (psychologicalProfile c).
Definition get_role (c : Character) : string :=
  role (socialHierarchyPosition c).
Definition get_primaryStyle (c : Character) : string :=
  primaryStyle (communication c).
Definition get_emotionVsLogic (c : Character) : R :=
  emotionVsLogic (decisionMaking c).
Definition get_pacing (c : Character) : string :=
  pacing (decisionMaking c).
Definition get_desires (c : Character) : list MotivationFactor :=
  desires (motivationsInsecurities c).
Definition get_fears (c : Character) : list InsecurityFactor :=
  fears (motivationsInsecurities c).
Definition get_triggers (c : Character) : list TrustTrigger :=
  triggers (trustSignalsVulnerabilityMarkers c).
Definition get_coreAnchors (c : Character) : list IdentityAnchor :=
  coreAnchors (identityAnchors c).

Definition needs_introversionExtroversion (c : Character) : bool :=
  negb (truthy_string (get_introversionExtroversion c)).
Definition needs_attachmentStyle (c : Character) : bool :=
  negb (truthy_string (get_attachmentStyle c)).
Definition needs_trustLevel (c : Character) : bool :=
  negb (truthy_string (get_trustLevel c)).
Definition needs_likelyVulnerabilities (c : Character) : bool :=
  unset_list (get_likelyVulnerabilities c).
Definition needs_role (c : Character) : bool :=
  negb (truthy_string (get_role c)).
Definition needs_primaryStyle (c : Character) : bool :=
  negb (truthy_string (get_primaryStyle c)).
Definition needs_emotionVsLogic (c : Character) : bool :=
  negb (truthy_number (get_emotionVsLogic c)).
Definition needs_pacing (c : Character) : bool :=
  negb (truthy_string (get_pacing c)).
Definition needs_desires (c : Character) : bool :=
  unset_list (get_desires c).
Definition needs_fears (c : Character) : bool :=
  unset_list (get_fears c).
Definition needs_triggers (c : Character) : bool :=
  unset_list (get_triggers c).
Definition needs_coreAnchors (c : Character) : bool :=
  unset_list (get_coreAnchors c).

Definition assign_introversionExtroversion (c : Character)
           (result : InferenceResult) : Character :=
  set_introversionExtroversion c (recommendedTrait result).
Definition assign_attachmentStyle (c : Character)
           (result : InferenceResult) : Character :=
  set_attachmentStyle c (recommendedTrait result).
Definition assign_trustLevel (c : Character) (result : InferenceResult)
  : Character :=
  set_trustLevel c (recommendedTrait result).
Definition assign_likelyVulnerabilities (c : Character)
           (result : InferenceResult) : Character :=
  set_likelyVulnerabilities
    c (map (fun '(trait, probability) =>
              {| vuln_type := trait; vuln_probability := probability |})
           (top3 (res_traits result))).
Definition assign_role (c : Character) (result : InferenceResult)
  : Character :=
  set_role c (recommendedTrait result).
Definition assign_primaryStyle (c : Character) (result : InferenceResult)
  : Character :=
  set_primaryStyle c (recommendedTrait result).
Definition assign_emotionVsLogic (c : Character) (result : InferenceResult)
  : Character :=
  set_emotionVsLogic c (emotionLogicValue (recommendedTrait result)).
Definition assign_pacing (c : Character) (result : InferenceResult)
  : Character :=
  set_pacing c (recommendedTrait result).
Definition assign_desires (c : Character) (result : InferenceResult)
  : Character :=
  set_desires
    c (map (fun '(trait, probability) =>
              {| motivation_type := trait;
                 motivation_strength := probability |})
           (top3 (res_traits result))).
Definition assign_fears (c : Character) (result : InferenceResult)
  : Character :=
  set_fears
    c (map (fun '(trait, probability) =>
              {| insecurity_type := trait;
                 insecurity_strength := probability |})
           (top3 (res_traits result))).
Definition assign_triggers (c : Character) (result : InferenceResult)
  : Character :=
  set_triggers
    c (map (fun '(trait, probability) =>
              {| trigger_type := trait;
                 trigger_effectiveness := probability |})
           (top3 (res_traits result))).
Definition assign_coreAnchors (c : Character) (result : InferenceResult)
  : Character :=
  set_coreAnchors
    c (map (fun '(trait, probability) =>
              {| anchor_type := trait;
                 anchor_centrality := probability;
                 anchor_visibility := 0.5 |})
           (top3 (res_traits result))).

(** Autocompletes a character based on existing traits. *)
Definition autocompleteCharacter (character : Character) : Character :=
  (* Create a deep copy to avoid modifying the original *)
  let completedCharacter := JSON_copy character in
  (* Extract evidence from existing traits *)
  let evidence := extractEvidenceFromCharacter character in
  (* Perform inference *)
  let inference := performInference evidence in
  (* Psychological Profile *)
  let completedCharacter :=
    fill needs_introversionExtroversion "introversionExtroversion"
         assign_introversionExtroversion inference completedCharacter in
  let completedCharacter :=
    fill needs_attachmentStyle "attachmentStyle"
         assign_attachmentStyle inference completedCharacter in
  let completedCharacter :=
    fill needs_trustLevel "trustLevel"
         assign_trustLevel inference completedCharacter in
  (* Fill in vulnerabilities *)
  let completedCharacter :=
    fill needs_likelyVulnerabilities "vulnerabilities"
         assign_likelyVulnerabilities inference completedCharacter in
  (* Social Hierarchy *)
  let completedCharacter :=
    fill needs_role "socialRole" assign_role inference completedCharacter in
  (* Communication *)
  let completedCharacter :=
    fill needs_primaryStyle "communicationStyle"
         assign_primaryStyle inference completedCharacter in
  (* Decision Making *)
  let completedCharacter :=
    fill needs_emotionVsLogic "emotionVsLogic"
         assign_emotionVsLogic inference completedCharacter in
  let completedCharacter :=
    fill needs_pacing "decisionPacing"
         assign_pacing inference completedCharacter in
  (* Motivations & Insecurities *)
  let completedCharacter :=
    fill needs_desires "desires"
         assign_desires inference completedCharacter in
  let completedCharacter :=
    fill needs_fears "fears" assign_fears inference completedCharacter in
  (* Trust Signals *)
  let completedCharacter :=
    fill needs_triggers "trustTriggers"
         assign_triggers inference completedCharacter in
  (* Identity Anchors *)
  let completedCharacter :=
    fill needs_coreAnchors "identityAnchors"
         assign_coreAnchors inference completedCharacter in
  completedCharacter.

(** ** Compatibility *)

(** Helper to convert IntroversionExtroversion enum to numeric value. *)
Definition getIntroversionExtroversionValue (ie : string) : R :=
  if ie =? IntroversionExtroversion.HIGHLY_INTROVERTED then 0
  else if ie =? IntroversionExtroversion.INTROVERTED then 1
  else if ie =? IntroversionExtroversion.AMBIVERT then 2
  else if ie =? IntroversionExtroversion.EXTROVERTED then 3
  else if ie =? IntroversionExtroversion.HIGHLY_EXTROVERTED then 4
  else 2.

(** Calculates compatibility between two characters. *)
Definition calculateCompatibility (character1 character2 : Character) : R :=
  let compatibilityScore := 0 in
  let totalFactors := 0 in
  let attachment1 := attachmentStyle (psychologicalProfile character1) in
  let attachment2 := attachmentStyle (psychologicalProfile character2) in
  let style1 := primaryStyle (communication character1) in
  let style2 := primaryStyle (communication character2) in
  (* Compare psychological profiles *)
  let compatibilityScore :=
    if (attachment1 =? AttachmentStyle.SECURE)
       && (attachment2 =? AttachmentStyle.SECURE)
    then compatibilityScore + 1
    else if (attachment1 =? AttachmentStyle.ANXIOUS)
            && (attachment2 =? AttachmentStyle.AVOIDANT)
    then compatibilityScore + 0.3
    else if (attachment1 =? AttachmentStyle.AVOIDANT)
            && (attachment2 =? AttachmentStyle.ANXIOUS)
    then compatibilityScore + 0.3
    else compatibilityScore + 0.5 in
  let totalFactors := totalFactors + 1 in
  (* Compare introversion/extroversion *)
  let introExtroCompat :=
    1 - Math_abs
          (getIntroversionExtroversionValue
             (introversionExtroversion (psychologicalProfile character1))
           - getIntroversionExtroversionValue
               (introversionExtroversion (psychologicalProfile character2)))
        / 4 in
  let compatibilityScore := compatibilityScore + introExtroCompat in
  let totalFactors := totalFactors + 1 in
  (* Compare communication styles *)
  let compatibilityScore :=
    if style1 =? style2
    then compatibilityScore + 1
    else if ((style1 =? CommunicationStyle.DIRECT)
             && (style2 =? CommunicationStyle.DIRECT))
            || ((style1 =? CommunicationStyle.ANALYTICAL)
                && (style2 =? CommunicationStyle.ANALYTICAL))
    then compatibilityScore + 0.9
    else if ((style1 =? CommunicationStyle.DIRECT)
             && (style2 =? CommunicationStyle.INDIRECT))
            || ((style1 =? CommunicationStyle.INDIRECT)
                && (style2 =? CommunicationStyle.DIRECT))
    then compatibilityScore + 0.4
    else compatibilityScore + 0.6 in
  let totalFactors := totalFactors + 1 in
  (* Compare decision-making styles *)
  let decisionMakingCompat :=
    1 - Math_abs (emotionVsLogic (decisionMaking character1)
                  - emotionVsLogic (decisionMaking character2)) in
  let compatibilityScore := compatibilityScore + decisionMakingCompat in
  let totalFactors := totalFactors + 1 in
  (* Calculate average compatibility *)
  compatibilityScore / totalFactors.

(** ** Vocabulary of the specification *)

(** The sum of a list of numbers, in the order of the list. *)
Fixpoint Rsum (l : list R) : R :=
  match l with
  | [] => 0
  | x :: l' => x + Rsum l'
  end.

(** Evidence weights are confidences in [[0, 1]]. *)
Definition weights_in_unit (evidence : list EvidenceVariable) : Prop :=
  Forall (fun ev => 0 <= ev_probability ev <= 1) evidence.

(** The invariants of the data model: probabilities and multipliers are not
    negative, and no (trait, category) pair has two prior rows. *)
Record tables_wf (priors : list PriorProbability)
       (likelihoods : list LikelihoodMultiplier) : Prop := {
  priors_nonneg : Forall (fun p => 0 <= prior_probability p) priors;
  multipliers_nonneg : Forall (fun lm => 0 <= lm_multiplier lm) likelihoods;
  priors_distinct :
    NoDup (map (fun p => (prior_trait p, prior_category p)) priors)
}.

(** A boolean test for [NoDup] on pairs of strings, to check the tables by
    computation. *)
Definition pair_eqb (x y : string * string) : bool :=
  (fst x =? fst y) && (snd x =? snd y).

Fixpoint distinctb (l : list (string * string)) : bool :=
  match l with
  | [] => true
  | x :: l' => negb (existsb (pair_eqb x) l') && distinctb l'
  end.

(** The unnormalized score of the specification: the prior times the product,
    over the evidence, of the likelihood multiplier raised to the weight. *)
Fixpoint Rprod (l : list R) : R :=
  match l with
  | [] => 1
  | x :: l' => x * Rprod l'
  end.

Definition spec_score (likelihoods : list LikelihoodMultiplier)
           (t : PriorProbability) (evidence : list EvidenceVariable) : R :=
  prior_probability t
  * Rprod (map (fun ev =>
                  Math_pow (Engine.getLikelihoodMultiplier
                              likelihoods (ev_trait ev) (prior_trait t))
                           (ev_probability ev))
               evidence).

(** The normalization constant [Z] of the specification. *)
Definition spec_Z (priors : list PriorProbability)
           (likelihoods : list LikelihoodMultiplier) (category : string)
           (evidence : list EvidenceVariable) : R :=
  Rsum (map (fun t => spec_score likelihoods t evidence)
            (Engine.getTraitsForCategory priors category)).

(** The evidence list with every entry for trait [e] removed. *)
Definition without_trait (e : string) (evidence : list EvidenceVariable)
  : list EvidenceVariable :=
  filter (fun ev => negb (ev_trait ev =? e)) evidence.

(** The evidence of the first end-to-end scenario. *)
Definition highly_introverted : list EvidenceVariable :=
  [ {| ev_trait := "Highly Introverted"; ev_probability := 1.0 |} ].

(** A two-row table without probability mass, for the degenerate case. *)
Definition massless_priors : list PriorProbability := [
  {| prior_trait := "A"; prior_category := "c"; prior_probability := 0 |};
  {| prior_trait := "B"; prior_category := "c"; prior_probability := 0 |}
].

(** The four factors of the compatibility score, as the specification
    describes them. *)
Definition attachmentFactor (a1 a2 : string) : R :=
  if (a1 =? AttachmentStyle.SECURE) && (a2 =? AttachmentStyle.SECURE)
  then 1
  else if ((a1 =? AttachmentStyle.ANXIOUS)
           && (a2 =? AttachmentStyle.AVOIDANT))
          || ((a1 =? AttachmentStyle.AVOIDANT)
              && (a2 =? AttachmentStyle.ANXIOUS))
  then 0.3
  else 0.5.

(** The five-point ordinal scale of the specification: the buckets from
    "Highly Introverted" to "Highly Extroverted" are numbered 0 to 4; a
    string that names no bucket counts as the middle one. *)
Definition introversionScale : list (string * R) :=
  [ ("Highly Introverted", 0);
    ("Introverted", 1);
    ("Ambivert", 2);
    ("Extroverted", 3);
    ("Highly Extroverted", 4) ].

Definition introversionOrdinal (ie : string) : R :=
  match Map_get ie introversionScale with
  | Some ordinal => ordinal
  | None => 2
  end.

Definition introExtroFactor (ie1 ie2 : string) : R :=
  1 - Rabs (introversionOrdinal ie1 - introversionOrdinal ie2) / 4.

Definition communicationFactor (s1 s2 : string) : R :=
  if s1 =? s2 then 1
  else if ((s1 =? CommunicationStyle.DIRECT)
           && (s2 =? CommunicationStyle.INDIRECT))
          || ((s1 =? CommunicationStyle.INDIRECT)
              && (s2 =? CommunicationStyle.DIRECT))
  then 0.4
  else 0.6.

Definition decisionFactor (e1 e2 : R) : R := 1 - Rabs (e1 - e2).

(** A profile with every section given. *)
Definition mkCharacter (ie attachment trust : string)
           (vulnerabilities : list Vulnerability) (socialRole : string)
           (des : list MotivationFactor) (fe : list InsecurityFactor)
           (trig : list TrustTrigger) (style : string) (emotion : R)
           (pace : string) (anchors : list IdentityAnchor) : Character :=
  {| psychologicalProfile :=
       {| introversionExtroversion := ie;
          attachmentStyle := attachment;
          trustLevel := trust;
          likelyVulnerabilities := vulnerabilities |};
     socialHierarchyPosition :=
       {| role := socialRole; influence := 0.5; approvalDependency := 0.5 |};
     motivationsInsecurities := {| desires := des; fears := fe |};
     trustSignalsVulnerabilityMarkers := {| triggers := trig |};
     communication :=
       {| primaryStyle := style;
          preferredChannels := [CommunicationChannel.VERBAL] |};
     decisionMaking := {| emotionVsLogic := emotion; pacing := pace |};
     identityAnchors := {| coreAnchors := anchors |} |}.

(** A profile in which no recognized field is unset. *)
Definition complete (c : Character) : Prop :=
  needs_introversionExtroversion c = false
  /\ needs_attachmentStyle c = false
  /\ needs_trustLevel c = false
  /\ needs_likelyVulnerabilities c = false
  /\ needs_role c = false
  /\ needs_primaryStyle c = false
  /\ needs_emotionVsLogic c = false
  /\ needs_pacing c = false
  /\ needs_desires c = false
  /\ needs_fears c = false
  /\ needs_triggers c = false
  /\ needs_coreAnchors c = false.

(** A fully populated profile whose emotion-vs-logic slider is at its
    lower end, "purely logical". *)
Definition purely_logical : Character :=
  mkCharacter "Ambivert" "Secure" "Neutral"
              [ {| vuln_type := "Overthinking"; vuln_probability := 0.5 |} ]
              "Follower"
              [ {| motivation_type := "Growth";
                   motivation_strength := 0.5 |} ]
              [ {| insecurity_type := "Failure";
                   insecurity_strength := 0.5 |} ]
              [ {| trigger_type := "Shared values";
                   trigger_effectiveness := 0.5 |} ]
              "Direct" 0 "Moderate"
              [ {| anchor_type := "Professional role";
                   anchor_centrality := 0.5;
                   anchor_visibility := 0.5 |} ].

(** An inference result from which every block can assign its field. *)
Definition good_result (result : InferenceResult) : Prop :=
  recommendedTrait result <> "" /\ res_traits result <> [].

(** ** The remaining exports of the engine *)

(** Gets all inference results for all categories. *)
Definition getAllInferenceResults (inference : BayesianInference)
  : list InferenceResult :=
  fold_left
    (fun results '(category, _) =>
       match getInferenceResult inference category with
       | Some result => (results ++ [result])%list
       | None => results
       end)
    (inf_posteriors inference) [].

Record Suggestion := {
  sug_trait : string;
  sug_probability : R
}.

(** Gets suggested traits for a specific category based on existing
    evidence.  [count] is the number of entries asked for, a natural
    number. *)
Definition getSuggestedTraits (character : Character) (category : string)
           (count : nat) : list Suggestion :=
  (* Extract evidence from existing traits *)
  let evidence := extractEvidenceFromCharacter character in
  (* Perform inference *)
  let inference := performInference evidence in
  (* Get result for the category *)
  match getInferenceResult inference category with
  | None => []
  | Some result =>
      (* Return top N suggestions *)
      map (fun '(trait, probability) =>
             {| sug_trait := trait; sug_probability := probability |})
          (Array_slice 0 count
                       (Array_sort (fun x y => snd y - snd x)
                                   (res_traits result)))
  end.

(** Generates a strategy for building rapport with a character.

    The two calls of [Array.prototype.sort] sort the arrays of the argument
    in place, so the function has an effect on its argument: the result is
    the list of strategies together with the character as the call leaves
    it. *)
Definition generateRapportStrategy (character : Character)
  : list string * Character :=
  let strategies : list string := [] in
  let ie := introversionExtroversion (psychologicalProfile character) in
  let attachment := attachmentStyle (psychologicalProfile character) in
  let style := primaryStyle (communication character) in
  (* Based on introversion/extroversion *)
  let strategies :=
    if (ie =? IntroversionExtroversion.HIGHLY_INTROVERTED)
       || (ie =? IntroversionExtroversion.INTROVERTED)
    then (strategies
          ++ [ "Give them space and time to process";
               "Prefer deeper one-on-one conversations over group settings";
               "Don't force them to socialize extensively" ])%list
    else if (ie =? IntroversionExtroversion.EXTROVERTED)
            || (ie =? IntroversionExtroversion.HIGHLY_EXTROVERTED)
    then (strategies
          ++ [ "Engage in active, energetic conversations";
               "Include them in group activities";
               "Be receptive to their need to verbally process thoughts" ])%list
    else strategies in
  (* Based on attachment style *)
  let strategies :=
    if attachment =? AttachmentStyle.ANXIOUS
    then (strategies
          ++ [ "Provide regular reassurance and check-ins";
               "Be consistent and reliable in communication";
               "Acknowledge their feelings and concerns" ])%list
    else if attachment =? AttachmentStyle.AVOIDANT
    then (strategies
          ++ [ "Respect their need for independence";
               "Don't push for emotional disclosure too quickly";
               "Give them space when they seem overwhelmed" ])%list
    else if attachment =? AttachmentStyle.FEARFUL_AVOIDANT
    then (strategies
          ++ [ "Be patient with mixed signals";
               "Maintain consistent, non-threatening presence";
               "Avoid pressuring for commitment or deep emotional sharing" ])%list
    else strategies in
  (* Based on communication style *)
  let strategies :=
    if style =? CommunicationStyle.DIRECT
    then (strategies
          ++ [ "Be straightforward and honest";
               "Don't beat around the bush";
               "Appreciate their frankness rather than taking offense" ])%list
    else if style =? CommunicationStyle.INDIRECT
    then (strategies
          ++ [ "Pay attention to subtle cues and hints";
               "Ask clarifying questions gently";
               "Don't force direct confrontation" ])%list
    else if style =? CommunicationStyle.ANALYTICAL
    then (strategies
          ++ [ "Provide logical reasoning and evidence";
               "Focus on facts and specific details";
               "Respect their need to analyze before deciding" ])%list
    else if style =? CommunicationStyle.EMOTIONAL
    then (strategies
          ++ [ "Acknowledge and validate their feelings";
               "Show empathy and emotional attunement";
               "Don't dismiss emotional reactions as irrational" ])%list
    else strategies in
  (* Based on trust triggers *)
  let '(strategies, character) :=
    match triggers (trustSignalsVulnerabilityMarkers character) with
    | [] => (strategies, character)
    | _ :: _ =>
        (* Find the most effective trigger *)
        let sorted :=
          Array_sort (fun a b => trigger_effectiveness b
                                 - trigger_effectiveness a)
                     (triggers (trustSignalsVulnerabilityMarkers character))
        in
        let character := set_triggers character sorted in
        match sorted with
        | [] => (strategies, character)
        | mostEffectiveTrigger :: _ =>
            let type := trigger_type mostEffectiveTrigger in
            let strategies :=
              if type =? "Shared interests"
              then (strategies
                    ++ ["Find and discuss common interests or hobbies"])%list
              else if type =? "Vulnerability disclosure"
              then (strategies
                    ++ ["Share appropriate personal struggles or challenges"])%list
              else if type =? "Consistent behavior"
              then (strategies
                    ++ ["Be reliable and consistent in your actions"])%list
              else if type =? "Shared values"
              then (strategies
                    ++ ["Identify and emphasize shared values or beliefs"])%list
              else if type =? "Shared emotional language"
              then (strategies
                    ++ ["Mirror their emotional expression style"])%list
              else strategies in
            (strategies, character)
        end
    end in
  (* Based on motivations *)
  let '(strategies, character) :=
    match desires (motivationsInsecurities character) with
    | [] => (strategies, character)
    | _ :: _ =>
        (* Find the strongest desire *)
        let sorted :=
          Array_sort (fun a b => motivation_strength b
                                 - motivation_strength a)
                     (desires (motivationsInsecurities character)) in
        let character := set_desires character sorted in
        match sorted with
        | [] => (strategies, character)
        | strongestDesire :: _ =>
            let type := motivation_type strongestDesire in
            let strategies :=
              if type =? "Belonging"
              then (strategies
                    ++ ["Create a sense of inclusion and acceptance"])%list
              else if type =? "Recognition"
              then (strategies
                    ++ ["Acknowledge their achievements and contributions"])%list
              else if type =? "Being understood"
              then (strategies
                    ++ ["Show that you truly understand their perspective"])%list
              else if type =? "Achievement"
              then (strategies
                    ++ ["Recognize their competence and accomplishments"])%list
              else strategies in
            (strategies, character)
        end
    end in
  (strategies, character).

(** ** [contexts/CharacterContext]: the store and its reducer *)

Module CharacterContext.

(** A relationship of the store, with the fields the reducer reads. *)
Record Relationship := {
rel_id : string;
sourceId : string;
targetId : string;
rel_type : string
}.

(** A character of the store: its [basicInfo.id] and the sections the
  engine works on. *)
Record StoredCharacter := {
char_id : string;
char_profile : Character
}.

Inductive Theme := dark | light.

(** The fields of [CharacterState] that concern characters, relationships,
  selection and theme; [networkGraph] and [uiState] are left out. *)
Record CharacterState := {
characters : list StoredCharacter;
relationships : list Relationship;
selectedCharacterId : option string;
theme : Theme
}.

Inductive CharacterAction :=
| ADD_CHARACTER (character : StoredCharacter)
| UPDATE_CHARACTER (character : StoredCharacter)
| DELETE_CHARACTER (characterId : string)
| SELECT_CHARACTER (characterId : option string)
| ADD_RELATIONSHIP (relationship : Relationship)
| UPDATE_RELATIONSHIP (relationship : Relationship)
| DELETE_RELATIONSHIP (relationshipId : string)
| SET_CHARACTERS (characters : list StoredCharacter)
| SET_RELATIONSHIPS (relationships : list Relationship)
| GENERATE_NETWORK_GRAPH
| TOGGLE_THEME
| SET_UI_STATE
| AUTOCOMPLETE_CHARACTER (characterId : string)
| IMPORT_DATA (characters : list StoredCharacter)
            (relationships : list Relationship)
| RESET_STATE.

Definition initialState : CharacterState :=
{| characters := [];
   relationships := [];
   selectedCharacterId := None;
   theme := dark |}.

(** [BayesianInference.autocompleteCharacter] on a character of the store:
  the copy keeps [basicInfo.id]. *)
Definition autocompleteStored (c : StoredCharacter) : StoredCharacter :=
{| char_id := char_id c;
   char_profile := autocompleteCharacter (char_profile c) |}.

Definition characterReducer (state : CharacterState)
         (action : CharacterAction) : CharacterState :=
match action with
| ADD_CHARACTER character =>
    {| characters := (characters state ++ [character])%list;
       relationships := relationships state;
       selectedCharacterId := selectedCharacterId state;
       theme := theme state |}
| UPDATE_CHARACTER updated =>
    {| characters :=
         map (fun character =>
                if char_id character =? char_id updated
                then updated else character)
             (characters state);
       relationships := relationships state;
       selectedCharacterId := selectedCharacterId state;
       theme := theme state |}
| DELETE_CHARACTER characterId =>
    {| characters :=
         filter (fun character => negb (char_id character =? characterId))
                (characters state);
       relationships :=
         filter (fun relationship =>
                   negb (sourceId relationship =? characterId)
                   && negb (targetId relationship =? characterId))
                (relationships state);
       selectedCharacterId :=
         match selectedCharacterId state with
         | Some selected =>
             if selected =? characterId then None else Some selected
         | None => None
         end;
       theme := theme state |}
| SELECT_CHARACTER characterId =>
    {| characters := characters state;
       relationships := relationships state;
       selectedCharacterId := characterId;
       theme := theme state |}
| ADD_RELATIONSHIP relationship =>
    {| characters := characters state;
       relationships := (relationships state ++ [relationship])%list;
       selectedCharacterId := selectedCharacterId state;
       theme := theme state |}
| UPDATE_RELATIONSHIP updated =>
    {| characters := characters state;
       relationships :=
         map (fun relationship =>
                if rel_id relationship =? rel_id updated
                then updated else relationship)
             (relationships state);
       selectedCharacterId := selectedCharacterId state;
       theme := theme state |}
| DELETE_RELATIONSHIP relationshipId =>
    {| characters := characters state;
       relationships :=
         filter (fun relationship =>
                   negb (rel_id relationship =? relationshipId))
                (relationships state);
       selectedCharacterId := selectedCharacterId state;
       theme := theme state |}
| SET_CHARACTERS cs =>
    {| characters := cs;
       relationships := relationships state;
       selectedCharacterId := selectedCharacterId state;
       theme := theme state |}
| SET_RELATIONSHIPS rs =>
    {| characters := characters state;
       relationships := rs;
       selectedCharacterId := selectedCharacterId state;
       theme := theme state |}
| GENERATE_NETWORK_GRAPH => state
| TOGGLE_THEME =>
    {| characters := characters state;
       relationships := relationships state;
       selectedCharacterId := selectedCharacterId state;
       theme := match theme state with dark => light | light => dark end |}
| SET_UI_STATE => state
| AUTOCOMPLETE_CHARACTER characterId =>
    match find (fun c => char_id c =? characterId) (characters state) with
    | None => state
    | Some character =>
        let completedCharacter := autocompleteStored character in
        {| characters :=
             map (fun c =>
                    if char_id c =? characterId
                    then completedCharacter else c)
                 (characters state);
           relationships := relationships state;
           selectedCharacterId := selectedCharacterId state;
           theme := theme state |}
    end
| IMPORT_DATA cs rs =>
    {| characters := cs;
       relationships := rs;
       selectedCharacterId := selectedCharacterId state;
       theme := theme state |}
| RESET_STATE => initialState
end.

(** Calculate compatibility between two characters, by id. *)
Definition calculateCompatibility (state : CharacterState)
         (character1Id character2Id : string) : R :=
let character1 :=
  find (fun c => char_id c =? character1Id) (characters state) in
let character2 :=
  find (fun c => char_id c =? character2Id) (characters state) in
match character1, character2 with
| Some character1, Some character2 =>
    calculateCompatibility (char_profile character1)
                           (char_profile character2)
| _, _ => 0
end.

End CharacterContext.

(** Fields of a [Character] that no block of [autocompleteCharacter]
    assigns. *)
Definition get_influence (c : Character) : R :=
  influence (socialHierarchyPosition c).
Definition get_approvalDependency (c : Character) : R :=
  approvalDependency (socialHierarchyPosition c).
Definition get_preferredChannels (c : Character) : list string :=
  preferredChannels (communication c).

(** A profile with every recognized field unset. *)
Definition blank_character : Character :=
  mkCharacter "" "" "" [] "" [] [] [] "" 0 "" [].

(** Referential integrity of the store: both ends of every relationship are
    characters of the store. *)
Definition referential_integrity (state : CharacterContext.CharacterState)
  : Prop :=
  forall r, In r (CharacterContext.relationships state) ->
            In (CharacterContext.sourceId r)
               (map CharacterContext.char_id
                    (CharacterContext.characters state))
            /\ In (CharacterContext.targetId r)
                  (map CharacterContext.char_id
                       (CharacterContext.characters state)).

(** The actions that bring relationships or characters from outside into
    the store; the reducer takes them as they come. *)
Definition brings_outside_data (action : CharacterContext.CharacterAction)
  : bool :=
  match action with
  | CharacterContext.ADD_RELATIONSHIP _
  | CharacterContext.UPDATE_RELATIONSHIP _
  | CharacterContext.SET_CHARACTERS _
  | CharacterContext.SET_RELATIONSHIPS _
  | CharacterContext.IMPORT_DATA _ _ => true
  | _ => false
  end.

(** A profile whose trust triggers are not in order of effectiveness. *)
Definition unsorted_triggers : Character :=
  mkCharacter "Ambivert" "Secure" "Neutral" [] "Follower" [] []
              [ {| trigger_type := "Shared humor";
                   trigger_effectiveness := 0.2 |};
                {| trigger_type := "Shared values";
                   trigger_effectiveness := 0.9 |} ]
              "Functional" 0.5 "Moderate" [].

(** A store with two characters and one relationship between them. *)
Definition sample_state : CharacterContext.CharacterState :=
  {| CharacterContext.characters :=
       [ {| CharacterContext.char_id := "alice";
            CharacterContext.char_profile := blank_character |};
         {| CharacterContext.char_id := "bob";
            CharacterContext.char_profile := purely_logical |} ];
     CharacterContext.relationships :=
       [ {| CharacterContext.rel_id := "rel_1";
            CharacterContext.sourceId := "alice";
            CharacterContext.targetId := "bob";
            CharacterContext.rel_type := "Friend" |} ];
     CharacterContext.selectedCharacterId := Some "bob";
     CharacterContext.theme := CharacterContext.dark |}.
(** ** Range of doubles *)

(** Inputs on which no running product of the engine leaves the range of a
    double: the priors are at most 1, the multipliers at most 10, and at most
    100 pieces of evidence are given.  With weights in [[0, 1]] every factor
    [Math.pow multiplier weight] is then at most 10 and every running
    product at most [10 ^ 100], far below the largest double (about
    [1.8 * 10 ^ 308]). *)
Definition within_double_range (priors : list PriorProbability)
           (likelihoods : list LikelihoodMultiplier)
           (evidence : list EvidenceVariable) : Prop :=
  Forall (fun p => prior_probability p <= 1) priors
  /\ Forall (fun lm => lm_multiplier lm <= 10) likelihoods
  /\ (length evidence <= 100)%nat.

(** ** The posterior computation on doubles *)

(** The loops of [calculateNormalizationFactor] and [calculatePosteriors] on
    IEEE binary64 numbers, over the same two tables.  [Math.pow] is embedded
    where its result is exact: an exponent [0] gives [1] and an exponent [1]
    gives the base; for another exponent the result is left out ([None]),
    and so is the result of a computation that needs it.  The application
    builds its evidence with weight [1.0] only
    ([extractEvidenceFromCharacter]). *)
Module Double.
Import PrimFloat.
#[local] Open Scope float_scope.
#[local] Set Warnings "-inexact-float".

Record PriorProbability := {
  prior_trait : string;
  prior_category : string;
  prior_probability : float
}.

Record LikelihoodMultiplier := {
  lm_evidence : string;
  lm_trait : string;
  lm_multiplier : float
}.

Record EvidenceVariable := {
  ev_trait : string;
  ev_probability : float
}.

Definition PRIORS : list PriorProbability := [
  (* Psychological Profile Priors *)
  {| prior_trait := IntroversionExtroversion.HIGHLY_INTROVERTED; prior_category := "introversionExtroversion"; prior_probability := 0.10 |};
  {| prior_trait := IntroversionExtroversion.INTROVERTED; prior_category := "introversionExtroversion"; prior_probability := 0.30 |};
  {| prior_trait := IntroversionExtroversion.AMBIVERT; prior_category := "introversionExtroversion"; prior_probability := 0.40 |};
  {| prior_trait := IntroversionExtroversion.EXTROVERTED; prior_category := "introversionExtroversion"; prior_probability := 0.15 |};
  {| prior_trait := IntroversionExtroversion.HIGHLY_EXTROVERTED; prior_category := "introversionExtroversion"; prior_probability := 0.05 |};

  {| prior_trait := AttachmentStyle.SECURE; prior_category := "attachmentStyle"; prior_probability := 0.55 |};
  {| prior_trait := AttachmentStyle.ANXIOUS; prior_category := "attachmentStyle"; prior_probability := 0.20 |};
  {| prior_trait := AttachmentStyle.AVOIDANT; prior_category := "attachmentStyle"; prior_probability := 0.20 |};
  {| prior_trait := AttachmentStyle.FEARFUL_AVOIDANT; prior_category := "attachmentStyle"; prior_probability := 0.05 |};

  {| prior_trait := TrustLevel.HIGHLY_SKEPTICAL; prior_category := "trustLevel"; prior_probability := 0.05 |};
  {| prior_trait := TrustLevel.SKEPTICAL; prior_category := "trustLevel"; prior_probability := 0.25 |};
  {| prior_trait := TrustLevel.NEUTRAL; prior_category := "trustLevel"; prior_probability := 0.40 |};
  {| prior_trait := TrustLevel.TRUSTING; prior_category := "trustLevel"; prior_probability := 0.25 |};
  {| prior_trait := TrustLevel.HIGHLY_TRUSTING; prior_category := "trustLevel"; prior_probability := 0.05 |};

  (* Vulnerabilities *)
  {| prior_trait := "Fear of abandonment"; prior_category := "vulnerabilities"; prior_probability := 0.15 |};
  {| prior_trait := "Need for validation"; prior_category := "vulnerabilities"; prior_probability := 0.30 |};
  {| prior_trait := "Fear of rejection"; prior_category := "vulnerabilities"; prior_probability := 0.25 |};
  {| prior_trait := "Overthinking"; prior_category := "vulnerabilities"; prior_probability := 0.35 |};
  {| prior_trait := "Imposter syndrome"; prior_category := "vulnerabilities"; prior_probability := 0.20 |};
  {| prior_trait := "Perfectionism"; prior_category := "vulnerabilities"; prior_probability := 0.15 |};
  {| prior_trait := "Need for control"; prior_category := "vulnerabilities"; prior_probability := 0.10 |};
  {| prior_trait := "Fear of failure"; prior_category := "vulnerabilities"; prior_probability := 0.30 |};
  {| prior_trait := "Fear of intimacy"; prior_category := "vulnerabilities"; prior_probability := 0.15 |};
  {| prior_trait := "Fear of conflict"; prior_category := "vulnerabilities"; prior_probability := 0.25 |};
  {| prior_trait := "Need for reassurance"; prior_category := "vulnerabilities"; prior_probability := 0.20 |};
  {| prior_trait := "Fear of being irrelevant"; prior_category := "vulnerabilities"; prior_probability := 0.15 |};

  (* Social Hierarchy Position Priors *)
  {| prior_trait := SocialRole.LEADER; prior_category := "socialRole"; prior_probability := 0.10 |};
  {| prior_trait := SocialRole.FOLLOWER; prior_category := "socialRole"; prior_probability := 0.50 |};
  {| prior_trait := SocialRole.CONNECTOR; prior_category := "socialRole"; prior_probability := 0.15 |};
  {| prior_trait := SocialRole.OUTLIER; prior_category := "socialRole"; prior_probability := 0.15 |};
  {| prior_trait := SocialRole.GATEKEEPER; prior_category := "socialRole"; prior_probability := 0.05 |};
  {| prior_trait := SocialRole.MEDIATOR; prior_category := "socialRole"; prior_probability := 0.05 |};

  (* Communication Style Priors *)
  {| prior_trait := CommunicationStyle.DIRECT; prior_category := "communicationStyle"; prior_probability := 0.20 |};
  {| prior_trait := CommunicationStyle.INDIRECT; prior_category := "communicationStyle"; prior_probability := 0.25 |};
  {| prior_trait := CommunicationStyle.RESERVED; prior_category := "communicationStyle"; prior_probability := 0.15 |};
  {| prior_trait := CommunicationStyle.ANALYTICAL; prior_category := "communicationStyle"; prior_probability := 0.10 |};
  {| prior_trait := CommunicationStyle.EMOTIONAL; prior_category := "communicationStyle"; prior_probability := 0.15 |};
  {| prior_trait := CommunicationStyle.FUNCTIONAL; prior_category := "communicationStyle"; prior_probability := 0.05 |};
  {| prior_trait := CommunicationStyle.PERSONAL; prior_category := "communicationStyle"; prior_probability := 0.05 |};
  {| prior_trait := CommunicationStyle.INTUITIVE; prior_category := "communicationStyle"; prior_probability := 0.05 |};

  (* Communication Channel Priors *)
  {| prior_trait := CommunicationChannel.VERBAL; prior_category := "communicationChannel"; prior_probability := 0.40 |};
  {| prior_trait := CommunicationChannel.WRITTEN; prior_category := "communicationChannel"; prior_probability := 0.20 |};
  {| prior_trait := CommunicationChannel.NONVERBAL; prior_category := "communicationChannel"; prior_probability := 0.15 |};
  {| prior_trait := CommunicationChannel.DIGITAL; prior_category := "communicationChannel"; prior_probability := 0.25 |};

  (* Motivations Priors *)
  {| prior_trait := "Belonging"; prior_category := "desires"; prior_probability := 0.30 |};
  {| prior_trait := "Achievement"; prior_category := "desires"; prior_probability := 0.25 |};
  {| prior_trait := "Recognition"; prior_category := "desires"; prior_probability := 0.15 |};
  {| prior_trait := "Power"; prior_category := "desires"; prior_probability := 0.10 |};
  {| prior_trait := "Security"; prior_category := "desires"; prior_probability := 0.20 |};
  {| prior_trait := "Freedom"; prior_category := "desires"; prior_probability := 0.15 |};
  {| prior_trait := "Understanding"; prior_category := "desires"; prior_probability := 0.10 |};
  {| prior_trait := "Being understood"; prior_category := "desires"; prior_probability := 0.25 |};
  {| prior_trait := "Creativity"; prior_category := "desires"; prior_probability := 0.10 |};
  {| prior_trait := "Harmony"; prior_category := "desires"; prior_probability := 0.15 |};
  {| prior_trait := "Growth"; prior_category := "desires"; prior_probability := 0.15 |};
  {| prior_trait := "Helping others"; prior_category := "desires"; prior_probability := 0.10 |};

  (* Insecurities Priors *)
  {| prior_trait := "Rejection"; prior_category := "fears"; prior_probability := 0.30 |};
  {| prior_trait := "Failure"; prior_category := "fears"; prior_probability := 0.25 |};
  {| prior_trait := "Abandonment"; prior_category := "fears"; prior_probability := 0.15 |};
  {| prior_trait := "Inadequacy"; prior_category := "fears"; prior_probability := 0.20 |};
  {| prior_trait := "Criticism"; prior_category := "fears"; prior_probability := 0.15 |};
  {| prior_trait := "Being controlled"; prior_category := "fears"; prior_probability := 0.10 |};
  {| prior_trait := "Being irrelevant"; prior_category := "fears"; prior_probability := 0.15 |};
  {| prior_trait := "Uncertainty"; prior_category := "fears"; prior_probability := 0.20 |};
  {| prior_trait := "Vulnerability"; prior_category := "fears"; prior_probability := 0.15 |};
  {| prior_trait := "Conflict"; prior_category := "fears"; prior_probability := 0.25 |};
  {| prior_trait := "Intimacy"; prior_category := "fears"; prior_probability := 0.10 |};
  {| prior_trait := "Being misunderstood"; prior_category := "fears"; prior_probability := 0.20 |};

  (* Trust Triggers Priors *)
  {| prior_trait := "Shared interests"; prior_category := "trustTriggers"; prior_probability := 0.25 |};
  {| prior_trait := "Vulnerability disclosure"; prior_category := "trustTriggers"; prior_probability := 0.15 |};
  {| prior_trait := "Consistent behavior"; prior_category := "trustTriggers"; prior_probability := 0.20 |};
  {| prior_trait := "Shared values"; prior_category := "trustTriggers"; prior_probability := 0.15 |};
  {| prior_trait := "Active listening"; prior_category := "trustTriggers"; prior_probability := 0.10 |};
  {| prior_trait := "Shared experiences"; prior_category := "trustTriggers"; prior_probability := 0.20 |};
  {| prior_trait := "Relatability"; prior_category := "trustTriggers"; prior_probability := 0.25 |};
  {| prior_trait := "Shared emotional language"; prior_category := "trustTriggers"; prior_probability := 0.15 |};
  {| prior_trait := "Shared humor"; prior_category := "trustTriggers"; prior_probability := 0.15 |};
  {| prior_trait := "Perceived competence"; prior_category := "trustTriggers"; prior_probability := 0.10 |};
  {| prior_trait := "Shared adversity"; prior_category := "trustTriggers"; prior_probability := 0.10 |};
  {| prior_trait := "Perceived authenticity"; prior_category := "trustTriggers"; prior_probability := 0.20 |};

  (* Decision Making Priors *)
  {| prior_trait := "Highly emotional"; prior_category := "emotionVsLogic"; prior_probability := 0.10 |};
  {| prior_trait := "Moderately emotional"; prior_category := "emotionVsLogic"; prior_probability := 0.25 |};
  {| prior_trait := "Balanced"; prior_category := "emotionVsLogic"; prior_probability := 0.30 |};
  {| prior_trait := "Moderately logical"; prior_category := "emotionVsLogic"; prior_probability := 0.25 |};
  {| prior_trait := "Highly logical"; prior_category := "emotionVsLogic"; prior_probability := 0.10 |};

  {| prior_trait := "Very slow"; prior_category := "decisionPacing"; prior_probability := 0.10 |};
  {| prior_trait := "Slow"; prior_category := "decisionPacing"; prior_probability := 0.20 |};
  {| prior_trait := "Moderate"; prior_category := "decisionPacing"; prior_probability := 0.40 |};
  {| prior_trait := "Fast"; prior_category := "decisionPacing"; prior_probability := 0.20 |};
  {| prior_trait := "Very fast"; prior_category := "decisionPacing"; prior_probability := 0.10 |};

  (* Identity Anchors Priors *)
  {| prior_trait := "Professional role"; prior_category := "identityAnchors"; prior_probability := 0.25 |};
  {| prior_trait := "Relationships"; prior_category := "identityAnchors"; prior_probability := 0.20 |};
  {| prior_trait := "Beliefs/values"; prior_category := "identityAnchors"; prior_probability := 0.15 |};
  {| prior_trait := "Skills/abilities"; prior_category := "identityAnchors"; prior_probability := 0.15 |};
  {| prior_trait := "Group membership"; prior_category := "identityAnchors"; prior_probability := 0.10 |};
  {| prior_trait := "Personal history"; prior_category := "identityAnchors"; prior_probability := 0.10 |};
  {| prior_trait := "Physical attributes"; prior_category := "identityAnchors"; prior_probability := 0.05 |}].

Definition LIKELIHOOD_MULTIPLIERS : list LikelihoodMultiplier := [
  (* Introverted/Extroverted Evidence Effects *)
  {| lm_evidence := IntroversionExtroversion.HIGHLY_INTROVERTED; lm_trait := AttachmentStyle.AVOIDANT; lm_multiplier := 1.8 |};
  {| lm_evidence := IntroversionExtroversion.HIGHLY_INTROVERTED; lm_trait := AttachmentStyle.FEARFUL_AVOIDANT; lm_multiplier := 1.5 |};
  {| lm_evidence := IntroversionExtroversion.HIGHLY_INTROVERTED; lm_trait := TrustLevel.SKEPTICAL; lm_multiplier := 1.3 |};
  {| lm_evidence := IntroversionExtroversion.HIGHLY_INTROVERTED; lm_trait := TrustLevel.HIGHLY_SKEPTICAL; lm_multiplier := 1.4 |};
  {| lm_evidence := IntroversionExtroversion.HIGHLY_INTROVERTED; lm_trait := "Fear of rejection"; lm_multiplier := 1.5 |};
  {| lm_evidence := IntroversionExtroversion.HIGHLY_INTROVERTED; lm_trait := "Overthinking"; lm_multiplier := 1.7 |};
  {| lm_evidence := IntroversionExtroversion.HIGHLY_INTROVERTED; lm_trait := SocialRole.OUTLIER; lm_multiplier := 2.0 |};
  {| lm_evidence := IntroversionExtroversion.HIGHLY_INTROVERTED; lm_trait := CommunicationStyle.RESERVED; lm_multiplier := 2.2 |};
  {| lm_evidence := IntroversionExtroversion.HIGHLY_INTROVERTED; lm_trait := CommunicationStyle.ANALYTICAL; lm_multiplier := 1.6 |};
  {| lm_evidence := IntroversionExtroversion.HIGHLY_INTROVERTED; lm_trait := CommunicationChannel.WRITTEN; lm_multiplier := 1.8 |};
  {| lm_evidence := IntroversionExtroversion.HIGHLY_INTROVERTED; lm_trait := "Being misunderstood"; lm_multiplier := 1.5 |};
  {| lm_evidence := IntroversionExtroversion.HIGHLY_INTROVERTED; lm_trait := "Slow"; lm_multiplier := 1.6 |};
  {| lm_evidence := IntroversionExtroversion.HIGHLY_INTROVERTED; lm_trait := "Very slow"; lm_multiplier := 1.4 |};

  {| lm_evidence := IntroversionExtroversion.INTROVERTED; lm_trait := AttachmentStyle.AVOIDANT; lm_multiplier := 1.4 |};
  {| lm_evidence := IntroversionExtroversion.INTROVERTED; lm_trait := TrustLevel.SKEPTICAL; lm_multiplier := 1.2 |};
  {| lm_evidence := IntroversionExtroversion.INTROVERTED; lm_trait := "Overthinking"; lm_multiplier := 1.5 |};
  {| lm_evidence := IntroversionExtroversion.INTROVERTED; lm_trait := SocialRole.OUTLIER; lm_multiplier := 1.5 |};
  {| lm_evidence := IntroversionExtroversion.INTROVERTED; lm_trait := CommunicationStyle.RESERVED; lm_multiplier := 1.8 |};
  {| lm_evidence := IntroversionExtroversion.INTROVERTED; lm_trait := CommunicationStyle.ANALYTICAL; lm_multiplier := 1.4 |};
  {| lm_evidence := IntroversionExtroversion.INTROVERTED; lm_trait := CommunicationChannel.WRITTEN; lm_multiplier := 1.5 |};
  {| lm_evidence := IntroversionExtroversion.INTROVERTED; lm_trait := "Slow"; lm_multiplier := 1.3 |};

  {| lm_evidence := IntroversionExtroversion.EXTROVERTED; lm_trait := AttachmentStyle.SECURE; lm_multiplier := 1.3 |};
  {| lm_evidence := IntroversionExtroversion.EXTROVERTED; lm_trait := TrustLevel.TRUSTING; lm_multiplier := 1.4 |};
  {| lm_evidence := IntroversionExtroversion.EXTROVERTED; lm_trait := SocialRole.CONNECTOR; lm_multiplier := 1.8 |};
  {| lm_evidence := IntroversionExtroversion.EXTROVERTED; lm_trait := SocialRole.LEADER; lm_multiplier := 1.5 |};
  {| lm_evidence := IntroversionExtroversion.EXTROVERTED; lm_trait := CommunicationStyle.DIRECT; lm_multiplier := 1.6 |};
  {| lm_evidence := IntroversionExtroversion.EXTROVERTED; lm_trait := CommunicationStyle.EMOTIONAL; lm_multiplier := 1.4 |};
  {| lm_evidence := IntroversionExtroversion.EXTROVERTED; lm_trait := CommunicationChannel.VERBAL; lm_multiplier := 1.7 |};
  {| lm_evidence := IntroversionExtroversion.EXTROVERTED; lm_trait := "Fast"; lm_multiplier := 1.5 |};

  {| lm_evidence := IntroversionExtroversion.HIGHLY_EXTROVERTED; lm_trait := AttachmentStyle.SECURE; lm_multiplier := 1.5 |};
  {| lm_evidence := IntroversionExtroversion.HIGHLY_EXTROVERTED; lm_trait := TrustLevel.TRUSTING; lm_multiplier := 1.6 |};
  {| lm_evidence := IntroversionExtroversion.HIGHLY_EXTROVERTED; lm_trait := TrustLevel.HIGHLY_TRUSTING; lm_multiplier := 1.8 |};
  {| lm_evidence := IntroversionExtroversion.HIGHLY_EXTROVERTED; lm_trait := SocialRole.CONNECTOR; lm_multiplier := 2.0 |};
  {| lm_evidence := IntroversionExtroversion.HIGHLY_EXTROVERTED; lm_trait := SocialRole.LEADER; lm_multiplier := 1.9 |};
  {| lm_evidence := IntroversionExtroversion.HIGHLY_EXTROVERTED; lm_trait := CommunicationStyle.DIRECT; lm_multiplier := 1.8 |};
  {| lm_evidence := IntroversionExtroversion.HIGHLY_EXTROVERTED; lm_trait := CommunicationStyle.EMOTIONAL; lm_multiplier := 1.7 |};
  {| lm_evidence := IntroversionExtroversion.HIGHLY_EXTROVERTED; lm_trait := CommunicationChannel.VERBAL; lm_multiplier := 2.0 |};
  {| lm_evidence := IntroversionExtroversion.HIGHLY_EXTROVERTED; lm_trait := "Recognition"; lm_multiplier := 1.7 |};
  {| lm_evidence := IntroversionExtroversion.HIGHLY_EXTROVERTED; lm_trait := "Fast"; lm_multiplier := 1.6 |};
  {| lm_evidence := IntroversionExtroversion.HIGHLY_EXTROVERTED; lm_trait := "Very fast"; lm_multiplier := 1.8 |};

  (* Attachment Style Evidence Effects *)
  {| lm_evidence := AttachmentStyle.ANXIOUS; lm_trait := "Fear of abandonment"; lm_multiplier := 2.5 |};
  {| lm_evidence := AttachmentStyle.ANXIOUS; lm_trait := "Need for reassurance"; lm_multiplier := 2.2 |};
  {| lm_evidence := AttachmentStyle.ANXIOUS; lm_trait := "Fear of rejection"; lm_multiplier := 2.0 |};
  {| lm_evidence := AttachmentStyle.ANXIOUS; lm_trait := "Overthinking"; lm_multiplier := 1.8 |};
  {| lm_evidence := AttachmentStyle.ANXIOUS; lm_trait := CommunicationStyle.EMOTIONAL; lm_multiplier := 1.7 |};
  {| lm_evidence := AttachmentStyle.ANXIOUS; lm_trait := "Belonging"; lm_multiplier := 1.9 |};
  {| lm_evidence := AttachmentStyle.ANXIOUS; lm_trait := "Being understood"; lm_multiplier := 1.8 |};
  {| lm_evidence := AttachmentStyle.ANXIOUS; lm_trait := "Vulnerability disclosure"; lm_multiplier := 1.6 |};
  {| lm_evidence := AttachmentStyle.ANXIOUS; lm_trait := "Highly emotional"; lm_multiplier := 1.7 |};
  {| lm_evidence := AttachmentStyle.ANXIOUS; lm_trait := "Moderately emotional"; lm_multiplier := 1.5 |};

  {| lm_evidence := AttachmentStyle.AVOIDANT; lm_trait := "Fear of intimacy"; lm_multiplier := 2.3 |};
  {| lm_evidence := AttachmentStyle.AVOIDANT; lm_trait := CommunicationStyle.RESERVED; lm_multiplier := 1.9 |};
  {| lm_evidence := AttachmentStyle.AVOIDANT; lm_trait := "Freedom"; lm_multiplier := 1.8 |};
  {| lm_evidence := AttachmentStyle.AVOIDANT; lm_trait := "Being controlled"; lm_multiplier := 1.7 |};
  {| lm_evidence := AttachmentStyle.AVOIDANT; lm_trait := SocialRole.OUTLIER; lm_multiplier := 1.6 |};
  {| lm_evidence := AttachmentStyle.AVOIDANT; lm_trait := "Moderately logical"; lm_multiplier := 1.4 |};
  {| lm_evidence := AttachmentStyle.AVOIDANT; lm_trait := "Highly logical"; lm_multiplier := 1.5 |};

  {| lm_evidence := AttachmentStyle.FEARFUL_AVOIDANT; lm_trait := "Fear of abandonment"; lm_multiplier := 2.0 |};
  {| lm_evidence := AttachmentStyle.FEARFUL_AVOIDANT; lm_trait := "Fear of intimacy"; lm_multiplier := 2.0 |};
  {| lm_evidence := AttachmentStyle.FEARFUL_AVOIDANT; lm_trait := "Overthinking"; lm_multiplier := 2.1 |};
  {| lm_evidence := AttachmentStyle.FEARFUL_AVOIDANT; lm_trait := TrustLevel.HIGHLY_SKEPTICAL; lm_multiplier := 1.9 |};
  {| lm_evidence := AttachmentStyle.FEARFUL_AVOIDANT; lm_trait := "Vulnerability"; lm_multiplier := 1.8 |};

  {| lm_evidence := AttachmentStyle.SECURE; lm_trait := TrustLevel.TRUSTING; lm_multiplier := 1.8 |};
  {| lm_evidence := AttachmentStyle.SECURE; lm_trait := "Consistent behavior"; lm_multiplier := 1.6 |};
  {| lm_evidence := AttachmentStyle.SECURE; lm_trait := "Balanced"; lm_multiplier := 1.7 |};
  {| lm_evidence := AttachmentStyle.SECURE; lm_trait := "Moderate"; lm_multiplier := 1.5 |};

  (* Trust Level Evidence Effects *)
  {| lm_evidence := TrustLevel.HIGHLY_SKEPTICAL; lm_trait := "Fear of betrayal"; lm_multiplier := 2.2 |};
  {| lm_evidence := TrustLevel.HIGHLY_SKEPTICAL; lm_trait := CommunicationStyle.RESERVED; lm_multiplier := 1.8 |};
  {| lm_evidence := TrustLevel.HIGHLY_SKEPTICAL; lm_trait := "Perceived authenticity"; lm_multiplier := 0.5 |};

  {| lm_evidence := TrustLevel.TRUSTING; lm_trait := "Vulnerability disclosure"; lm_multiplier := 1.7 |};
  {| lm_evidence := TrustLevel.TRUSTING; lm_trait := "Shared experiences"; lm_multiplier := 1.6 |};

  (* Social Role Evidence Effects *)
  {| lm_evidence := SocialRole.LEADER; lm_trait := "Power"; lm_multiplier := 2.0 |};
  {| lm_evidence := SocialRole.LEADER; lm_trait := "Achievement"; lm_multiplier := 1.8 |};
  {| lm_evidence := SocialRole.LEADER; lm_trait := CommunicationStyle.DIRECT; lm_multiplier := 1.7 |};
  {| lm_evidence := SocialRole.LEADER; lm_trait := "Fast"; lm_multiplier := 1.6 |};

  {| lm_evidence := SocialRole.FOLLOWER; lm_trait := "Security"; lm_multiplier := 1.6 |};
  {| lm_evidence := SocialRole.FOLLOWER; lm_trait := "Belonging"; lm_multiplier := 1.5 |};

  {| lm_evidence := SocialRole.CONNECTOR; lm_trait := "Relatability"; lm_multiplier := 1.9 |};
  {| lm_evidence := SocialRole.CONNECTOR; lm_trait := "Shared interests"; lm_multiplier := 1.7 |};
  {| lm_evidence := SocialRole.CONNECTOR; lm_trait := CommunicationStyle.PERSONAL; lm_multiplier := 1.8 |};

  {| lm_evidence := SocialRole.OUTLIER; lm_trait := "Being misunderstood"; lm_multiplier := 1.8 |};
  {| lm_evidence := SocialRole.OUTLIER; lm_trait := "Freedom"; lm_multiplier := 1.7 |};
  {| lm_evidence := SocialRole.OUTLIER; lm_trait := "Being irrelevant"; lm_multiplier := 1.6 |};

  (* Communication Style Evidence Effects *)
  {| lm_evidence := CommunicationStyle.DIRECT; lm_trait := "Conflict"; lm_multiplier := 1.4 |};
  {| lm_evidence := CommunicationStyle.DIRECT; lm_trait := TrustLevel.TRUSTING; lm_multiplier := 1.3 |};

  {| lm_evidence := CommunicationStyle.INDIRECT; lm_trait := "Conflict"; lm_multiplier := 0.7 |};
  {| lm_evidence := CommunicationStyle.INDIRECT; lm_trait := "Fear of rejection"; lm_multiplier := 1.5 |};

  {| lm_evidence := CommunicationStyle.RESERVED; lm_trait := "Being misunderstood"; lm_multiplier := 1.6 |};
  {| lm_evidence := CommunicationStyle.RESERVED; lm_trait := "Vulnerability"; lm_multiplier := 1.5 |};

  {| lm_evidence := CommunicationStyle.ANALYTICAL; lm_trait := "Highly logical"; lm_multiplier := 2.0 |};
  {| lm_evidence := CommunicationStyle.ANALYTICAL; lm_trait := "Moderately logical"; lm_multiplier := 1.7 |};

  {| lm_evidence := CommunicationStyle.EMOTIONAL; lm_trait := "Highly emotional"; lm_multiplier := 2.0 |};
  {| lm_evidence := CommunicationStyle.EMOTIONAL; lm_trait := "Moderately emotional"; lm_multiplier := 1.7 |}

  (* Many more multipliers would be defined for a complete system... *)].

Definition Math_pow (base exponent : float) : option float :=
  if exponent =? 0 then Some 1
  else if exponent =? 1 then Some base
  else None.

Definition getTraitsForCategory (category : string)
  : list PriorProbability :=
  filter (fun p => String.eqb (prior_category p) category) PRIORS.

Definition getLikelihoodMultiplier (evidence trait : string) : float :=
  match find (fun lm => String.eqb (lm_evidence lm) evidence
                        && String.eqb (lm_trait lm) trait)
             LIKELIHOOD_MULTIPLIERS with
  | Some multiplier => lm_multiplier multiplier
  | None => 1.0
  end.

(** The inner loop: [posterior *= Math.pow(multiplier, ev.probability)]. *)
Definition applyEvidence (trait : PriorProbability)
           (evidence : list EvidenceVariable) : option float :=
  fold_left
    (fun posterior ev =>
       let multiplier :=
         getLikelihoodMultiplier (ev_trait ev) (prior_trait trait) in
       match posterior, Math_pow multiplier (ev_probability ev) with
       | Some posterior, Some factor => Some (posterior * factor)
       | _, _ => None
       end)
    evidence (Some (prior_probability trait)).

Definition calculateNormalizationFactor (category : string)
           (evidence : list EvidenceVariable) : option float :=
  let traits := getTraitsForCategory category in
  fold_left
    (fun normalizationFactor trait =>
       match normalizationFactor, applyEvidence trait evidence with
       | Some normalizationFactor, Some posterior =>
           Some (normalizationFactor + posterior)
       | _, _ => None
       end)
    traits (Some 0).

Definition calculatePosteriors (category : string)
           (evidence : list EvidenceVariable) : option (JSMap float) :=
  let traits := getTraitsForCategory category in
  match calculateNormalizationFactor category evidence with
  | None => None
  | Some normalizationFactor =>
      fold_left
        (fun posteriors trait =>
           match posteriors, applyEvidence trait evidence with
           | Some posteriors, Some posterior =>
               let posterior :=
                 if 0 <? normalizationFactor
                 then posterior / normalizationFactor
                 else posterior in
               Some (Map_set (prior_trait trait) posterior posteriors)
           | _, _ => None
           end)
        traits (Some [])
  end.

(** The sum of a list of doubles, from left to right. *)
Definition sum (values : list float) : float :=
  fold_left add values 0.

(** Weights in [[0, 1]], as a check. *)
Definition weights_in_unit (evidence : list EvidenceVariable) : bool :=
  forallb (fun ev => (0 <=? ev_probability ev) && (ev_probability ev <=? 1))
          evidence.

(** [count] pieces of evidence "Anxious" of weight [1.0]. *)
Definition anxious (count : nat) : list EvidenceVariable :=
  repeat {| ev_trait := AttachmentStyle.ANXIOUS; ev_probability := 1.0 |}
         count.

End Double.

(** * Verification *)

(** ** Facts about the run-time library *)

Lemma Math_pow_one_r (b : R) : 0 < b -> Math_pow b 1 = b.
Proof.
  intros Hb. unfold Math_pow.
  destruct (Req_dec_T 1 0) as [H | _]; [lra |].
  destruct (Rlt_dec 0 b) as [_ | H]; [apply Rpower_1; assumption | lra].
Qed.

Lemma Math_pow_base_one (e : R) : Math_pow 1 e = 1.
Proof.
  unfold Math_pow.
  destruct (Req_dec_T e 0); [reflexivity |].
  destruct (Rlt_dec 0 1) as [_ | H]; [| lra].
  unfold Rpower. rewrite ln_1, Rmult_0_r. apply exp_0.
Qed.

Lemma Math_pow_nonneg (b e : R) : 0 <= Math_pow b e.
Proof.
  unfold Math_pow.
  destruct (Req_dec_T e 0); [lra |].
  destruct (Rlt_dec 0 b); [| lra].
  unfold Rpower. left. apply exp_pos.
Qed.

Lemma Math_pow_pos (b e : R) : 0 < b -> 0 < Math_pow b e.
Proof.
  intros Hb. unfold Math_pow.
  destruct (Req_dec_T e 0); [lra |].
  destruct (Rlt_dec 0 b); [| lra].
  unfold Rpower. apply exp_pos.
Qed.

Lemma fold_left_Rplus {A : Type} (f : A -> R) (l : list A) (a : R) :
  fold_left (fun acc x => acc + f x) l a = a + Rsum (map f l).
Proof.
  revert a. induction l as [| x l IH]; intros a; cbn.
  - lra.
  - rewrite IH. lra.
Qed.

Lemma Rsum_nonneg (l : list R) : Forall (fun x => 0 <= x) l -> 0 <= Rsum l.
Proof.
  induction 1 as [| x l Hx _ IH]; cbn; lra.
Qed.

Lemma Rsum_zero_all (l : list R) :
  Forall (fun x => 0 <= x) l -> Rsum l = 0 -> Forall (fun x => x = 0) l.
Proof.
  induction 1 as [| x l Hx Hl IH]; cbn; intros Hs.
  - constructor.
  - pose proof (Rsum_nonneg l Hl).
    constructor; [lra | apply IH; lra].
Qed.

Lemma Rsum_pos (l : list R) :
  l <> [] -> Forall (fun x => 0 < x) l -> 0 < Rsum l.
Proof.
  intros Hne Hall. destruct Hall as [| x l Hx Hl]; [congruence |].
  cbn. assert (0 <= Rsum l).
  { apply Rsum_nonneg. eapply Forall_impl; [| exact Hl]. cbn; intros; lra. }
  lra.
Qed.

Lemma Rsum_div (l : list R) (z : R) :
  Rsum (map (fun x => x / z) l) = Rsum l / z.
Proof.
  induction l as [| x l IH]; cbn.
  - lra.
  - rewrite IH. lra.
Qed.

(** *** Maps *)

Lemma Map_set_fresh {V : Type} (k : string) (v : V) (m : JSMap V) :
  ~ In k (Map_keys m) -> Map_set k v m = (m ++ [(k, v)])%list.
Proof.
  induction m as [| [k' v'] m IH]; cbn; intros Hk.
  - reflexivity.
  - destruct (String.eqb_spec k' k) as [-> | Hne].
    + exfalso. apply Hk. left. reflexivity.
    + rewrite IH; [reflexivity |]. intros Hin. apply Hk. right. exact Hin.
Qed.

Lemma Map_set_not_nil {V : Type} (k : string) (v : V) (m : JSMap V) :
  Map_set k v m <> [].
Proof.
  destruct m as [| [k' v'] m]; cbn; [discriminate |].
  destruct (k' =? k); discriminate.
Qed.

Lemma Map_set_Forall {V : Type} (P : string * V -> Prop) k v (m : JSMap V) :
  P (k, v) -> Forall P m -> Forall P (Map_set k v m).
Proof.
  intros Hkv. induction 1 as [| [k' v'] m Hx Hm IH]; cbn.
  - constructor; [assumption | constructor].
  - destruct (k' =? k); constructor; assumption.
Qed.

Section FoldSet.
Context {A V : Type} (key : A -> string) (val : A -> V).

Lemma fold_Map_set_Forall (P : string * V -> Prop) (l : list A)
      (acc : JSMap V) :
  (forall x, In x l -> P (key x, val x)) -> Forall P acc ->
  Forall P (fold_left (fun m x => Map_set (key x) (val x) m) l acc).
Proof.
  revert acc. induction l as [| x l IH]; intros acc Hl Hacc; cbn.
  - assumption.
  - apply IH.
    + intros y Hy. apply Hl. right. exact Hy.
    + apply Map_set_Forall; [apply Hl; left; reflexivity | assumption].
Qed.

Lemma fold_Map_set_not_nil (l : list A) (acc : JSMap V) :
  (l <> [] \/ acc <> []) ->
  fold_left (fun m x => Map_set (key x) (val x) m) l acc <> [].
Proof.
  revert acc. induction l as [| x l IH]; intros acc H; cbn.
  - destruct H; [congruence | assumption].
  - apply IH. right. apply Map_set_not_nil.
Qed.

Lemma fold_Map_set_distinct (l : list A) (acc : JSMap V) :
  NoDup (Map_keys acc ++ map key l) ->
  fold_left (fun m x => Map_set (key x) (val x) m) l acc
  = (acc ++ map (fun x => (key x, val x)) l)%list.
Proof.
  revert acc. induction l as [| x l IH]; intros acc Hnd; cbn.
  - rewrite app_nil_r. reflexivity.
  - cbn in Hnd.
    rewrite Map_set_fresh.
    + rewrite IH.
      * rewrite <- app_assoc. reflexivity.
      * unfold Map_keys. rewrite map_app. cbn.
        rewrite <- app_assoc. exact Hnd.
    + intros Hin. apply NoDup_remove_2 in Hnd. apply Hnd.
      apply in_or_app. left. exact Hin.
Qed.
End FoldSet.

(** ** Checking the tables *)

Lemma pair_eqb_spec (x y : string * string) : reflect (x = y) (pair_eqb x y).
Proof.
  destruct x as [a b], y as [c d]. unfold pair_eqb; cbn.
  destruct (String.eqb_spec a c) as [-> | Hac];
    destruct (String.eqb_spec b d) as [-> | Hbd]; cbn; constructor;
    congruence.
Qed.

Lemma distinctb_NoDup (l : list (string * string)) :
  distinctb l = true -> NoDup l.
Proof.
  induction l as [| x l IH]; cbn; intros H.
  - constructor.
  - apply andb_true_iff in H. destruct H as [Hx Hl].
    constructor; [| apply IH; exact Hl].
    intros Hin. apply negb_true_iff in Hx.
    assert (existsb (pair_eqb x) l = true) as E; [| congruence].
    apply existsb_exists. exists x. split; [exact Hin |].
    destruct (pair_eqb_spec x x); congruence.
Qed.

Lemma PRIORS_positive : Forall (fun p => 0 < prior_probability p) PRIORS.
Proof. unfold PRIORS. repeat constructor; cbn; lra. Qed.

Lemma LIKELIHOOD_MULTIPLIERS_positive :
  Forall (fun lm => 0 < lm_multiplier lm) LIKELIHOOD_MULTIPLIERS.
Proof. unfold LIKELIHOOD_MULTIPLIERS. repeat constructor; cbn; lra. Qed.

Lemma PRIORS_distinct :
  NoDup (map (fun p => (prior_trait p, prior_category p)) PRIORS).
Proof. apply distinctb_NoDup. vm_compute. reflexivity. Qed.

Lemma shipped_tables_wf : tables_wf PRIORS LIKELIHOOD_MULTIPLIERS.
Proof.
  constructor.
  - eapply Forall_impl; [| exact PRIORS_positive]. cbn; intros; lra.
  - eapply Forall_impl; [| exact LIKELIHOOD_MULTIPLIERS_positive].
    cbn; intros; lra.
  - exact PRIORS_distinct.
Qed.

(** The shipped tables lie within [within_double_range]: every prior is at
    most 1 and every multiplier at most 10 (the largest is 2.5). *)
Lemma PRIORS_at_most_one :
  Forall (fun p => prior_probability p <= 1) PRIORS.
Proof. unfold PRIORS. repeat constructor; cbn; lra. Qed.

Lemma LIKELIHOOD_MULTIPLIERS_at_most_ten :
  Forall (fun lm => lm_multiplier lm <= 10) LIKELIHOOD_MULTIPLIERS.
Proof. unfold LIKELIHOOD_MULTIPLIERS. repeat constructor; cbn; lra. Qed.

Lemma shipped_within_double_range (evidence : list EvidenceVariable) :
  (length evidence <= 100)%nat ->
  within_double_range PRIORS LIKELIHOOD_MULTIPLIERS evidence.
Proof.
  intros Hlen. split; [exact PRIORS_at_most_one |].
  split; [exact LIKELIHOOD_MULTIPLIERS_at_most_ten | exact Hlen].
Qed.

Lemma fold_left_pointwise {A B : Type} (f g : A -> B -> A) (l : list B)
      (a : A) :
  (forall a x, f a x = g a x) -> fold_left f l a = fold_left g l a.
Proof.
  intros Hfg. revert a. induction l as [| x l IH]; intros a; cbn.
  - reflexivity.
  - rewrite Hfg. apply IH.
Qed.

(** ** The engine over arbitrary tables *)

Section EngineFacts.

Variable priors : list PriorProbability.
Variable likelihoods : list LikelihoodMultiplier.

Notation traitsOf := (Engine.getTraitsForCategory priors).
Notation multiplier := (Engine.getLikelihoodMultiplier likelihoods).
Notation score := (Engine.applyEvidence likelihoods).
Notation Z := (Engine.calculateNormalizationFactor priors likelihoods).
Notation posteriors := (Engine.calculatePosteriors priors likelihoods).

Lemma getTraitsForCategory_In (category : string) (p : PriorProbability) :
  In p (traitsOf category) <-> In p priors /\ prior_category p = category.
Proof.
  unfold Engine.getTraitsForCategory. rewrite filter_In.
  split; intros [Hin Hc]; split; try assumption.
  - apply String.eqb_eq. exact Hc.
  - apply String.eqb_eq. exact Hc.
Qed.

Lemma getTraitsForCategory_distinct (category : string) :
  NoDup (map (fun p => (prior_trait p, prior_category p)) priors) ->
  NoDup (map prior_trait (traitsOf category)).
Proof.
  unfold Engine.getTraitsForCategory.
  induction priors as [| p ps IH]; cbn; intros Hnd.
  - constructor.
  - inversion Hnd as [| x xs Hnotin Hnd' ]; subst.
    destruct (String.eqb_spec (prior_category p) category) as [Hc | Hc].
    + cbn. constructor; [| apply IH; exact Hnd'].
      intros Hin. apply Hnotin.
      apply in_map_iff in Hin. destruct Hin as [q [Hq Hqin]].
      apply filter_In in Hqin. destruct Hqin as [Hqin Hqc].
      apply String.eqb_eq in Hqc.
      apply in_map_iff. exists q. split; [| exact Hqin].
      rewrite Hq, Hqc, Hc. reflexivity.
    + apply IH. exact Hnd'.
Qed.

Lemma getLikelihoodMultiplier_no_row (e trait : string) :
  (forall lm, In lm likelihoods -> lm_evidence lm <> e) ->
  multiplier e trait = 1.
Proof.
  intros Hno. unfold Engine.getLikelihoodMultiplier.
  destruct (find _ likelihoods) as [lm |] eqn:Hfind; [| lra].
  apply find_some in Hfind. destruct Hfind as [Hin Htest].
  apply andb_true_iff in Htest. destruct Htest as [He _].
  apply String.eqb_eq in He. exfalso. exact (Hno lm Hin He).
Qed.

Lemma getLikelihoodMultiplier_pos (e trait : string) :
  Forall (fun lm => 0 < lm_multiplier lm) likelihoods ->
  0 < multiplier e trait.
Proof.
  intros Hpos. unfold Engine.getLikelihoodMultiplier.
  destruct (find _ likelihoods) as [lm |] eqn:Hfind; [| lra].
  apply find_some in Hfind. destruct Hfind as [Hin _].
  rewrite Forall_forall in Hpos. apply Hpos. exact Hin.
Qed.

Lemma applyEvidence_nonneg (trait : PriorProbability)
      (evidence : list EvidenceVariable) :
  0 <= prior_probability trait -> 0 <= score trait evidence.
Proof.
  unfold Engine.applyEvidence.
  generalize (prior_probability trait) as acc.
  induction evidence as [| ev evs IH]; intros acc Hacc; cbn.
  - exact Hacc.
  - apply IH. apply Rmult_le_pos; [exact Hacc | apply Math_pow_nonneg].
Qed.

Lemma applyEvidence_pos (trait : PriorProbability)
      (evidence : list EvidenceVariable) :
  Forall (fun lm => 0 < lm_multiplier lm) likelihoods ->
  0 < prior_probability trait -> 0 < score trait evidence.
Proof.
  intros Hpos. unfold Engine.applyEvidence.
  generalize (prior_probability trait) as acc.
  induction evidence as [| ev evs IH]; intros acc Hacc; cbn.
  - exact Hacc.
  - apply IH. apply Rmult_lt_0_compat; [exact Hacc |].
    apply Math_pow_pos. apply getLikelihoodMultiplier_pos. exact Hpos.
Qed.

Lemma applyEvidence_neutral (trait : PriorProbability) (e : string)
      (w : R) (before after : list EvidenceVariable) :
  (forall lm, In lm likelihoods -> lm_evidence lm <> e) ->
  score trait
        (before ++ {| ev_trait := e; ev_probability := w |} :: after)
  = score trait (before ++ after).
Proof.
  intros Hno. unfold Engine.applyEvidence.
  rewrite !fold_left_app. cbn.
  rewrite (getLikelihoodMultiplier_no_row e _ Hno), Math_pow_base_one.
  rewrite Rmult_1_r. reflexivity.
Qed.

Lemma calculateNormalizationFactor_sum (category : string)
      (evidence : list EvidenceVariable) :
  Z category evidence
  = Rsum (map (fun t => score t evidence) (traitsOf category)).
Proof.
  unfold Engine.calculateNormalizationFactor.
  rewrite fold_left_Rplus. lra.
Qed.

Lemma calculatePosteriors_map (category : string)
      (evidence : list EvidenceVariable) :
  NoDup (map (fun p => (prior_trait p, prior_category p)) priors) ->
  posteriors category evidence
  = map (fun t =>
           (prior_trait t,
            if Rlt_dec 0 (Z category evidence)
            then score t evidence / Z category evidence
            else score t evidence))
        (traitsOf category).
Proof.
  intros Hnd. unfold Engine.calculatePosteriors, Engine.calculatePosteriorsWith.
  rewrite (fold_Map_set_distinct prior_trait
             (fun t =>
                if Rlt_dec 0 (Z category evidence)
                then score t evidence / Z category evidence
                else score t evidence)).
  - reflexivity.
  - cbn. apply getTraitsForCategory_distinct. exact Hnd.
Qed.

Lemma scores_nonneg (category : string) (evidence : list EvidenceVariable) :
  Forall (fun p => 0 <= prior_probability p) priors ->
  Forall (fun x => 0 <= x)
         (map (fun t => score t evidence) (traitsOf category)).
Proof.
  intros Hp. apply Forall_map, Forall_forall. intros t Ht.
  apply applyEvidence_nonneg.
  apply getTraitsForCategory_In in Ht. destruct Ht as [Ht _].
  rewrite Forall_forall in Hp. apply Hp. exact Ht.
Qed.

(** Normalisation: over well-formed tables the posteriors of a category
    sum to 1, or to 0 when the category carries no probability mass. *)
Lemma posteriors_sum (category : string) (evidence : list EvidenceVariable) :
  tables_wf priors likelihoods ->
  Rsum (Map_values (posteriors category evidence))
  = (if Rlt_dec 0 (Z category evidence) then 1 else 0).
Proof.
  intros [Hp _ Hnd].
  rewrite (calculatePosteriors_map category evidence Hnd).
  unfold Map_values. rewrite map_map. cbn.
  pose proof (calculateNormalizationFactor_sum category evidence) as HZ.
  destruct (Rlt_dec 0 (Z category evidence)) as [Hpos | Hnpos].
  - rewrite <- (map_map (fun t => score t evidence)
                        (fun x => x / Z category evidence)).
    rewrite Rsum_div, <- HZ. field. lra.
  - rewrite <- HZ.
    pose proof (Rsum_nonneg _ (scores_nonneg category evidence Hp)).
    lra.
Qed.

(** Degenerate case: no probability mass, every posterior is [0]. *)
Lemma posteriors_zero (category : string) (evidence : list EvidenceVariable) :
  Forall (fun p => 0 <= prior_probability p) priors ->
  Z category evidence = 0 ->
  Forall (fun entry => snd entry = 0) (posteriors category evidence).
Proof.
  intros Hp HZ. unfold Engine.calculatePosteriors, Engine.calculatePosteriorsWith.
  apply (fold_Map_set_Forall prior_trait); [| constructor].
  intros t Ht. cbn.
  fold (Z category evidence). rewrite HZ.
  destruct (Rlt_dec 0 0) as [H | _]; [lra |].
  pose proof (calculateNormalizationFactor_sum category evidence) as Hsum.
  rewrite HZ in Hsum. symmetry in Hsum.
  apply Rsum_zero_all in Hsum; [| apply scores_nonneg; exact Hp].
  rewrite Forall_map, Forall_forall in Hsum. apply Hsum. exact Ht.
Qed.

Lemma posteriors_neutral (category e : string) (w : R)
      (before after : list EvidenceVariable) :
  (forall lm, In lm likelihoods -> lm_evidence lm <> e) ->
  posteriors category
             (before ++ {| ev_trait := e; ev_probability := w |} :: after)
  = posteriors category (before ++ after).
Proof.
  intros Hno.
  assert (Z category
            (before ++ {| ev_trait := e; ev_probability := w |} :: after)
          = Z category (before ++ after)) as HZ.
  { unfold Engine.calculateNormalizationFactor.
    apply fold_left_pointwise. intros a t.
    rewrite applyEvidence_neutral by exact Hno. reflexivity. }
  unfold Engine.calculatePosteriors, Engine.calculatePosteriorsWith.
  fold (Z category
          (before ++ {| ev_trait := e; ev_probability := w |} :: after)).
  fold (Z category (before ++ after)).
  rewrite HZ. apply fold_left_pointwise. intros m t. cbn.
  rewrite applyEvidence_neutral by exact Hno. reflexivity.
Qed.

Lemma posteriors_positive (category : string)
      (evidence : list EvidenceVariable) :
  Forall (fun p => 0 < prior_probability p) priors ->
  Forall (fun lm => 0 < lm_multiplier lm) likelihoods ->
  Forall (fun entry =>
            0 < snd entry
            /\ In (fst entry) (map prior_trait (traitsOf category)))
         (posteriors category evidence).
Proof.
  intros Hp Hl. unfold Engine.calculatePosteriors, Engine.calculatePosteriorsWith.
  apply (fold_Map_set_Forall prior_trait); [| constructor].
  intros t Ht. cbn. split; [| apply in_map; exact Ht].
  fold (Z category evidence).
  assert (0 < score t evidence) as Hs.
  { apply applyEvidence_pos; [exact Hl |].
    apply getTraitsForCategory_In in Ht. destruct Ht as [Ht _].
    rewrite Forall_forall in Hp. apply Hp. exact Ht. }
  destruct (Rlt_dec 0 (Z category evidence)) as [HZ | _]; [| exact Hs].
  apply Rdiv_lt_0_compat; assumption.
Qed.

Lemma posteriors_not_nil (category : string)
      (evidence : list EvidenceVariable) :
  traitsOf category <> [] -> posteriors category evidence <> [].
Proof.
  intros Hne. unfold Engine.calculatePosteriors, Engine.calculatePosteriorsWith.
  apply (fold_Map_set_not_nil prior_trait). left. exact Hne.
Qed.

End EngineFacts.

Section SpecScore.
Variable priors : list PriorProbability.
Variable likelihoods : list LikelihoodMultiplier.

Lemma fold_left_Rmult {A : Type} (f : A -> R) (l : list A) (a : R) :
  fold_left (fun acc x => acc * f x) l a = a * Rprod (map f l).
Proof.
  revert a. induction l as [| x l IH]; intros a; cbn.
  - lra.
  - rewrite IH. lra.
Qed.

Lemma applyEvidence_spec (t : PriorProbability)
      (evidence : list EvidenceVariable) :
  Engine.applyEvidence likelihoods t evidence
  = spec_score likelihoods t evidence.
Proof.
  unfold Engine.applyEvidence, spec_score.
  apply (fold_left_Rmult
           (fun ev =>
              Math_pow (Engine.getLikelihoodMultiplier
                          likelihoods (ev_trait ev) (prior_trait t))
                       (ev_probability ev))).
Qed.

Lemma calculateNormalizationFactor_spec (category : string)
      (evidence : list EvidenceVariable) :
  Engine.calculateNormalizationFactor priors likelihoods category evidence
  = spec_Z priors likelihoods category evidence.
Proof.
  rewrite calculateNormalizationFactor_sum. unfold spec_Z.
  f_equal. apply map_ext. intros t. apply applyEvidence_spec.
Qed.

Lemma applyEvidence_without (t : PriorProbability) (e : string)
      (evidence : list EvidenceVariable) :
  (forall lm, In lm likelihoods -> lm_evidence lm <> e) ->
  Engine.applyEvidence likelihoods t evidence
  = Engine.applyEvidence likelihoods t (without_trait e evidence).
Proof.
  intros Hno. unfold Engine.applyEvidence.
  generalize (prior_probability t) as acc.
  induction evidence as [| ev evs IH]; intros acc; cbn.
  - reflexivity.
  - destruct (String.eqb_spec (ev_trait ev) e) as [He | He]; cbn.
    + rewrite He, (getLikelihoodMultiplier_no_row likelihoods e _ Hno).
      rewrite Math_pow_base_one, Rmult_1_r. apply IH.
    + apply IH.
Qed.

Lemma posteriors_without (category e : string)
      (evidence : list EvidenceVariable) :
  (forall lm, In lm likelihoods -> lm_evidence lm <> e) ->
  Engine.calculatePosteriors priors likelihoods category evidence
  = Engine.calculatePosteriors priors likelihoods category
                               (without_trait e evidence).
Proof.
  intros Hno.
  assert (Engine.calculateNormalizationFactor
            priors likelihoods category evidence
          = Engine.calculateNormalizationFactor
              priors likelihoods category (without_trait e evidence))
    as HZ.
  { unfold Engine.calculateNormalizationFactor.
    apply fold_left_pointwise. intros a t.
    rewrite (applyEvidence_without t e evidence Hno). reflexivity. }
  unfold Engine.calculatePosteriors, Engine.calculatePosteriorsWith.
  fold (Engine.calculateNormalizationFactor
          priors likelihoods category evidence).
  fold (Engine.calculateNormalizationFactor
          priors likelihoods category (without_trait e evidence)).
  rewrite HZ. apply fold_left_pointwise. intros m t. cbn.
  rewrite (applyEvidence_without t e evidence Hno). reflexivity.
Qed.
End SpecScore.

Lemma no_row_check (likelihoods : list LikelihoodMultiplier) (e : string) :
  forallb (fun lm => negb (lm_evidence lm =? e)) likelihoods = true ->
  forall lm, In lm likelihoods -> lm_evidence lm <> e.
Proof.
  intros Hall lm Hin He. rewrite forallb_forall in Hall.
  specialize (Hall lm Hin). apply negb_true_iff in Hall.
  apply String.eqb_neq in Hall. contradiction.
Qed.

(** ** Range of the running products *)

Lemma Math_pow_le_10 (b e : R) :
  0 <= b <= 10 -> 0 <= e <= 1 -> 0 <= Math_pow b e <= 10.
Proof.
  intros Hb He. split; [apply Math_pow_nonneg |].
  unfold Math_pow.
  destruct (Req_dec_T e 0) as [_ | Hne]; [lra |].
  destruct (Rlt_dec 0 b) as [Hpos | _]; [| lra].
  destruct (Rle_lt_dec 1 b) as [Hge | Hlt].
  - apply Rle_trans with (Rpower b 1).
    + apply Rle_Rpower; lra.
    + rewrite Rpower_1 by exact Hpos. lra.
  - apply Rle_trans with 1; [| lra].
    unfold Rpower. rewrite <- exp_0.
    assert (ln b < 0) as Hln by (rewrite <- ln_1; apply ln_increasing; lra).
    assert (e * ln b <= 0) as Hle by nra.
    destruct Hle as [Hlt' | Heq].
    + left. apply exp_increasing. exact Hlt'.
    + rewrite Heq. lra.
Qed.

Lemma getLikelihoodMultiplier_range
      (likelihoods : list LikelihoodMultiplier) (e trait : string) :
  Forall (fun lm => 0 <= lm_multiplier lm) likelihoods ->
  Forall (fun lm => lm_multiplier lm <= 10) likelihoods ->
  0 <= Engine.getLikelihoodMultiplier likelihoods e trait <= 10.
Proof.
  intros Hlow Hhigh. unfold Engine.getLikelihoodMultiplier.
  destruct (find _ likelihoods) as [lm |] eqn:Hfind; [| lra].
  apply find_some in Hfind. destruct Hfind as [Hin _].
  rewrite Forall_forall in Hlow, Hhigh.
  split; [apply Hlow | apply Hhigh]; exact Hin.
Qed.

(** With priors at most 1, multipliers at most 10 and weights in [[0, 1]],
    the running product after [n] pieces of evidence is at most [10 ^ n]. *)
Lemma applyEvidence_range (likelihoods : list LikelihoodMultiplier)
      (trait : PriorProbability) (evidence : list EvidenceVariable) :
  Forall (fun lm => 0 <= lm_multiplier lm) likelihoods ->
  Forall (fun lm => lm_multiplier lm <= 10) likelihoods ->
  weights_in_unit evidence ->
  0 <= prior_probability trait <= 1 ->
  0 <= Engine.applyEvidence likelihoods trait evidence
    <= 10 ^ length evidence.
Proof.
  intros Hlow Hhigh Hw Hprior.
  split; [apply applyEvidence_nonneg; lra |].
  unfold Engine.applyEvidence.
  assert (forall acc bound,
             0 <= acc <= bound ->
             fold_left
               (fun posterior ev =>
                  let multiplier :=
                    Engine.getLikelihoodMultiplier
                      likelihoods (ev_trait ev) (prior_trait trait) in
                  posterior * Math_pow multiplier (ev_probability ev))
               evidence acc
             <= bound * 10 ^ length evidence) as Hgen.
  { induction Hw as [| ev evs Hev Hevs IH]; intros acc bound Hacc; cbn.
    - lra.
    - pose proof (Math_pow_le_10
                    (Engine.getLikelihoodMultiplier
                       likelihoods (ev_trait ev) (prior_trait trait))
                    (ev_probability ev)
                    (getLikelihoodMultiplier_range
                       likelihoods _ _ Hlow Hhigh) Hev) as Hpow.
      replace (bound * (10 * 10 ^ length evs))
        with ((bound * 10) * 10 ^ length evs) by ring.
      apply IH. split; [apply Rmult_le_pos; lra |].
      apply Rmult_le_compat; lra. }
  specialize (Hgen (prior_probability trait) 1 Hprior). lra.
Qed.

Lemma weights_in_unit_firstn (k : nat) (evidence : list EvidenceVariable) :
  weights_in_unit evidence -> weights_in_unit (firstn k evidence).
Proof.
  unfold weights_in_unit. rewrite !Forall_forall.
  intros Hall ev Hin. apply Hall.
  clear Hall. revert k Hin.
  induction evidence as [| x xs IH]; intros [| k] Hin;
    cbn in Hin; try contradiction.
  destruct Hin as [Hx | Hin]; [left; exact Hx | right].
  exact (IH k Hin).
Qed.

(** Inside [within_double_range] no running product of a trait of the
    category exceeds [10 ^ 100]. *)
Lemma running_products_in_range
      (priors : list PriorProbability)
      (likelihoods : list LikelihoodMultiplier)
      (category : string) (evidence : list EvidenceVariable) :
  tables_wf priors likelihoods ->
  within_double_range priors likelihoods evidence ->
  weights_in_unit evidence ->
  forall t k,
    In t (Engine.getTraitsForCategory priors category) ->
    0 <= Engine.applyEvidence likelihoods t (firstn k evidence) <= 10 ^ 100.
Proof.
  intros [Hp Hm _] [Hp1 [Hm10 Hlen]] Hw t k Ht.
  apply getTraitsForCategory_In in Ht. destruct Ht as [Hin _].
  rewrite Forall_forall in Hp, Hp1.
  pose proof (applyEvidence_range
                likelihoods t (firstn k evidence) Hm Hm10
                (weights_in_unit_firstn k evidence Hw)
                (conj (Hp t Hin) (Hp1 t Hin))) as [Hlow Hhigh].
  split; [exact Hlow |].
  apply Rle_trans with (10 ^ length (firstn k evidence)); [exact Hhigh |].
  apply Rle_pow; [lra |].
  rewrite length_firstn. lia.
Qed.

(** C2. Normalization, within the range of doubles: for tables that
    satisfy the invariants of the data model and, with the evidence, lie
    within [within_double_range] (priors at most 1, multipliers at most 10,
    at most 100 pieces of evidence), a category with at least one prior
    entry and evidence with weights in [[0, 1]]: every running product of
    the engine stays between [0] and [10 ^ 100], so that none overflows, and
    the posteriors returned by [calculatePosteriors] sum to [0] (degenerate
    case) or to [1].  Without the bound the sum can be [NaN] on doubles, as
    the run of [Double.calculatePosteriors] on 777 pieces of evidence
    shows. *)
Theorem posteriors_normalized
        (priors : list PriorProbability)
        (likelihoods : list LikelihoodMultiplier)
        (category : string) (evidence : list EvidenceVariable) :
  tables_wf priors likelihoods ->
  within_double_range priors likelihoods evidence ->
  Engine.getTraitsForCategory priors category <> [] ->
  weights_in_unit evidence ->
  let posteriors :=
    Engine.calculatePosteriors priors likelihoods category evidence in
  (forall t k,
      In t (Engine.getTraitsForCategory priors category) ->
      0 <= Engine.applyEvidence likelihoods t (firstn k evidence)
        <= 10 ^ 100)
  /\ (Rsum (Map_values posteriors) = 0 \/ Rsum (Map_values posteriors) = 1).
Proof.
  intros Hwf Hrange _ Hw posteriors. subst posteriors.
  split.
  - apply running_products_in_range; assumption.
  - rewrite (posteriors_sum priors likelihoods category evidence Hwf).
    destruct (Rlt_dec 0 _); [right | left]; reflexivity.
Qed.

Lemma highly_introverted_weights : weights_in_unit highly_introverted.
Proof. constructor; [cbn; lra | constructor]. Qed.

Lemma highly_introverted_length : (length highly_introverted <= 100)%nat.
Proof. cbn. lia. Qed.

Lemma posteriors_normalized_witness :
  tables_wf PRIORS LIKELIHOOD_MULTIPLIERS
  /\ within_double_range PRIORS LIKELIHOOD_MULTIPLIERS highly_introverted
  /\ Engine.getTraitsForCategory PRIORS "socialRole" <> []
  /\ weights_in_unit highly_introverted
  /\ (Rsum (Map_values
              (Engine.calculatePosteriors PRIORS LIKELIHOOD_MULTIPLIERS
                                          "socialRole" highly_introverted))
      = 0
      \/ Rsum (Map_values
                 (Engine.calculatePosteriors PRIORS LIKELIHOOD_MULTIPLIERS
                                             "socialRole" highly_introverted))
         = 1).
Proof.
  assert (Engine.getTraitsForCategory PRIORS "socialRole" <> []) as Hne
      by (cbn; discriminate).
  pose proof (shipped_within_double_range
                highly_introverted highly_introverted_length) as Hrange.
  split; [exact shipped_tables_wf |].
  split; [exact Hrange |].
  split; [exact Hne |].
  split; [exact highly_introverted_weights |].
  exact (proj2 (posteriors_normalized
                  PRIORS LIKELIHOOD_MULTIPLIERS "socialRole"
                  highly_introverted shipped_tables_wf Hrange Hne
                  highly_introverted_weights)).
Defined.

(** The division of [calculatePosteriors] is the one of the reals. *)
Lemma calculatePosteriors_division
      (priors : list PriorProbability)
      (likelihoods : list LikelihoodMultiplier)
      (category : string) (evidence : list EvidenceVariable) :
  Engine.calculatePosteriors priors likelihoods category evidence
  = Engine.calculatePosteriorsWith priors likelihoods Rdiv category evidence.
Proof. reflexivity. Qed.

(** The division is evaluated for a positive divisor only: two division
    operators that agree on the positive divisors give the same
    posteriors. *)
Lemma division_by_positive_only
      (priors : list PriorProbability)
      (likelihoods : list LikelihoodMultiplier)
      (divide divide' : R -> R -> R)
      (category : string) (evidence : list EvidenceVariable) :
  (forall x y, 0 < y -> divide x y = divide' x y) ->
  Engine.calculatePosteriorsWith priors likelihoods divide category evidence
  = Engine.calculatePosteriorsWith
      priors likelihoods divide' category evidence.
Proof.
  intros Hagree. unfold Engine.calculatePosteriorsWith.
  apply fold_left_pointwise. intros m t. cbn.
  destruct (Rlt_dec 0 _) as [Hpos | _]; [| reflexivity].
  rewrite (Hagree _ _ Hpos). reflexivity.
Qed.

(** With positive tables the normalization constant of a category that has
    a prior row is positive, whatever the evidence. *)
Lemma spec_Z_positive
      (priors : list PriorProbability)
      (likelihoods : list LikelihoodMultiplier)
      (category : string) (evidence : list EvidenceVariable) :
  Forall (fun p => 0 < prior_probability p) priors ->
  Forall (fun lm => 0 < lm_multiplier lm) likelihoods ->
  Engine.getTraitsForCategory priors category <> [] ->
  0 < spec_Z priors likelihoods category evidence.
Proof.
  intros Hp Hl Hne. unfold spec_Z.
  apply Rsum_pos.
  - intros Hnil. apply map_eq_nil in Hnil. contradiction.
  - apply Forall_map, Forall_forall. intros t Ht.
    rewrite <- applyEvidence_spec.
    apply applyEvidence_pos; [exact Hl |].
    apply getTraitsForCategory_In in Ht. destruct Ht as [Hin _].
    rewrite Forall_forall in Hp. apply Hp. exact Hin.
Qed.

Opaque PRIORS LIKELIHOOD_MULTIPLIERS.

(** C3. Degenerate normalization: when the normalization constant [Z] of the
    specification is [0], [calculatePosteriors] returns [0] for every trait
    of the category, and it does so without dividing: whatever the division
    operator [divide] returns (for a zero divisor in particular, where a
    double would be [NaN]), the result is the map of the raw scores, all
    [0], and it is the result of [calculatePosteriors].  This is stated
    twice.  For any tables that satisfy the invariants of the data model,
    taken with the evidence within [within_double_range], where no running
    product overflows.  And for the tables of the module with any evidence:
    there [Z] is [0] only for a category without a prior row, and the result
    is the empty map. *)
Theorem degenerate_posteriors_all_zero
        (divide : R -> R -> R)
        (priors : list PriorProbability)
        (likelihoods : list LikelihoodMultiplier)
        (category : string) (evidence : list EvidenceVariable) :
  weights_in_unit evidence ->
  (tables_wf priors likelihoods ->
   within_double_range priors likelihoods evidence ->
   spec_Z priors likelihoods category evidence = 0 ->
   let posteriors :=
     Engine.calculatePosteriorsWith
       priors likelihoods divide category evidence in
   (forall t, In t (Engine.getTraitsForCategory priors category) ->
              Map_get (prior_trait t) posteriors = Some 0)
   /\ Forall (fun entry => snd entry = 0) posteriors
   /\ posteriors
      = fold_left
          (fun m t =>
             Map_set (prior_trait t)
                     (Engine.applyEvidence likelihoods t evidence) m)
          (Engine.getTraitsForCategory priors category) []
   /\ Engine.calculatePosteriors priors likelihoods category evidence
      = posteriors)
  /\ (spec_Z PRIORS LIKELIHOOD_MULTIPLIERS category evidence = 0 ->
      Engine.getTraitsForCategory PRIORS category = []
      /\ Engine.calculatePosteriorsWith
           PRIORS LIKELIHOOD_MULTIPLIERS divide category evidence
         = []
      /\ Engine.calculatePosteriors
           PRIORS LIKELIHOOD_MULTIPLIERS category evidence
         = []).
Proof.
  intros _. split.
  - intros [Hp _ Hnd] _ HZ posteriors. subst posteriors.
    rewrite <- calculateNormalizationFactor_spec in HZ.
    assert (forall dv,
               Engine.calculatePosteriorsWith
                 priors likelihoods dv category evidence
               = fold_left
                   (fun m t =>
                      Map_set (prior_trait t)
                              (Engine.applyEvidence likelihoods t evidence)
                              m)
                   (Engine.getTraitsForCategory priors category) [])
      as Hraw.
    { intros dv. unfold Engine.calculatePosteriorsWith.
      fold (Engine.calculateNormalizationFactor
              priors likelihoods category evidence).
      rewrite HZ. apply fold_left_pointwise. intros m t. cbn.
      destruct (Rlt_dec 0 0) as [H | _]; [lra | reflexivity]. }
    assert (Engine.calculatePosteriors priors likelihoods category evidence
            = Engine.calculatePosteriorsWith
                priors likelihoods divide category evidence) as Hsame.
    { rewrite calculatePosteriors_division, !Hraw. reflexivity. }
    rewrite <- Hsame.
    split; [| split; [apply posteriors_zero; assumption |
                      split; [rewrite Hsame; apply Hraw | reflexivity]]].
    intros t Ht.
    pose proof (posteriors_zero priors likelihoods category evidence Hp HZ)
      as Hzero.
    rewrite (calculatePosteriors_map priors likelihoods category evidence
                                     Hnd) in *.
    pose proof (getTraitsForCategory_distinct priors category Hnd) as Hdist.
    revert Ht Hzero Hdist.
    generalize (Engine.getTraitsForCategory priors category) as ts.
    induction ts as [| u ts IH]; cbn; intros Ht Hzero Hdist.
    + contradiction.
    + inversion Hzero as [| x xs Hu Hrest]; subst. cbn in Hu.
      inversion Hdist as [| y ys Hnotin Hdist']; subst.
      destruct (String.eqb_spec (prior_trait u) (prior_trait t)) as [E | E].
      * rewrite Hu. reflexivity.
      * destruct Ht as [-> | Ht]; [congruence |].
        apply IH; assumption.
  - intros HZ.
    assert (Engine.getTraitsForCategory PRIORS category = []) as Hnil.
    { destruct (Engine.getTraitsForCategory PRIORS category)
        as [| t ts] eqn:Htraits; [reflexivity |].
      pose proof (spec_Z_positive
                    PRIORS LIKELIHOOD_MULTIPLIERS category evidence
                    PRIORS_positive LIKELIHOOD_MULTIPLIERS_positive) as Hpos.
      rewrite Htraits in Hpos.
      assert (0 < spec_Z PRIORS LIKELIHOOD_MULTIPLIERS category evidence)
        as Hlt by (apply Hpos; discriminate).
      lra. }
    split; [exact Hnil |].
    unfold Engine.calculatePosteriors, Engine.calculatePosteriorsWith.
    rewrite Hnil. split; reflexivity.
Qed.

Transparent PRIORS LIKELIHOOD_MULTIPLIERS.

Lemma massless_tables_wf : tables_wf massless_priors [].
Proof.
  constructor.
  - repeat apply Forall_cons; try apply Forall_nil; cbn; lra.
  - constructor.
  - apply distinctb_NoDup. vm_compute. reflexivity.
Qed.

Lemma massless_within_double_range :
  within_double_range massless_priors [] highly_introverted.
Proof.
  split; [repeat apply Forall_cons; try apply Forall_nil; cbn; lra |].
  split; [constructor | cbn; lia].
Qed.

(** The witness runs a division that answers [1] for a zero divisor, on a
    table of two priors [0], and the tables of the module on a category
    they do not have. *)
Lemma degenerate_posteriors_all_zero_witness :
  let divide := fun x y => if Req_dec_T y 0 then 1 else x / y in
  weights_in_unit highly_introverted
  /\ tables_wf massless_priors []
  /\ within_double_range massless_priors [] highly_introverted
  /\ spec_Z massless_priors [] "c" highly_introverted = 0
  /\ Engine.calculatePosteriorsWith
       massless_priors [] divide "c" highly_introverted
     = [("A", 0); ("B", 0)]
  /\ Engine.calculatePosteriors massless_priors [] "c" highly_introverted
     = [("A", 0); ("B", 0)]
  /\ spec_Z PRIORS LIKELIHOOD_MULTIPLIERS "zodiac" highly_introverted = 0
  /\ Engine.calculatePosteriors
       PRIORS LIKELIHOOD_MULTIPLIERS "zodiac" highly_introverted
     = [].
Proof.
  intros divide.
  assert (spec_Z massless_priors [] "c" highly_introverted = 0) as HZ.
  { unfold spec_Z, spec_score. cbn. lra. }
  assert (spec_Z PRIORS LIKELIHOOD_MULTIPLIERS "zodiac" highly_introverted
          = 0) as HZ' by reflexivity.
  split; [exact highly_introverted_weights |].
  split; [exact massless_tables_wf |].
  split; [exact massless_within_double_range |].
  split; [exact HZ |].
  destruct (proj1 (degenerate_posteriors_all_zero
                     divide massless_priors [] "c" highly_introverted
                     highly_introverted_weights)
                  massless_tables_wf massless_within_double_range HZ)
    as [_ [Hall [Hraw Hsame]]].
  rewrite Hsame.
  assert (Engine.calculatePosteriorsWith
            massless_priors [] divide "c" highly_introverted
          = [("A", 0); ("B", 0)]) as Hvalue.
  { rewrite Hraw in *. cbn in *.
    inversion Hall as [| x xs HA Hrest]; subst.
    inversion Hrest as [| y ys HB _]; subst.
    f_equal; [f_equal; exact HA | f_equal; f_equal; exact HB]. }
  split; [exact Hvalue |]. split; [exact Hvalue |].
  split; [exact HZ' |].
  exact (proj2 (proj2 (proj2 (degenerate_posteriors_all_zero
                                divide PRIORS LIKELIHOOD_MULTIPLIERS
                                "zodiac" highly_introverted
                                highly_introverted_weights)
                             HZ'))).
Defined.

(** C4. Neutral evidence: for an evidence trait [e] without a row in the
    likelihood table, the posteriors of every category are, trait by trait,
    those of the evidence list with [e] removed; evidence made of [e] alone
    gives the posteriors of the empty evidence list. *)
Theorem neutral_evidence
        (priors : list PriorProbability)
        (likelihoods : list LikelihoodMultiplier)
        (e : string) (category : string)
        (evidence : list EvidenceVariable) (w : R) :
  (forall lm, In lm likelihoods -> lm_evidence lm <> e) ->
  weights_in_unit evidence ->
  0 <= w <= 1 ->
  Engine.calculatePosteriors priors likelihoods category evidence
  = Engine.calculatePosteriors priors likelihoods category
                               (without_trait e evidence)
  /\ Engine.calculatePosteriors
       priors likelihoods category
       [ {| ev_trait := e; ev_probability := w |} ]
     = Engine.calculatePosteriors priors likelihoods category [].
Proof.
  intros Hno _ _. split.
  - apply posteriors_without. exact Hno.
  - rewrite (posteriors_without priors likelihoods category e
               [ {| ev_trait := e; ev_probability := w |} ] Hno).
    unfold without_trait. cbn. rewrite String.eqb_refl. reflexivity.
Qed.

Lemma neutral_evidence_witness :
  let evidence :=
    [ {| ev_trait := "Highly Introverted"; ev_probability := 1 |};
      {| ev_trait := "Ambivert"; ev_probability := 0.5 |} ] in
  (forall lm, In lm LIKELIHOOD_MULTIPLIERS -> lm_evidence lm <> "Ambivert")
  /\ weights_in_unit evidence
  /\ without_trait "Ambivert" evidence
     = [ {| ev_trait := "Highly Introverted"; ev_probability := 1 |} ]
  /\ Engine.calculatePosteriors PRIORS LIKELIHOOD_MULTIPLIERS
                                "socialRole" evidence
     = Engine.calculatePosteriors
         PRIORS LIKELIHOOD_MULTIPLIERS "socialRole"
         [ {| ev_trait := "Highly Introverted"; ev_probability := 1 |} ].
Proof.
  intros evidence.
  assert (forall lm, In lm LIKELIHOOD_MULTIPLIERS ->
                     lm_evidence lm <> "Ambivert") as Hno.
  { apply no_row_check. vm_compute. reflexivity. }
  assert (weights_in_unit evidence) as Hw.
  { repeat apply Forall_cons; try apply Forall_nil; cbn; lra. }
  assert (0 <= 0.5 <= 1) as Hhalf by lra.
  split; [exact Hno |]. split; [exact Hw |]. split; [reflexivity |].
  exact (proj1 (neutral_evidence PRIORS LIKELIHOOD_MULTIPLIERS "Ambivert"
                                 "socialRole" evidence 0.5 Hno Hw Hhalf)).
Defined.

(** ** The engine on the shipped tables *)

(** The categories of the prior table, in declaration order. *)
Lemma categories_of_PRIORS :
  Array_from_Set (map prior_category PRIORS)
  = [ "introversionExtroversion"; "attachmentStyle"; "trustLevel";
      "vulnerabilities"; "socialRole"; "communicationStyle";
      "communicationChannel"; "desires"; "fears"; "trustTriggers";
      "emotionVsLogic"; "decisionPacing"; "identityAnchors" ].
Proof. vm_compute. reflexivity. Qed.

Lemma performInference_posteriors (evidence : list EvidenceVariable) :
  inf_posteriors (performInference evidence)
  = map (fun category => (category, calculatePosteriors category evidence))
        (Array_from_Set (map prior_category PRIORS)).
Proof.
  unfold performInference. cbn [inf_posteriors].
  rewrite (fold_Map_set_distinct
             (fun category : string => category)
             (fun category => calculatePosteriors category evidence)).
  - reflexivity.
  - cbn [Map_keys map app]. rewrite map_id, categories_of_PRIORS.
    repeat (constructor; [cbn; intuition discriminate |]). constructor.
Qed.

Lemma Map_get_map {V : Type} (f : string -> V) (k : string)
      (keys : list string) :
  In k keys -> Map_get k (map (fun c => (c, f c)) keys) = Some (f k).
Proof.
  induction keys as [| c keys IH]; cbn; intros Hin; [contradiction |].
  destruct (String.eqb_spec c k) as [-> | Hne]; [reflexivity |].
  destruct Hin as [-> | Hin]; [congruence | apply IH; exact Hin].
Qed.

Lemma Map_get_map_None {V : Type} (f : string -> V) (k : string)
      (keys : list string) :
  ~ In k keys -> Map_get k (map (fun c => (c, f c)) keys) = None.
Proof.
  induction keys as [| c keys IH]; cbn; intros Hin; [reflexivity |].
  destruct (String.eqb_spec c k) as [-> | Hne].
  - exfalso. apply Hin. left. reflexivity.
  - apply IH. intros H. apply Hin. right. exact H.
Qed.

Lemma Array_from_Set_aux_In (xs seen : list string) (x : string) :
  In x (fold_left (fun seen x => Set_add x seen) xs seen)
  <-> In x seen \/ In x xs.
Proof.
  revert seen. induction xs as [| y xs IH]; intros seen; cbn.
  - tauto.
  - rewrite IH. unfold Set_add.
    destruct (existsb (String.eqb y) seen) eqn:E.
    + apply existsb_exists in E. destruct E as [z [Hz Hyz]].
      apply String.eqb_eq in Hyz. subst z.
      split; [tauto |]. intros [H | [-> | H]]; tauto.
    + rewrite in_app_iff. cbn. tauto.
Qed.

Lemma Array_from_Set_In (xs : list string) (x : string) :
  In x (Array_from_Set xs) <-> In x xs.
Proof.
  unfold Array_from_Set. rewrite Array_from_Set_aux_In. cbn. tauto.
Qed.

Lemma category_of_trait (priors : list PriorProbability)
      (category : string) :
  Engine.getTraitsForCategory priors category <> [] <->
  In category (map prior_category priors).
Proof.
  unfold Engine.getTraitsForCategory. split.
  - intros Hne.
    destruct (filter _ priors) as [| p ps] eqn:E; [congruence |].
    assert (In p (filter (fun p => prior_category p =? category) priors))
      as Hin by (rewrite E; left; reflexivity).
    apply filter_In in Hin. destruct Hin as [Hin Hc].
    apply String.eqb_eq in Hc. rewrite <- Hc.
    apply in_map. exact Hin.
  - intros Hin Hnil.
    apply in_map_iff in Hin. destruct Hin as [p [Hc Hin]].
    assert (In p (filter (fun p => prior_category p =? category) priors))
      as Hp.
    { apply filter_In. split; [exact Hin | apply String.eqb_eq; exact Hc]. }
    rewrite Hnil in Hp. contradiction.
Qed.

(** A category has posteriors exactly when it has a prior row. *)
Lemma posteriors_of_category (evidence : list EvidenceVariable)
      (category : string) :
  Engine.getTraitsForCategory PRIORS category <> [] ->
  Map_get category (inf_posteriors (performInference evidence))
  = Some (calculatePosteriors category evidence).
Proof.
  intros Hne. rewrite performInference_posteriors.
  refine (Map_get_map (fun c => calculatePosteriors c evidence) category
                      _ _).
  refine (proj2 (Array_from_Set_In _ _) _).
  exact (proj1 (category_of_trait PRIORS category) Hne).
Qed.

Lemma posteriors_of_unknown_category (evidence : list EvidenceVariable)
      (category : string) :
  Engine.getTraitsForCategory PRIORS category = [] ->
  Map_get category (inf_posteriors (performInference evidence)) = None.
Proof.
  intros Hnil. rewrite performInference_posteriors.
  refine (Map_get_map_None (fun c => calculatePosteriors c evidence)
                           category _ _).
  intros Hin.
  refine (proj2 (category_of_trait PRIORS category) _ Hnil).
  exact (proj1 (Array_from_Set_In _ _) Hin).
Qed.

Lemma literal_one : 1.0 = 1.
Proof. lra. Qed.

Ltac list_eq :=
  repeat match goal with
         | |- _ :: _ = _ :: _ => f_equal
         | |- (_, _) = (_, _) => f_equal
         end;
  try reflexivity; try lra.

Ltac pow_weight_one :=
  rewrite ?literal_one; rewrite ?Math_pow_one_r by lra.

(** C1. First end-to-end scenario: with evidence "Highly Introverted" of
    weight 1, the unnormalized scores of category "socialRole" are 0.10,
    0.50, 0.15, 0.30, 0.05, 0.05 with sum 1.15, the posteriors are these
    scores divided by 1.15 (about 0.087, 0.435, 0.130, 0.261, 0.043,
    0.043), and the recommended trait is "Follower". *)
Theorem socialRole_scenario :
  getTraitsForCategory "socialRole"
  = [ {| prior_trait := "Leader"; prior_category := "socialRole";
         prior_probability := 0.10 |};
      {| prior_trait := "Follower"; prior_category := "socialRole";
         prior_probability := 0.50 |};
      {| prior_trait := "Connector"; prior_category := "socialRole";
         prior_probability := 0.15 |};
      {| prior_trait := "Outlier"; prior_category := "socialRole";
         prior_probability := 0.15 |};
      {| prior_trait := "Gatekeeper"; prior_category := "socialRole";
         prior_probability := 0.05 |};
      {| prior_trait := "Mediator"; prior_category := "socialRole";
         prior_probability := 0.05 |} ]
  /\ map (fun t => getLikelihoodMultiplier "Highly Introverted"
                                           (prior_trait t))
         (getTraitsForCategory "socialRole")
     = [1.0; 1.0; 1.0; 2.0; 1.0; 1.0]
  /\ map (fun t =>
            Engine.applyEvidence LIKELIHOOD_MULTIPLIERS t highly_introverted)
         (getTraitsForCategory "socialRole")
     = [0.10; 0.50; 0.15; 0.30; 0.05; 0.05]
  /\ calculateNormalizationFactor "socialRole" highly_introverted = 1.15
  /\ calculatePosteriors "socialRole" highly_introverted
     = [ ("Leader", 0.10 / 1.15); ("Follower", 0.50 / 1.15);
         ("Connector", 0.15 / 1.15); ("Outlier", 0.30 / 1.15);
         ("Gatekeeper", 0.05 / 1.15); ("Mediator", 0.05 / 1.15) ]
  /\ Forall2 (fun exact approx => Rabs (exact - approx) <= 0.0005)
             (Map_values (calculatePosteriors "socialRole"
                                              highly_introverted))
             [0.087; 0.435; 0.130; 0.261; 0.043; 0.043]
  /\ option_map recommendedTrait
                (getInferenceResult (performInference highly_introverted)
                                    "socialRole")
     = Some "Follower".
Proof.
  assert (calculatePosteriors "socialRole" highly_introverted
          = [ ("Leader", 0.10 / 1.15); ("Follower", 0.50 / 1.15);
              ("Connector", 0.15 / 1.15); ("Outlier", 0.30 / 1.15);
              ("Gatekeeper", 0.05 / 1.15); ("Mediator", 0.05 / 1.15) ])
    as Hpost.
  { unfold calculatePosteriors, Engine.calculatePosteriors,
      Engine.calculatePosteriorsWith. cbn.
    pow_weight_one.
    destruct (Rlt_dec 0 _) as [_ | H]; [| exfalso; apply H; lra].
    list_eq. }
  split; [reflexivity |].
  split; [reflexivity |].
  split.
  { cbn. pow_weight_one. list_eq. }
  split.
  { unfold calculateNormalizationFactor, Engine.calculateNormalizationFactor.
    cbn. pow_weight_one. lra. }
  split; [exact Hpost |].
  split.
  { rewrite Hpost. cbn.
    repeat (constructor;
            [unfold Rabs; destruct (Rcase_abs _); lra |]).
    constructor. }
  unfold getInferenceResult.
  rewrite posteriors_of_category by (cbn; discriminate).
  rewrite Hpost.
  unfold findHighestProbabilityTrait. cbn.
  repeat match goal with
         | |- context [Rlt_dec ?a ?b] =>
             destruct (Rlt_dec a b); try (exfalso; lra); cbn
         end.
  reflexivity.
Qed.

Lemma applyEvidence_nil (likelihoods : list LikelihoodMultiplier)
      (t : PriorProbability) :
  Engine.applyEvidence likelihoods t [] = prior_probability t.
Proof. reflexivity. Qed.

Lemma shipped_traits_positive (category : string) :
  Forall (fun p => 0 < prior_probability p)
         (Engine.getTraitsForCategory PRIORS category).
Proof.
  apply Forall_forall. intros p Hp.
  apply getTraitsForCategory_In in Hp. destruct Hp as [Hp _].
  pose proof PRIORS_positive as Hall. rewrite Forall_forall in Hall.
  apply Hall. exact Hp.
Qed.

(** C5. Empty evidence: on a category with at least one prior entry
    [calculatePosteriors] returns the priors divided by their sum; on
    "attachmentStyle" the posteriors are the priors themselves and the
    recommended trait is "Secure". *)
Theorem empty_evidence_posteriors (category : string) :
  Engine.getTraitsForCategory PRIORS category <> [] ->
  calculatePosteriors category []
  = map (fun p =>
           (prior_trait p,
            prior_probability p
            / Rsum (map prior_probability (getTraitsForCategory category))))
        (getTraitsForCategory category)
  /\ calculatePosteriors "attachmentStyle" []
     = [ ("Secure", 0.55); ("Anxious", 0.20); ("Avoidant", 0.20);
         ("Fearful-Avoidant", 0.05) ]
  /\ option_map recommendedTrait
                (getInferenceResult (performInference []) "attachmentStyle")
     = Some "Secure".
Proof.
  intros Hne.
  assert (calculatePosteriors "attachmentStyle" []
          = [ ("Secure", 0.55); ("Anxious", 0.20); ("Avoidant", 0.20);
              ("Fearful-Avoidant", 0.05) ]) as Hatt.
  { unfold calculatePosteriors, Engine.calculatePosteriors,
      Engine.calculatePosteriorsWith. cbn.
    destruct (Rlt_dec 0 _) as [_ | H]; [| exfalso; apply H; lra].
    list_eq. }
  split; [| split; [exact Hatt |]].
  - unfold calculatePosteriors, getTraitsForCategory.
    rewrite (calculatePosteriors_map PRIORS LIKELIHOOD_MULTIPLIERS category
                                     [] PRIORS_distinct).
    rewrite calculateNormalizationFactor_sum.
    assert (map (fun t => Engine.applyEvidence LIKELIHOOD_MULTIPLIERS t [])
                (Engine.getTraitsForCategory PRIORS category)
            = map prior_probability
                  (Engine.getTraitsForCategory PRIORS category)) as Hmap
        by (apply map_ext; intros t; apply applyEvidence_nil).
    rewrite Hmap.
    destruct (Rlt_dec 0 _) as [_ | Hn].
    + apply map_ext. intros t. reflexivity.
    + exfalso. apply Hn. apply Rsum_pos.
      * intros Hnil. apply map_eq_nil in Hnil. contradiction.
      * apply Forall_map. apply shipped_traits_positive.
  - unfold getInferenceResult.
    rewrite posteriors_of_category by (cbn; discriminate).
    rewrite Hatt.
    unfold findHighestProbabilityTrait. cbn.
    repeat match goal with
           | |- context [Rlt_dec ?a ?b] =>
               destruct (Rlt_dec a b); try (exfalso; lra); cbn
           end.
    reflexivity.
Qed.

Lemma empty_evidence_posteriors_witness :
  Engine.getTraitsForCategory PRIORS "trustLevel" <> []
  /\ calculatePosteriors "trustLevel" []
     = map (fun p =>
              (prior_trait p,
               prior_probability p
               / Rsum (map prior_probability
                           (getTraitsForCategory "trustLevel"))))
           (getTraitsForCategory "trustLevel").
Proof.
  assert (Engine.getTraitsForCategory PRIORS "trustLevel" <> []) as Hne
      by (cbn; discriminate).
  split; [exact Hne |].
  exact (proj1 (empty_evidence_posteriors "trustLevel" Hne)).
Defined.

(** ** Sorting *)

Section Sorting.
Context {A : Type} (cmp : A -> A -> R).

Lemma Array_insert_Permutation (x : A) (l : list A) :
  Permutation (x :: l) (Array_insert cmp x l).
Proof.
  induction l as [| y l IH]; cbn.
  - apply Permutation_refl.
  - destruct (Rlt_dec 0 (cmp x y)).
    + eapply perm_trans; [apply perm_swap |].
      apply perm_skip. exact IH.
    + apply Permutation_refl.
Qed.

Lemma Array_sort_Permutation (l : list A) :
  Permutation l (Array_sort cmp l).
Proof.
  induction l as [| x l IH]; cbn.
  - apply perm_nil.
  - eapply perm_trans; [| apply Array_insert_Permutation].
    apply perm_skip. exact IH.
Qed.

Lemma Array_sort_length (l : list A) :
  length (Array_sort cmp l) = length l.
Proof. symmetry. apply Permutation_length, Array_sort_Permutation. Qed.

(** The comparators of the engine are of the form [key y - key x]: a
    descending order on a numeric key. *)
Variable key : A -> R.
Hypothesis cmp_key : forall x y, cmp x y = key y - key x.

Lemma Array_insert_sorted (x : A) (l : list A) :
  StronglySorted (fun a b => key b <= key a) l ->
  StronglySorted (fun a b => key b <= key a) (Array_insert cmp x l).
Proof.
  induction 1 as [| y l Hl IH Hy]; cbn.
  - constructor; constructor.
  - rewrite cmp_key. destruct (Rlt_dec 0 (key y - key x)) as [Hlt | Hge].
    + constructor; [exact IH |].
      apply (Permutation_Forall (Array_insert_Permutation x l)).
      constructor; [lra | exact Hy].
    + constructor; [constructor; assumption |].
      constructor; [lra |].
      eapply Forall_impl; [| exact Hy]. cbn. intros a Ha. lra.
Qed.

Lemma Array_sort_sorted (l : list A) :
  StronglySorted (fun a b => key b <= key a) (Array_sort cmp l).
Proof.
  induction l as [| x l IH]; cbn.
  - constructor.
  - apply Array_insert_sorted. exact IH.
Qed.
End Sorting.






(** ** Compatibility *)

Lemma eqb_false_of_values (s1 s2 v : string) :
  (s1 =? s2) = false -> (s1 =? v) && (s2 =? v) = false.
Proof.
  intros Hne.
  destruct (String.eqb_spec s1 v) as [-> | _]; [| reflexivity].
  destruct (String.eqb_spec s2 v) as [-> | _]; [| reflexivity].
  rewrite String.eqb_refl in Hne. discriminate.
Qed.

(** The scale of [getIntroversionExtroversionValue] is the five-point
    ordinal scale. *)
Lemma getIntroversionExtroversionValue_ordinal (ie : string) :
  getIntroversionExtroversionValue ie = introversionOrdinal ie.
Proof.
  unfold getIntroversionExtroversionValue, introversionOrdinal,
    introversionScale, IntroversionExtroversion.HIGHLY_INTROVERTED,
    IntroversionExtroversion.INTROVERTED, IntroversionExtroversion.AMBIVERT,
    IntroversionExtroversion.EXTROVERTED,
    IntroversionExtroversion.HIGHLY_EXTROVERTED.
  cbn [Map_get].
  rewrite (String.eqb_sym ie "Highly Introverted").
  destruct ("Highly Introverted" =? ie); [reflexivity |].
  rewrite (String.eqb_sym ie "Introverted").
  destruct ("Introverted" =? ie); [reflexivity |].
  rewrite (String.eqb_sym ie "Ambivert").
  destruct ("Ambivert" =? ie); [reflexivity |].
  rewrite (String.eqb_sym ie "Extroverted").
  destruct ("Extroverted" =? ie); [reflexivity |].
  rewrite (String.eqb_sym ie "Highly Extroverted").
  destruct ("Highly Extroverted" =? ie); reflexivity.
Qed.

Lemma calculateCompatibility_factors (c1 c2 : Character) :
  calculateCompatibility c1 c2
  = (attachmentFactor (attachmentStyle (psychologicalProfile c1))
                      (attachmentStyle (psychologicalProfile c2))
     + introExtroFactor
         (introversionExtroversion (psychologicalProfile c1))
         (introversionExtroversion (psychologicalProfile c2))
     + communicationFactor (primaryStyle (communication c1))
                           (primaryStyle (communication c2))
     + decisionFactor (emotionVsLogic (decisionMaking c1))
                      (emotionVsLogic (decisionMaking c2)))
    / 4.
Proof.
  unfold introExtroFactor.
  rewrite <- !getIntroversionExtroversionValue_ordinal.
  unfold calculateCompatibility, attachmentFactor,
    communicationFactor, decisionFactor, Math_abs.
  cbv zeta.
  generalize (attachmentStyle (psychologicalProfile c1)) as a1.
  generalize (attachmentStyle (psychologicalProfile c2)) as a2.
  generalize (primaryStyle (communication c1)) as s1.
  generalize (primaryStyle (communication c2)) as s2.
  intros s2 s1 a2 a1.
  destruct (s1 =? s2) eqn:Es.
  - destruct ((a1 =? AttachmentStyle.SECURE)
              && (a2 =? AttachmentStyle.SECURE));
      [lra |].
    destruct ((a1 =? AttachmentStyle.ANXIOUS)
              && (a2 =? AttachmentStyle.AVOIDANT)); cbn [orb]; [lra |].
    destruct ((a1 =? AttachmentStyle.AVOIDANT)
              && (a2 =? AttachmentStyle.ANXIOUS)); lra.
  - rewrite (eqb_false_of_values s1 s2 CommunicationStyle.DIRECT Es).
    rewrite (eqb_false_of_values s1 s2 CommunicationStyle.ANALYTICAL Es).
    cbn [orb].
    destruct (((s1 =? CommunicationStyle.DIRECT)
               && (s2 =? CommunicationStyle.INDIRECT))
              || ((s1 =? CommunicationStyle.INDIRECT)
                  && (s2 =? CommunicationStyle.DIRECT)));
      (destruct ((a1 =? AttachmentStyle.SECURE)
                 && (a2 =? AttachmentStyle.SECURE));
       [lra |];
       destruct ((a1 =? AttachmentStyle.ANXIOUS)
                 && (a2 =? AttachmentStyle.AVOIDANT)); cbn [orb]; [lra |];
       destruct ((a1 =? AttachmentStyle.AVOIDANT)
                 && (a2 =? AttachmentStyle.ANXIOUS)); lra).
Qed.

Lemma attachmentFactor_sym (a1 a2 : string) :
  attachmentFactor a1 a2 = attachmentFactor a2 a1.
Proof.
  unfold attachmentFactor.
  destruct (a1 =? AttachmentStyle.SECURE), (a2 =? AttachmentStyle.SECURE),
    (a1 =? AttachmentStyle.ANXIOUS), (a2 =? AttachmentStyle.AVOIDANT),
    (a1 =? AttachmentStyle.AVOIDANT), (a2 =? AttachmentStyle.ANXIOUS);
    reflexivity.
Qed.

Lemma introExtroFactor_sym (ie1 ie2 : string) :
  introExtroFactor ie1 ie2 = introExtroFactor ie2 ie1.
Proof. unfold introExtroFactor. rewrite Rabs_minus_sym. reflexivity. Qed.

Lemma communicationFactor_sym (s1 s2 : string) :
  communicationFactor s1 s2 = communicationFactor s2 s1.
Proof.
  unfold communicationFactor. rewrite (String.eqb_sym s2 s1).
  destruct (s1 =? s2), (s1 =? CommunicationStyle.DIRECT),
    (s2 =? CommunicationStyle.INDIRECT),
    (s1 =? CommunicationStyle.INDIRECT), (s2 =? CommunicationStyle.DIRECT);
    reflexivity.
Qed.

Lemma decisionFactor_sym (e1 e2 : R) :
  decisionFactor e1 e2 = decisionFactor e2 e1.
Proof. unfold decisionFactor. rewrite Rabs_minus_sym. reflexivity. Qed.

(** C9. [calculateCompatibility] is the unweighted mean of four factors:
    attachment pairing, introversion/extroversion distance on the ordinal
    scale 0 to 4, communication style pairing and decision distance.  The
    ordinal that [getIntroversionExtroversionValue] gives to a bucket is the
    one of the scale: 0 for "Highly Introverted", 1 for "Introverted", 2 for
    "Ambivert", 3 for "Extroverted", 4 for "Highly Extroverted".  Two
    profiles that are both Secure, in the same introversion bucket, both
    Direct, with emotion-vs-logic 0.4 and 0.6, score 0.95. *)
Theorem compatibility_mean (c1 c2 : Character) :
  0 <= emotionVsLogic (decisionMaking c1) <= 1 ->
  0 <= emotionVsLogic (decisionMaking c2) <= 1 ->
  calculateCompatibility c1 c2
  = (attachmentFactor (attachmentStyle (psychologicalProfile c1))
                      (attachmentStyle (psychologicalProfile c2))
     + introExtroFactor
         (introversionExtroversion (psychologicalProfile c1))
         (introversionExtroversion (psychologicalProfile c2))
     + communicationFactor (primaryStyle (communication c1))
                           (primaryStyle (communication c2))
     + decisionFactor (emotionVsLogic (decisionMaking c1))
                      (emotionVsLogic (decisionMaking c2)))
    / 4
  /\ (forall ie, getIntroversionExtroversionValue ie = introversionOrdinal ie)
  /\ map (fun bucket => getIntroversionExtroversionValue (fst bucket))
         introversionScale
     = [0; 1; 2; 3; 4]
  /\ (attachmentStyle (psychologicalProfile c1) = "Secure" ->
      attachmentStyle (psychologicalProfile c2) = "Secure" ->
      introversionOrdinal
        (introversionExtroversion (psychologicalProfile c1))
      = introversionOrdinal
          (introversionExtroversion (psychologicalProfile c2)) ->
      primaryStyle (communication c1) = "Direct" ->
      primaryStyle (communication c2) = "Direct" ->
      emotionVsLogic (decisionMaking c1) = 0.4 ->
      emotionVsLogic (decisionMaking c2) = 0.6 ->
      calculateCompatibility c1 c2 = 0.95).
Proof.
  intros _ _. split; [apply calculateCompatibility_factors |].
  split; [exact getIntroversionExtroversionValue_ordinal |].
  split; [cbn; reflexivity |].
  intros Ha1 Ha2 Hie Hs1 Hs2 He1 He2.
  rewrite calculateCompatibility_factors.
  unfold attachmentFactor, introExtroFactor, communicationFactor,
    decisionFactor.
  rewrite Ha1, Ha2, Hie, Hs1, Hs2, He1, He2. cbn.
  replace (introversionOrdinal _ - introversionOrdinal _) with 0 by lra.
  unfold Rabs. repeat destruct (Rcase_abs _); lra.
Qed.

Lemma compatibility_mean_witness :
  let c1 := mkCharacter "Introverted" "Secure" "Neutral" [] "Follower"
                        [] [] [] "Direct" 0.4 "Moderate" [] in
  let c2 := mkCharacter "Introverted" "Secure" "Trusting" [] "Leader"
                        [] [] [] "Direct" 0.6 "Fast" [] in
  0 <= emotionVsLogic (decisionMaking c1) <= 1
  /\ 0 <= emotionVsLogic (decisionMaking c2) <= 1
  /\ calculateCompatibility c1 c2 = 0.95.
Proof.
  intros c1 c2.
  assert (0 <= emotionVsLogic (decisionMaking c1) <= 1) as H1
      by (cbn; lra).
  assert (0 <= emotionVsLogic (decisionMaking c2) <= 1) as H2
      by (cbn; lra).
  split; [exact H1 |]. split; [exact H2 |].
  exact (proj2 (proj2 (proj2 (compatibility_mean c1 c2 H1 H2)))
               eq_refl eq_refl eq_refl eq_refl eq_refl eq_refl eq_refl).
Defined.

(** C10. [calculateCompatibility] is symmetric in its two arguments. *)
Theorem compatibility_symmetric (a b : Character) :
  calculateCompatibility a b = calculateCompatibility b a.
Proof.
  rewrite !calculateCompatibility_factors.
  rewrite (attachmentFactor_sym (attachmentStyle (psychologicalProfile a))).
  rewrite (introExtroFactor_sym
             (introversionExtroversion (psychologicalProfile a))).
  rewrite (communicationFactor_sym (primaryStyle (communication a))).
  rewrite (decisionFactor_sym (emotionVsLogic (decisionMaking a))).
  reflexivity.
Qed.

(** ** Inference results on the shipped tables *)

Lemma findHighestProbabilityTrait_key (posteriors : JSMap R) :
  posteriors <> [] ->
  Forall (fun entry => 0 < snd entry) posteriors ->
  In (fst (findHighestProbabilityTrait posteriors)) (Map_keys posteriors).
Proof.
  intros Hne Hpos. unfold findHighestProbabilityTrait.
  assert (forall (m : JSMap R) (acc : string * R),
             let r :=
               fold_left
                 (fun '(highestTrait, highestProbability)
                      '(trait, probability) =>
                    if Rlt_dec highestProbability probability
                    then (trait, probability)
                    else (highestTrait, highestProbability))
                 m acc in
             (r = acc /\ Forall (fun entry => snd entry <= snd acc) m)
             \/ In (fst r) (Map_keys m)) as Hgen.
  { induction m as [| [k v] m IH]; intros [t p]; cbn.
    - left. split; [reflexivity | constructor].
    - destruct (Rlt_dec p v) as [Hlt | Hge].
      + destruct (IH (k, v)) as [[Heq _] | Hin].
        * right. left. cbn in Heq. rewrite Heq. reflexivity.
        * right. right. exact Hin.
      + destruct (IH (t, p)) as [[Heq Hall] | Hin].
        * left. split; [exact Heq |].
          constructor; [cbn; lra | exact Hall].
        * right. right. exact Hin. }
  destruct (Hgen posteriors ("", 0)) as [[_ Hall] | Hin]; [| exact Hin].
  exfalso. destruct posteriors as [| entry m]; [congruence |].
  inversion Hall as [| x xs Hle _]; subst.
  inversion Hpos as [| y ys Hlt _]; subst. cbn in Hle. lra.
Qed.

Lemma PRIORS_traits_named :
  forall p, In p PRIORS -> prior_trait p <> "".
Proof.
  assert (forallb (fun p => negb (prior_trait p =? "")) PRIORS = true) as H
      by (vm_compute; reflexivity).
  rewrite forallb_forall in H. intros p Hp E.
  specialize (H p Hp). rewrite E in H. discriminate.
Qed.

Lemma top_entries_not_nil (traits : JSMap R) :
  traits <> [] -> top3 traits <> [].
Proof.
  intros Hne. unfold top3, Array_slice. cbn.
  pose proof (Array_sort_length (fun x y : string * R => snd y - snd x)
                                traits) as Hlen.
  destruct (Array_sort _ traits) as [| e l].
  - destruct traits; [congruence | discriminate].
  - discriminate.
Qed.

Lemma traitsObject_not_nil (posteriors : JSMap R) :
  posteriors <> [] ->
  fold_left (fun obj '(trait, prob) => Map_set trait prob obj) posteriors []
  <> [].
Proof.
  intros Hne.
  rewrite (fold_left_pointwise _
             (fun obj (entry : string * R) =>
                Map_set (fst entry) (snd entry) obj))
    by (intros obj [trait prob]; reflexivity).
  apply (fold_Map_set_not_nil fst snd). left. exact Hne.
Qed.

Opaque PRIORS LIKELIHOOD_MULTIPLIERS.

(** On the shipped tables every category with a prior row has a result, for
    any evidence; its recommended trait is a trait of the category and its
    posterior map is not empty. *)
Lemma getInferenceResult_some (evidence : list EvidenceVariable)
      (category : string) :
  Engine.getTraitsForCategory PRIORS category <> [] ->
  exists result,
    getInferenceResult (performInference evidence) category = Some result
    /\ In (recommendedTrait result)
          (map prior_trait (Engine.getTraitsForCategory PRIORS category))
    /\ recommendedTrait result <> ""
    /\ res_traits result <> [].
Proof.
  intros Hne. unfold getInferenceResult.
  rewrite (posteriors_of_category evidence category Hne).
  pose proof (posteriors_positive
                PRIORS LIKELIHOOD_MULTIPLIERS category evidence
                PRIORS_positive LIKELIHOOD_MULTIPLIERS_positive) as Hpos.
  pose proof (posteriors_not_nil PRIORS LIKELIHOOD_MULTIPLIERS category
                                 evidence Hne) as Hnn.
  unfold calculatePosteriors.
  set (posteriors := Engine.calculatePosteriors
                       PRIORS LIKELIHOOD_MULTIPLIERS category evidence) in *.
  clearbody posteriors.
  pose proof (findHighestProbabilityTrait_key posteriors Hnn) as Hkey.
  destruct (findHighestProbabilityTrait _) as [recommended prob].
  eexists. split; [reflexivity |]. cbn [recommendedTrait res_traits].
  assert (In recommended
             (map prior_trait (Engine.getTraitsForCategory PRIORS category)))
    as Hin.
  { cbn [fst] in Hkey.
    assert (In recommended (Map_keys posteriors)) as Hk.
    { apply Hkey. eapply Forall_impl; [| exact Hpos].
      intros entry [H _]. exact H. }
    unfold Map_keys in Hk. apply in_map_iff in Hk.
    destruct Hk as [entry [Hfst Hentry]].
    rewrite Forall_forall in Hpos. destruct (Hpos entry Hentry) as [_ H].
    rewrite Hfst in H. exact H. }
  split; [exact Hin |]. split.
  - apply in_map_iff in Hin. destruct Hin as [p [Hp Hpin]].
    rewrite <- Hp. apply PRIORS_traits_named.
    exact (proj1 (proj1 (getTraitsForCategory_In PRIORS category p) Hpin)).
  - apply traitsObject_not_nil. exact Hnn.
Qed.

Transparent PRIORS LIKELIHOOD_MULTIPLIERS.

Lemma truthy_string_true (s : string) : s <> "" -> truthy_string s = true.
Proof.
  intros H. unfold truthy_string.
  destruct (String.eqb_spec s ""); [contradiction | reflexivity].
Qed.

Lemma truthy_number_true (x : R) : x <> 0 -> truthy_number x = true.
Proof.
  intros H. unfold truthy_number.
  destruct (Req_dec_T x 0); [contradiction | reflexivity].
Qed.

Lemma emotionLogicValue_truthy (trait : string) :
  truthy_number (emotionLogicValue trait) = true.
Proof.
  unfold emotionLogicValue.
  destruct (Map_get trait emotionLogicMap) as [v |].
  - destruct (truthy_number v) eqn:E; [exact E |].
    apply truthy_number_true. lra.
  - apply truthy_number_true. lra.
Qed.

(** ** The blocks of [autocompleteCharacter] *)

Section Fill.
Variable unset : Character -> bool.
Variable category : string.
Variable assign : Character -> InferenceResult -> Character.
Variable inference : BayesianInference.

Lemma fill_false (c : Character) :
  unset c = false -> fill unset category assign inference c = c.
Proof. intros H. unfold fill. rewrite H. reflexivity. Qed.

Lemma fill_frame {T : Type} (proj : Character -> T) (c : Character) :
  (forall c' result, proj (assign c' result) = proj c') ->
  proj (fill unset category assign inference c) = proj c.
Proof.
  intros H. unfold fill.
  destruct (unset c); [| reflexivity].
  destruct (getInferenceResult inference category); [apply H | reflexivity].
Qed.

Lemma fill_establishes (good : InferenceResult -> Prop) (c : Character) :
  (exists result,
      getInferenceResult inference category = Some result /\ good result) ->
  (forall c' result, good result -> unset (assign c' result) = false) ->
  unset (fill unset category assign inference c) = false.
Proof.
  intros [result [Hres Hgood]] Hassign. unfold fill.
  destruct (unset c) eqn:E; [| exact E].
  rewrite Hres. apply Hassign. exact Hgood.
Qed.
End Fill.

Lemma good_result_exists (evidence : list EvidenceVariable)
      (category : string) :
  Engine.getTraitsForCategory PRIORS category <> [] ->
  exists result,
    getInferenceResult (performInference evidence) category = Some result
    /\ good_result result.
Proof.
  intros Hne.
  destruct (getInferenceResult_some evidence category Hne)
    as [result [Hres [_ [Hrec Htraits]]]].
  exists result. split; [exact Hres | split; assumption].
Qed.

Ltac unfold_blocks :=
  cbv beta iota zeta delta
    [ needs_introversionExtroversion assign_introversionExtroversion
      get_introversionExtroversion set_introversionExtroversion
      needs_attachmentStyle assign_attachmentStyle get_attachmentStyle
      set_attachmentStyle needs_trustLevel assign_trustLevel
      get_trustLevel set_trustLevel needs_likelyVulnerabilities
      assign_likelyVulnerabilities get_likelyVulnerabilities
      set_likelyVulnerabilities needs_role assign_role get_role set_role
      needs_primaryStyle assign_primaryStyle get_primaryStyle
      set_primaryStyle needs_emotionVsLogic assign_emotionVsLogic
      get_emotionVsLogic set_emotionVsLogic needs_pacing assign_pacing
      get_pacing set_pacing needs_desires assign_desires get_desires
      set_desires needs_fears assign_fears get_fears set_fears
      needs_triggers assign_triggers get_triggers set_triggers
      needs_coreAnchors assign_coreAnchors get_coreAnchors set_coreAnchors
      psychologicalProfile socialHierarchyPosition motivationsInsecurities
      trustSignalsVulnerabilityMarkers communication decisionMaking
      identityAnchors introversionExtroversion attachmentStyle trustLevel
      likelyVulnerabilities role primaryStyle emotionVsLogic pacing desires
      fears triggers coreAnchors unset_list ].

Ltac establish_string :=
  intros c' result [Hrec _]; unfold_blocks;
  rewrite (truthy_string_true _ Hrec); reflexivity.

Ltac establish_list :=
  intros c' result [_ Htraits]; unfold_blocks;
  pose proof (top_entries_not_nil _ Htraits) as Htop;
  destruct (top3 (res_traits result)) as [| [trait prob] entries];
  [congruence | reflexivity].

Ltac establish_number :=
  intros c' result _; unfold_blocks;
  rewrite emotionLogicValue_truthy; reflexivity.

Ltac known_category := cbn; discriminate.

Ltac peel :=
  repeat (rewrite fill_frame by (intros; reflexivity)).

Ltac established tac :=
  peel;
  apply (fill_establishes _ _ _ _ good_result);
  [apply good_result_exists; known_category | tac].

(** After autocompletion no recognized field is left unset. *)
Lemma autocompleteCharacter_complete (character : Character) :
  complete (autocompleteCharacter character).
Proof.
  unfold complete, autocompleteCharacter, JSON_copy. cbv zeta.
  repeat split.
  - established establish_string.
  - established establish_string.
  - established establish_string.
  - established establish_list.
  - established establish_string.
  - established establish_string.
  - established establish_number.
  - established establish_string.
  - established establish_list.
  - established establish_list.
  - established establish_list.
  - established establish_list.
Qed.

(** On a profile without unset field autocompletion changes nothing. *)
Lemma autocompleteCharacter_of_complete (character : Character) :
  complete character -> autocompleteCharacter character = character.
Proof.
  intros (H1 & H2 & H3 & H4 & H5 & H6 & H7 & H8 & H9 & H10 & H11 & H12).
  unfold autocompleteCharacter, JSON_copy. cbv zeta.
  rewrite (fill_false needs_introversionExtroversion) by exact H1.
  rewrite (fill_false needs_attachmentStyle) by exact H2.
  rewrite (fill_false needs_trustLevel) by exact H3.
  rewrite (fill_false needs_likelyVulnerabilities) by exact H4.
  rewrite (fill_false needs_role) by exact H5.
  rewrite (fill_false needs_primaryStyle) by exact H6.
  rewrite (fill_false needs_emotionVsLogic) by exact H7.
  rewrite (fill_false needs_pacing) by exact H8.
  rewrite (fill_false needs_desires) by exact H9.
  rewrite (fill_false needs_fears) by exact H10.
  rewrite (fill_false needs_triggers) by exact H11.
  rewrite (fill_false needs_coreAnchors) by exact H12.
  reflexivity.
Qed.

(** C8. [autocompleteCharacter] is idempotent. *)
Theorem autocompleteCharacter_idempotent (p : Character) :
  autocompleteCharacter (autocompleteCharacter p) = autocompleteCharacter p.
Proof.
  apply autocompleteCharacter_of_complete.
  apply autocompleteCharacter_complete.
Qed.

Lemma truthy_number_zero : truthy_number 0 = false.
Proof.
  unfold truthy_number. destruct (Req_dec_T 0 0); [reflexivity | lra].
Qed.

Lemma purely_logical_evidence :
  extractEvidenceFromCharacter purely_logical
  = [ {| ev_trait := "Ambivert"; ev_probability := 1.0 |};
      {| ev_trait := "Secure"; ev_probability := 1.0 |};
      {| ev_trait := "Neutral"; ev_probability := 1.0 |};
      {| ev_trait := "Follower"; ev_probability := 1.0 |};
      {| ev_trait := "Direct"; ev_probability := 1.0 |} ].
Proof. reflexivity. Qed.

Lemma purely_logical_recommendation :
  option_map recommendedTrait
             (getInferenceResult
                (performInference
                   (extractEvidenceFromCharacter purely_logical))
                "emotionVsLogic")
  = Some "Balanced".
Proof.
  rewrite purely_logical_evidence.
  assert (calculatePosteriors
            "emotionVsLogic"
            [ {| ev_trait := "Ambivert"; ev_probability := 1.0 |};
              {| ev_trait := "Secure"; ev_probability := 1.0 |};
              {| ev_trait := "Neutral"; ev_probability := 1.0 |};
              {| ev_trait := "Follower"; ev_probability := 1.0 |};
              {| ev_trait := "Direct"; ev_probability := 1.0 |} ]
          = [ ("Highly emotional", 0.10 / 1.21);
              ("Moderately emotional", 0.25 / 1.21);
              ("Balanced", 0.51 / 1.21);
              ("Moderately logical", 0.25 / 1.21);
              ("Highly logical", 0.10 / 1.21) ]) as Hpost.
  { unfold calculatePosteriors, Engine.calculatePosteriors,
      Engine.calculatePosteriorsWith. cbn.
    pow_weight_one.
    destruct (Rlt_dec 0 _) as [_ | H]; [| exfalso; apply H; lra].
    list_eq. }
  unfold getInferenceResult.
  rewrite posteriors_of_category by (cbn; discriminate).
  rewrite Hpost.
  unfold findHighestProbabilityTrait. cbn.
  repeat match goal with
         | |- context [Rlt_dec ?a ?b] =>
             destruct (Rlt_dec a b); try (exfalso; lra); cbn
         end.
  reflexivity.
Qed.

(** C7 (the code departs from it).  A profile whose emotion-vs-logic value
    is populated with 0, "purely logical", and whose other fields are all
    populated, comes back from [autocompleteCharacter] with the value 0.5:
    the guard [!emotionVsLogic] takes the number 0 for an unset field. *)
Theorem autocomplete_overwrites_purely_logical :
  get_emotionVsLogic purely_logical = 0
  /\ get_emotionVsLogic (autocompleteCharacter purely_logical) = 0.5
  /\ autocompleteCharacter purely_logical <> purely_logical.
Proof.
  assert (get_emotionVsLogic (autocompleteCharacter purely_logical) = 0.5)
    as Hnew.
  { unfold autocompleteCharacter, JSON_copy. cbv zeta.
    peel.
    rewrite (fill_false needs_introversionExtroversion) by reflexivity.
    rewrite (fill_false needs_attachmentStyle) by reflexivity.
    rewrite (fill_false needs_trustLevel) by reflexivity.
    rewrite (fill_false needs_likelyVulnerabilities) by reflexivity.
    rewrite (fill_false needs_role) by reflexivity.
    rewrite (fill_false needs_primaryStyle) by reflexivity.
    pose proof purely_logical_recommendation as Hrec.
    unfold fill.
    destruct (getInferenceResult _ "emotionVsLogic") as [result |];
      [| discriminate].
    cbn in Hrec. injection Hrec as Hrec.
    replace (needs_emotionVsLogic purely_logical) with true
      by (unfold needs_emotionVsLogic; cbn; rewrite truthy_number_zero;
          reflexivity).
    unfold_blocks. rewrite Hrec.
    unfold emotionLogicValue. cbn.
    destruct (truthy_number 0.5); reflexivity. }
  split; [reflexivity |]. split; [exact Hnew |].
  intros Heq. rewrite Heq in Hnew. cbn in Hnew. lra.
Qed.

(** * Further properties of the engine *)

(** ** Table lookups *)

Lemma NoDup_map_injective {A B : Type} (f : A -> B) (l : list A) (x y : A) :
  NoDup (map f l) -> In x l -> In y l -> f x = f y -> x = y.
Proof.
  induction l as [| a l IH]; cbn; intros Hnd Hx Hy Hf; [contradiction |].
  inversion Hnd as [| b bs Hnotin Hnd']; subst.
  destruct Hx as [-> | Hx], Hy as [-> | Hy].
  - reflexivity.
  - exfalso. apply Hnotin. rewrite Hf. apply in_map. exact Hy.
  - exfalso. apply Hnotin. rewrite <- Hf. apply in_map. exact Hx.
  - apply IH; assumption.
Qed.

Lemma LIKELIHOOD_MULTIPLIERS_distinct :
  NoDup (map (fun lm => (lm_evidence lm, lm_trait lm))
             LIKELIHOOD_MULTIPLIERS).
Proof. apply distinctb_NoDup. vm_compute. reflexivity. Qed.

Opaque PRIORS LIKELIHOOD_MULTIPLIERS.

(** X1. [getPrior] returns the probability of the row of the table for a
    (trait, category) pair, and the fallback 0.01 for a pair without a
    row. *)
Theorem getPrior_lookup :
  (forall p, In p PRIORS ->
             getPrior (prior_trait p) (prior_category p)
             = prior_probability p)
  /\ (forall trait category,
         (forall p, In p PRIORS ->
                    ~ (prior_trait p = trait /\ prior_category p = category))
         -> getPrior trait category = 0.01).
Proof.
  split.
  - intros p Hp. unfold getPrior, Engine.getPrior.
    destruct (find _ PRIORS) as [q |] eqn:Hfind.
    + apply find_some in Hfind. destruct Hfind as [Hq Htest].
      apply andb_true_iff in Htest. destruct Htest as [Ht Hc].
      apply String.eqb_eq in Ht. apply String.eqb_eq in Hc.
      assert (q = p) as ->; [| reflexivity].
      apply (NoDup_map_injective
               (fun p => (prior_trait p, prior_category p)) PRIORS);
        [exact PRIORS_distinct | assumption | assumption |].
      cbn. rewrite Ht, Hc. reflexivity.
    + exfalso. apply (find_none _ _ Hfind) in Hp.
      rewrite !String.eqb_refl in Hp. discriminate.
  - intros trait category Hno. unfold getPrior, Engine.getPrior.
    destruct (find _ PRIORS) as [q |] eqn:Hfind; [| reflexivity].
    apply find_some in Hfind. destruct Hfind as [Hq Htest].
    apply andb_true_iff in Htest. destruct Htest as [Ht Hc].
    apply String.eqb_eq in Ht. apply String.eqb_eq in Hc.
    exfalso. apply (Hno q Hq). split; assumption.
Qed.

(** X2. [getLikelihoodMultiplier] returns the multiplier of the row of the
    table for an (evidence, trait) pair, and the neutral 1.0 for a pair
    without a row. *)
Theorem getLikelihoodMultiplier_lookup :
  (forall lm, In lm LIKELIHOOD_MULTIPLIERS ->
              getLikelihoodMultiplier (lm_evidence lm) (lm_trait lm)
              = lm_multiplier lm)
  /\ (forall evidence trait,
         (forall lm, In lm LIKELIHOOD_MULTIPLIERS ->
                     ~ (lm_evidence lm = evidence /\ lm_trait lm = trait))
         -> getLikelihoodMultiplier evidence trait = 1).
Proof.
  split.
  - intros lm Hlm. unfold getLikelihoodMultiplier,
      Engine.getLikelihoodMultiplier.
    destruct (find _ LIKELIHOOD_MULTIPLIERS) as [q |] eqn:Hfind.
    + apply find_some in Hfind. destruct Hfind as [Hq Htest].
      apply andb_true_iff in Htest. destruct Htest as [He Ht].
      apply String.eqb_eq in He. apply String.eqb_eq in Ht.
      assert (q = lm) as ->; [| reflexivity].
      apply (NoDup_map_injective
               (fun lm => (lm_evidence lm, lm_trait lm))
               LIKELIHOOD_MULTIPLIERS);
        [exact LIKELIHOOD_MULTIPLIERS_distinct | assumption | assumption |].
      cbn. rewrite He, Ht. reflexivity.
    + exfalso. apply (find_none _ _ Hfind) in Hlm.
      rewrite !String.eqb_refl in Hlm. discriminate.
  - intros evidence trait Hno. unfold getLikelihoodMultiplier,
      Engine.getLikelihoodMultiplier.
    destruct (find _ LIKELIHOOD_MULTIPLIERS) as [q |] eqn:Hfind; [| lra].
    apply find_some in Hfind. destruct Hfind as [Hq Htest].
    apply andb_true_iff in Htest. destruct Htest as [He Ht].
    apply String.eqb_eq in He. apply String.eqb_eq in Ht.
    exfalso. apply (Hno q Hq). split; assumption.
Qed.

Transparent PRIORS LIKELIHOOD_MULTIPLIERS.

Lemma prior_row_check (trait category : string) :
  forallb (fun p => negb ((prior_trait p =? trait)
                          && (prior_category p =? category))) PRIORS = true ->
  forall p, In p PRIORS ->
            ~ (prior_trait p = trait /\ prior_category p = category).
Proof.
  intros Hall p Hp [Ht Hc]. rewrite forallb_forall in Hall.
  specialize (Hall p Hp). rewrite Ht, Hc, !String.eqb_refl in Hall.
  discriminate.
Qed.

Lemma likelihood_row_check (evidence trait : string) :
  forallb (fun lm => negb ((lm_evidence lm =? evidence)
                           && (lm_trait lm =? trait)))
          LIKELIHOOD_MULTIPLIERS = true ->
  forall lm, In lm LIKELIHOOD_MULTIPLIERS ->
             ~ (lm_evidence lm = evidence /\ lm_trait lm = trait).
Proof.
  intros Hall lm Hlm [He Ht]. rewrite forallb_forall in Hall.
  specialize (Hall lm Hlm). rewrite He, Ht, !String.eqb_refl in Hall.
  discriminate.
Qed.

Lemma getPrior_lookup_witness :
  getPrior "Follower" "socialRole" = 0.50
  /\ getPrior "Follower" "attachmentStyle" = 0.01
  /\ getPrior "nonexistent-trait" "any-category" = 0.01.
Proof.
  split; [| split].
  - apply (proj1 getPrior_lookup
                 {| prior_trait := "Follower";
                    prior_category := "socialRole";
                    prior_probability := 0.50 |}).
    apply (nth_error_In PRIORS 27). reflexivity.
  - apply (proj2 getPrior_lookup). apply prior_row_check.
    vm_compute. reflexivity.
  - apply (proj2 getPrior_lookup). apply prior_row_check.
    vm_compute. reflexivity.
Defined.

Lemma getLikelihoodMultiplier_lookup_witness :
  getLikelihoodMultiplier "Highly Introverted" "Outlier" = 2.0
  /\ getLikelihoodMultiplier "Outlier" "Highly Introverted" = 1
  /\ getLikelihoodMultiplier "nonexistent-evidence" "nonexistent-trait" = 1.
Proof.
  split; [| split].
  - apply (proj1 getLikelihoodMultiplier_lookup
                 {| lm_evidence := "Highly Introverted";
                    lm_trait := "Outlier";
                    lm_multiplier := 2.0 |}).
    apply (nth_error_In LIKELIHOOD_MULTIPLIERS 6). reflexivity.
  - apply (proj2 getLikelihoodMultiplier_lookup). apply likelihood_row_check.
    vm_compute. reflexivity.
  - apply (proj2 getLikelihoodMultiplier_lookup). apply likelihood_row_check.
    vm_compute. reflexivity.
Defined.

(** ** Posteriors *)

Lemma Rsum_ge_member (l : list R) (x : R) :
  Forall (fun y => 0 <= y) l -> In x l -> x <= Rsum l.
Proof.
  induction 1 as [| y l Hy Hl IH]; cbn; intros Hin; [contradiction |].
  pose proof (Rsum_nonneg l Hl).
  destruct Hin as [-> | Hin]; [lra |].
  specialize (IH Hin). lra.
Qed.

Opaque PRIORS LIKELIHOOD_MULTIPLIERS.

(** X3. On the shipped tables the posteriors of a category with a prior
    row form a probability distribution over the traits of the category, in
    table order, for every evidence list of at most 100 entries with weights
    in [[0, 1]] (the range in which no running product overflows): every
    value lies in (0, 1] and the values sum to 1. *)
Theorem shipped_posteriors_distribution (category : string)
        (evidence : list EvidenceVariable) :
  weights_in_unit evidence ->
  (length evidence <= 100)%nat ->
  getTraitsForCategory category <> [] ->
  Map_keys (calculatePosteriors category evidence)
  = map prior_trait (getTraitsForCategory category)
  /\ Forall (fun entry => 0 < snd entry <= 1)
            (calculatePosteriors category evidence)
  /\ Rsum (Map_values (calculatePosteriors category evidence)) = 1.
Proof.
  unfold getTraitsForCategory, calculatePosteriors. intros _ _ Hne.
  pose proof (calculateNormalizationFactor_sum
                PRIORS LIKELIHOOD_MULTIPLIERS category evidence) as HZ.
  assert (Forall (fun x => 0 < x)
                 (map (fun t => Engine.applyEvidence
                                  LIKELIHOOD_MULTIPLIERS t evidence)
                      (Engine.getTraitsForCategory PRIORS category)))
    as Hpos.
  { apply Forall_map, Forall_forall. intros t Ht.
    apply applyEvidence_pos; [exact LIKELIHOOD_MULTIPLIERS_positive |].
    pose proof (shipped_traits_positive category) as Hall.
    rewrite Forall_forall in Hall. apply Hall. exact Ht. }
  assert (0 < Engine.calculateNormalizationFactor
                PRIORS LIKELIHOOD_MULTIPLIERS category evidence) as HZpos.
  { rewrite HZ. apply Rsum_pos; [| exact Hpos].
    intros Hnil. apply map_eq_nil in Hnil. contradiction. }
  split; [| split].
  - rewrite (calculatePosteriors_map PRIORS LIKELIHOOD_MULTIPLIERS category
                                     evidence PRIORS_distinct).
    unfold Map_keys. rewrite map_map. reflexivity.
  - rewrite (calculatePosteriors_map PRIORS LIKELIHOOD_MULTIPLIERS category
                                     evidence PRIORS_distinct).
    apply Forall_map, Forall_forall. intros t Ht. cbn [snd].
    destruct (Rlt_dec 0 _) as [_ | Hn]; [| contradiction].
    assert (0 < Engine.applyEvidence LIKELIHOOD_MULTIPLIERS t evidence) as Hs.
    { rewrite Forall_map, Forall_forall in Hpos. apply Hpos. exact Ht. }
    assert (Engine.applyEvidence LIKELIHOOD_MULTIPLIERS t evidence
            <= Engine.calculateNormalizationFactor
                 PRIORS LIKELIHOOD_MULTIPLIERS category evidence) as Hle.
    { rewrite HZ. apply Rsum_ge_member.
      - eapply Forall_impl; [| exact Hpos]. intros x Hx. cbv beta in Hx. lra.
      - apply (in_map (fun t => Engine.applyEvidence
                                  LIKELIHOOD_MULTIPLIERS t evidence)).
        exact Ht. }
    split.
    + apply Rdiv_lt_0_compat; assumption.
    + apply Rmult_le_reg_r with
          (r := Engine.calculateNormalizationFactor
                  PRIORS LIKELIHOOD_MULTIPLIERS category evidence);
        [exact HZpos |].
      unfold Rdiv. rewrite Rmult_assoc, Rinv_l, Rmult_1_r, Rmult_1_l by lra.
      exact Hle.
  - rewrite (posteriors_sum PRIORS LIKELIHOOD_MULTIPLIERS category evidence
                            shipped_tables_wf).
    destruct (Rlt_dec 0 _) as [_ | Hn]; [reflexivity | contradiction].
Qed.

Transparent PRIORS LIKELIHOOD_MULTIPLIERS.

Lemma shipped_posteriors_distribution_witness :
  let evidence :=
    [ {| ev_trait := "Highly Extroverted"; ev_probability := 0.25 |};
      {| ev_trait := "Secure"; ev_probability := 1 |} ] in
  weights_in_unit evidence
  /\ (length evidence <= 100)%nat
  /\ getTraitsForCategory "trustLevel" <> []
  /\ Rsum (Map_values (calculatePosteriors "trustLevel" evidence)) = 1.
Proof.
  intros evidence.
  assert (weights_in_unit evidence) as Hw.
  { repeat apply Forall_cons; try apply Forall_nil; cbn; lra. }
  assert (length evidence <= 100)%nat as Hlen by (cbn; lia).
  assert (getTraitsForCategory "trustLevel" <> []) as Hne
      by (cbn; discriminate).
  split; [exact Hw |]. split; [exact Hlen |]. split; [exact Hne |].
  exact (proj2 (proj2 (shipped_posteriors_distribution
                         "trustLevel" evidence Hw Hlen Hne))).
Defined.

Section EqualScores.
Variable priors : list PriorProbability.
Variable likelihoods : list LikelihoodMultiplier.

Lemma posteriors_pointwise (category : string)
    (evidence evidence' : list EvidenceVariable) :
(forall t, Engine.applyEvidence likelihoods t evidence
           = Engine.applyEvidence likelihoods t evidence') ->
Engine.calculatePosteriors priors likelihoods category evidence
= Engine.calculatePosteriors priors likelihoods category evidence'.
Proof.
intros Hscore.
assert (Engine.calculateNormalizationFactor
          priors likelihoods category evidence
        = Engine.calculateNormalizationFactor
            priors likelihoods category evidence') as HZ.
{ unfold Engine.calculateNormalizationFactor.
  apply fold_left_pointwise. intros a t. rewrite Hscore. reflexivity. }
unfold Engine.calculatePosteriors, Engine.calculatePosteriorsWith.
fold (Engine.calculateNormalizationFactor
        priors likelihoods category evidence).
fold (Engine.calculateNormalizationFactor
        priors likelihoods category evidence').
rewrite HZ. apply fold_left_pointwise. intros m t. cbn.
rewrite Hscore. reflexivity.
Qed.
End EqualScores.

Lemma Math_pow_zero_r (b : R) : Math_pow b 0 = 1.
Proof.
  unfold Math_pow. destruct (Req_dec_T 0 0); [reflexivity | lra].
Qed.

(** X5. Evidence of weight 0 has no effect: an entry of weight 0 can be
    dropped from the evidence list without changing any posterior, whatever
    its trait. *)
Theorem zero_weight_evidence_neutral
        (priors : list PriorProbability)
        (likelihoods : list LikelihoodMultiplier) (category : string)
        (trait : string) (before after : list EvidenceVariable) :
  Engine.calculatePosteriors
    priors likelihoods category
    (before ++ {| ev_trait := trait; ev_probability := 0 |} :: after)
  = Engine.calculatePosteriors priors likelihoods category
                               (before ++ after).
Proof.
  apply posteriors_pointwise. intros t. unfold Engine.applyEvidence.
  rewrite !fold_left_app. cbn.
  rewrite Math_pow_zero_r, Rmult_1_r. reflexivity.
Qed.

(** ** Recommendation *)

Section Highest.
Let step :=
fun '(highestTrait, highestProbability) '(trait, probability) =>
  if Rlt_dec highestProbability probability
  then (trait, probability)
  else (highestTrait : string, highestProbability : R).

Lemma highest_stays (m : JSMap R) (t : string) (p : R) :
Forall (fun entry => snd entry <= p) m ->
fold_left step m (t, p) = (t, p).
Proof.
induction 1 as [| [k v] m Hv _ IH]; cbn; [reflexivity |].
cbn in Hv. destruct (Rlt_dec p v); [lra | exact IH].
Qed.

Lemma highest_below (m : JSMap R) (acc : string * R) (p : R) :
snd acc < p -> Forall (fun entry => snd entry < p) m ->
snd (fold_left step m acc) < p.
Proof.
intros Hacc Hm. revert acc Hacc.
induction Hm as [| [k v] m Hv _ IH]; intros [t q] Hacc; cbn;
  [exact Hacc |].
cbn in Hv, Hacc. destruct (Rlt_dec q v); apply IH; cbn; assumption.
Qed.

Lemma findHighestProbabilityTrait_fold (posteriors : JSMap R) :
findHighestProbabilityTrait posteriors = fold_left step posteriors ("", 0).
Proof. reflexivity. Qed.
End Highest.

(** X6. [findHighestProbabilityTrait] returns the first entry of maximal
    probability when that probability is positive, and the pair ("", 0)
    when no entry has a positive probability (in particular on the empty
    map). *)
Theorem findHighestProbabilityTrait_first_maximum (posteriors : JSMap R) :
  (Forall (fun entry => snd entry <= 0) posteriors ->
   findHighestProbabilityTrait posteriors = ("", 0))
  /\ (forall before trait probability after,
         posteriors = (before ++ (trait, probability) :: after)%list ->
         0 < probability ->
         Forall (fun entry => snd entry < probability) before ->
         Forall (fun entry => snd entry <= probability) after ->
         findHighestProbabilityTrait posteriors = (trait, probability)).
Proof.
  rewrite findHighestProbabilityTrait_fold. split.
  - intros Hall. apply highest_stays. exact Hall.
  - intros before trait probability after -> Hpos Hbefore Hafter.
    rewrite fold_left_app. cbn [fold_left].
    pose proof (highest_below before ("", 0) probability Hpos Hbefore)
      as Hlt.
    destruct (fold_left _ before ("", 0)) as [t q]. cbn in Hlt.
    cbv beta iota.
    destruct (Rlt_dec q probability) as [_ | Hn]; [| contradiction].
    apply highest_stays. exact Hafter.
Qed.

Lemma findHighestProbabilityTrait_first_maximum_witness :
  let tied := [("a", 0.2); ("b", 0.4); ("c", 0.4)] in
  findHighestProbabilityTrait tied = ("b", 0.4)
  /\ findHighestProbabilityTrait [("a", 0); ("b", -1)] = ("", 0).
Proof.
  intros tied. split.
  - apply (proj2 (findHighestProbabilityTrait_first_maximum tied)
                 [("a", 0.2)] "b" 0.4 [("c", 0.4)]).
    + reflexivity.
    + lra.
    + repeat constructor; cbn; lra.
    + repeat constructor; cbn; lra.
  - apply (proj1 (findHighestProbabilityTrait_first_maximum _)).
    repeat constructor; cbn; lra.
Defined.

(** ** Inference results *)

Lemma traitsObject_distinct (posteriors : JSMap R) :
  NoDup (Map_keys posteriors) ->
  fold_left (fun obj '(trait, prob) => Map_set trait prob obj) posteriors []
  = posteriors.
Proof.
  intros Hnd.
  rewrite (fold_left_pointwise _
             (fun obj (entry : string * R) =>
                Map_set (fst entry) (snd entry) obj))
    by (intros obj [trait prob]; reflexivity).
  rewrite (fold_Map_set_distinct fst snd) by exact Hnd.
  cbn. rewrite <- (map_id posteriors) at 2.
  apply map_ext. intros [k v]. reflexivity.
Qed.

Opaque PRIORS LIKELIHOOD_MULTIPLIERS.

Lemma shipped_posteriors_keys (category : string)
      (evidence : list EvidenceVariable) :
  Map_keys (calculatePosteriors category evidence)
  = map prior_trait (Engine.getTraitsForCategory PRIORS category).
Proof.
  unfold calculatePosteriors.
  rewrite (calculatePosteriors_map PRIORS LIKELIHOOD_MULTIPLIERS category
                                   evidence PRIORS_distinct).
  unfold Map_keys. rewrite map_map. reflexivity.
Qed.

Lemma getInferenceResult_unknown (evidence : list EvidenceVariable)
      (category : string) :
  Engine.getTraitsForCategory PRIORS category = [] ->
  getInferenceResult (performInference evidence) category = None.
Proof.
  intros Hnil. unfold getInferenceResult.
  rewrite (posteriors_of_unknown_category evidence category Hnil).
  reflexivity.
Qed.

Lemma getInferenceResult_shape (evidence : list EvidenceVariable)
      (category : string) :
  Engine.getTraitsForCategory PRIORS category <> [] ->
  exists result,
    getInferenceResult (performInference evidence) category = Some result
    /\ res_category result = category
    /\ res_traits result = calculatePosteriors category evidence
    /\ confidence result
       = calculateConfidence (calculatePosteriors category evidence)
    /\ In (recommendedTrait result)
          (map prior_trait (Engine.getTraitsForCategory PRIORS category)).
Proof.
  intros Hne.
  destruct (getInferenceResult_some evidence category Hne)
    as [result [Hres [Hin _]]].
  exists result. split; [exact Hres |].
  unfold getInferenceResult in Hres.
  rewrite (posteriors_of_category evidence category Hne) in Hres.
  destruct (findHighestProbabilityTrait _) as [recommended prob].
  injection Hres as Hres. subst result.
  cbn [res_category res_traits confidence recommendedTrait] in *.
  split; [reflexivity |]. split; [| split; [reflexivity | exact Hin]].
  apply traitsObject_distinct.
  rewrite shipped_posteriors_keys.
  apply getTraitsForCategory_distinct. exact PRIORS_distinct.
Qed.

(** X7. For an evidence list of at most 100 entries with weights in
    [[0, 1]] (the range in which no running product overflows),
    [getInferenceResult] has no result exactly for a category without prior
    rows; for a known category the result carries the category, the
    posteriors of [calculatePosteriors] as its trait map, their confidence,
    and a recommended trait that belongs to the category. *)
Theorem getInferenceResult_known_category
        (evidence : list EvidenceVariable) (category : string) :
  weights_in_unit evidence ->
  (length evidence <= 100)%nat ->
  (getTraitsForCategory category = [] ->
   getInferenceResult (performInference evidence) category = None)
  /\ (getTraitsForCategory category <> [] ->
      exists result,
        getInferenceResult (performInference evidence) category
        = Some result
        /\ res_category result = category
        /\ res_traits result = calculatePosteriors category evidence
        /\ confidence result
           = calculateConfidence (calculatePosteriors category evidence)
        /\ In (recommendedTrait result)
              (map prior_trait (getTraitsForCategory category))).
Proof.
  intros _ _. unfold getTraitsForCategory. split.
  - apply getInferenceResult_unknown.
  - apply getInferenceResult_shape.
Qed.

Transparent PRIORS LIKELIHOOD_MULTIPLIERS.

Lemma getInferenceResult_known_category_witness :
  weights_in_unit highly_introverted
  /\ (length highly_introverted <= 100)%nat
  /\ getTraitsForCategory "zodiac" = []
  /\ getInferenceResult (performInference highly_introverted) "zodiac"
     = None
  /\ getTraitsForCategory "fears" <> []
  /\ exists result,
      getInferenceResult (performInference highly_introverted) "fears"
      = Some result
      /\ res_category result = "fears".
Proof.
  assert (getTraitsForCategory "zodiac" = []) as Hnil by reflexivity.
  assert (getTraitsForCategory "fears" <> []) as Hne by (cbn; discriminate).
  split; [exact highly_introverted_weights |].
  split; [exact highly_introverted_length |].
  split; [exact Hnil |].
  split.
  - exact (proj1 (getInferenceResult_known_category
                    highly_introverted "zodiac"
                    highly_introverted_weights highly_introverted_length)
                 Hnil).
  - split; [exact Hne |].
    destruct (proj2 (getInferenceResult_known_category
                       highly_introverted "fears"
                       highly_introverted_weights
                       highly_introverted_length) Hne)
      as [result [Hres [Hcat _]]].
    exists result. split; assumption.
Defined.

Lemma getInferenceResult_category (evidence : list EvidenceVariable)
      (category : string) :
  Engine.getTraitsForCategory PRIORS category <> [] ->
  exists result,
    getInferenceResult (performInference evidence) category = Some result
    /\ res_category result = category.
Proof.
  intros Hne.
  destruct (getInferenceResult_shape evidence category Hne)
    as [result [Hres [Hcat _]]].
  exists result. split; assumption.
Qed.

(** X8. [getAllInferenceResults] returns one result per category of the
    prior table, in the order in which the categories first appear in the
    table, for every evidence list. *)
Theorem getAllInferenceResults_categories
        (evidence : list EvidenceVariable) :
  map res_category (getAllInferenceResults (performInference evidence))
  = [ "introversionExtroversion"; "attachmentStyle"; "trustLevel";
      "vulnerabilities"; "socialRole"; "communicationStyle";
      "communicationChannel"; "desires"; "fears"; "trustTriggers";
      "emotionVsLogic"; "decisionPacing"; "identityAnchors" ].
Proof.
  unfold getAllInferenceResults.
  rewrite performInference_posteriors, categories_of_PRIORS.
  cbn [map fold_left].
  repeat match goal with
         | |- context [getInferenceResult (performInference evidence) ?c] =>
             let r := fresh "result" in
             let Hr := fresh "Hres" in
             let Hc := fresh "Hcat" in
             destruct (getInferenceResult_category evidence c)
               as [r [Hr Hc]];
             [cbn; discriminate |];
             rewrite Hr; clear Hr
         end.
  cbn [app map]. congruence.
Qed.

(** ** Evidence extraction *)

Lemma truthy_string_false (s : string) : truthy_string s = false -> s = "".
Proof.
  unfold truthy_string. destruct (String.eqb_spec s ""); [auto | discriminate].
Qed.

Lemma truthy_string_spec (s : string) : truthy_string s = true <-> s <> "".
Proof.
  unfold truthy_string. destruct (String.eqb_spec s ""); cbn; split;
    congruence.
Qed.

(** X9. [extractEvidenceFromCharacter] emits, in a fixed order, one
    evidence variable of weight 1.0 for each of the five scalar trait fields
    that is not empty, and nothing else; so the weights it produces are
    always within the contract of the engine. *)
Theorem extractEvidence_fields (character : Character) :
  map ev_trait (extractEvidenceFromCharacter character)
  = filter truthy_string
           [ get_introversionExtroversion character;
             get_attachmentStyle character;
             get_trustLevel character;
             get_role character;
             get_primaryStyle character ]
  /\ Forall (fun ev => ev_probability ev = 1)
            (extractEvidenceFromCharacter character)
  /\ weights_in_unit (extractEvidenceFromCharacter character)
  /\ (length (extractEvidenceFromCharacter character) <= 5)%nat.
Proof.
  unfold extractEvidenceFromCharacter, get_introversionExtroversion,
    get_attachmentStyle, get_trustLevel, get_role, get_primaryStyle,
    weights_in_unit.
  cbv zeta. cbn [filter].
  destruct (truthy_string (introversionExtroversion _)),
    (truthy_string (attachmentStyle _)), (truthy_string (trustLevel _)),
    (truthy_string (role _)), (truthy_string (primaryStyle _));
    cbn; (split; [reflexivity |]);
    (split; [repeat constructor; cbn; lra |]);
    (split; [repeat apply Forall_cons; try apply Forall_nil; cbn; lra
            | lia]).
Qed.

(** ** Suggestions *)

Lemma firstn_member {A : Type} (n : nat) (l : list A) (x : A) :
  In x (firstn n l) -> In x l.
Proof.
  revert n. induction l as [| y l IH]; intros [| n]; cbn; try tauto.
  intros [H | H]; [left; exact H | right; exact (IH n H)].
Qed.

Lemma firstn_sorted {A : Type} (R : A -> A -> Prop) (n : nat) (l : list A) :
  StronglySorted R l -> StronglySorted R (firstn n l).
Proof.
  intros Hs. revert n. induction Hs as [| x l Hl IH Hx]; intros [| n]; cbn;
    try constructor.
  - apply IH.
  - apply Forall_forall. intros y Hy.
    rewrite Forall_forall in Hx. apply Hx.
    apply (firstn_member n l). exact Hy.
Qed.

Opaque PRIORS LIKELIHOOD_MULTIPLIERS.

(** X10. [getSuggestedTraits] returns nothing for a category without prior
    rows; for a known category it returns [min count n] suggestions, [n]
    being the number of traits of the category, in descending order of
    probability, each of them an entry of the posteriors of the category
    for the evidence extracted from the character. *)
Theorem getSuggestedTraits_top (character : Character) (category : string)
        (count : nat) :
  (getTraitsForCategory category = [] ->
   getSuggestedTraits character category count = [])
  /\ (getTraitsForCategory category <> [] ->
      let suggestions := getSuggestedTraits character category count in
      let posteriors :=
        calculatePosteriors category
                            (extractEvidenceFromCharacter character) in
      length suggestions
      = Nat.min count (length (getTraitsForCategory category))
      /\ StronglySorted
           (fun a b => sug_probability b <= sug_probability a) suggestions
      /\ Forall (fun s => In (sug_trait s, sug_probability s) posteriors)
                suggestions).
Proof.
  unfold getSuggestedTraits. cbv zeta. split.
  - intros Hnil.
    unfold getTraitsForCategory in Hnil.
    rewrite (getInferenceResult_unknown _ category Hnil).
    reflexivity.
  - intros Hne.
    unfold getTraitsForCategory in Hne |- *.
    destruct (getInferenceResult_shape
                (extractEvidenceFromCharacter character) category Hne)
      as [result [Hres [_ [Htraits _]]]].
    rewrite Hres, Htraits.
    set (posteriors := calculatePosteriors _ _).
    unfold Array_slice. cbn [skipn]. rewrite Nat.sub_0_r.
    pose proof (Array_sort_Permutation
                  (fun x y : string * R => snd y - snd x) posteriors)
      as Hperm.
    pose proof (Array_sort_sorted
                  (fun x y : string * R => snd y - snd x) snd
                  (fun x y => eq_refl) posteriors) as Hsorted.
    split; [| split].
    + rewrite length_map, length_firstn, Array_sort_length.
      f_equal.
      assert (length posteriors = length (Map_keys posteriors)) as ->
          by (unfold Map_keys; rewrite length_map; reflexivity).
      unfold posteriors. rewrite shipped_posteriors_keys.
      rewrite length_map. reflexivity.
    + apply (firstn_sorted _ count) in Hsorted.
      remember (firstn count
                       (Array_sort (fun x y : string * R => snd y - snd x)
                                   posteriors)) as l eqn:El.
      clear El Hperm. revert Hsorted.
      induction l as [| [k v] l IH]; cbn; intros Hs; [constructor |].
      apply StronglySorted_inv in Hs. destruct Hs as [Hl Hx].
      constructor; [apply IH; exact Hl |].
      apply Forall_map. eapply Forall_impl; [| exact Hx].
      intros [k' v'] H. exact H.
    + apply Forall_map, Forall_forall. intros [k v] Hin. cbn.
      apply firstn_member in Hin.
      apply (Permutation_in _ (Permutation_sym Hperm)). exact Hin.
Qed.

Transparent PRIORS LIKELIHOOD_MULTIPLIERS.

Lemma getSuggestedTraits_top_witness :
  getTraitsForCategory "zodiac" = []
  /\ getSuggestedTraits purely_logical "zodiac" 3 = []
  /\ getTraitsForCategory "socialRole" <> []
  /\ length (getSuggestedTraits purely_logical "socialRole" 3) = 3%nat
  /\ length (getSuggestedTraits purely_logical "socialRole" 10) = 6%nat.
Proof.
  assert (getTraitsForCategory "zodiac" = []) as Hnil by reflexivity.
  assert (getTraitsForCategory "socialRole" <> []) as Hne
      by (cbn; discriminate).
  split; [exact Hnil |].
  split; [exact (proj1 (getSuggestedTraits_top purely_logical "zodiac" 3)
                       Hnil) |].
  split; [exact Hne |].
  split.
  - exact (proj1 (proj2 (getSuggestedTraits_top purely_logical
                                                "socialRole" 3) Hne)).
  - exact (proj1 (proj2 (getSuggestedTraits_top purely_logical
                                                "socialRole" 10) Hne)).
Defined.

(** ** What autocompletion keeps and what it writes *)

Lemma needs_of_string (s : string) :
  s <> "" -> negb (truthy_string s) = false.
Proof. intros H. rewrite (truthy_string_true s H). reflexivity. Qed.

Lemma needs_of_number (x : R) : x <> 0 -> negb (truthy_number x) = false.
Proof. intros H. rewrite (truthy_number_true x H). reflexivity. Qed.

Lemma needs_of_list {A : Type} (l : list A) : l <> [] -> unset_list l = false.
Proof. destruct l; [congruence | reflexivity]. Qed.

(** The field read by [get] survives the whole chain of blocks when its own
    block finds it populated. *)
Ltac kept Hneeds :=
  unfold autocompleteCharacter, JSON_copy; cbv zeta;
  peel;
  etransitivity;
  [ apply f_equal; apply fill_false; peel; exact Hneeds
  | peel; reflexivity ].

Ltac untouched :=
  unfold autocompleteCharacter, JSON_copy; cbv zeta; peel; reflexivity.

(** X11. [autocompleteCharacter] returns every populated string and list
    field, and a non-zero emotion-vs-logic value, as it found them; the
    fields that are not subject to inference ([influence],
    [approvalDependency], [preferredChannels]) are returned unchanged in
    every case. *)
Theorem autocomplete_keeps_populated (c : Character) :
  let c' := autocompleteCharacter c in
  (get_introversionExtroversion c <> "" ->
   get_introversionExtroversion c' = get_introversionExtroversion c)
  /\ (get_attachmentStyle c <> "" ->
      get_attachmentStyle c' = get_attachmentStyle c)
  /\ (get_trustLevel c <> "" -> get_trustLevel c' = get_trustLevel c)
  /\ (get_likelyVulnerabilities c <> [] ->
      get_likelyVulnerabilities c' = get_likelyVulnerabilities c)
  /\ (get_role c <> "" -> get_role c' = get_role c)
  /\ (get_primaryStyle c <> "" -> get_primaryStyle c' = get_primaryStyle c)
  /\ (get_emotionVsLogic c <> 0 ->
      get_emotionVsLogic c' = get_emotionVsLogic c)
  /\ (get_pacing c <> "" -> get_pacing c' = get_pacing c)
  /\ (get_desires c <> [] -> get_desires c' = get_desires c)
  /\ (get_fears c <> [] -> get_fears c' = get_fears c)
  /\ (get_triggers c <> [] -> get_triggers c' = get_triggers c)
  /\ (get_coreAnchors c <> [] -> get_coreAnchors c' = get_coreAnchors c)
  /\ get_influence c' = get_influence c
  /\ get_approvalDependency c' = get_approvalDependency c
  /\ get_preferredChannels c' = get_preferredChannels c.
Proof.
  intros c'. subst c'.
  repeat match goal with |- _ /\ _ => split end.
  - intros H. apply needs_of_string in H.
    fold (needs_introversionExtroversion c) in H. kept H.
  - intros H. apply needs_of_string in H.
    fold (needs_attachmentStyle c) in H. kept H.
  - intros H. apply needs_of_string in H.
    fold (needs_trustLevel c) in H. kept H.
  - intros H. apply needs_of_list in H.
    fold (needs_likelyVulnerabilities c) in H. kept H.
  - intros H. apply needs_of_string in H.
    fold (needs_role c) in H. kept H.
  - intros H. apply needs_of_string in H.
    fold (needs_primaryStyle c) in H. kept H.
  - intros H. apply needs_of_number in H.
    fold (needs_emotionVsLogic c) in H. kept H.
  - intros H. apply needs_of_string in H.
    fold (needs_pacing c) in H. kept H.
  - intros H. apply needs_of_list in H.
    fold (needs_desires c) in H. kept H.
  - intros H. apply needs_of_list in H.
    fold (needs_fears c) in H. kept H.
  - intros H. apply needs_of_list in H.
    fold (needs_triggers c) in H. kept H.
  - intros H. apply needs_of_list in H.
    fold (needs_coreAnchors c) in H. kept H.
  - untouched.
  - untouched.
  - untouched.
Qed.

Lemma autocomplete_keeps_populated_witness :
  get_role purely_logical <> ""
  /\ get_role (autocompleteCharacter purely_logical) = "Follower"
  /\ get_desires purely_logical <> []
  /\ get_desires (autocompleteCharacter purely_logical)
     = get_desires purely_logical.
Proof.
  assert (get_role purely_logical <> "") as Hrole by (cbn; discriminate).
  assert (get_desires purely_logical <> []) as Hdes by (cbn; discriminate).
  pose proof (autocomplete_keeps_populated purely_logical) as H.
  cbv zeta in H.
  destruct H as (_ & _ & _ & _ & Hr & _ & _ & _ & Hd & _).
  split; [exact Hrole |].
  split; [exact (Hr Hrole) |].
  split; [exact Hdes |].
  exact (Hd Hdes).
Defined.

Lemma fill_true (unset : Character -> bool) (category : string)
      (assign : Character -> InferenceResult -> Character)
      (inference : BayesianInference) (c : Character)
      (result : InferenceResult) :
  unset c = true ->
  getInferenceResult inference category = Some result ->
  fill unset category assign inference c = assign c result.
Proof. intros Hu Hr. unfold fill. rewrite Hu, Hr. reflexivity. Qed.

Lemma needs_of_empty_string (s : string) :
  s = "" -> negb (truthy_string s) = true.
Proof. intros ->. reflexivity. Qed.

Lemma needs_of_zero (x : R) : x = 0 -> negb (truthy_number x) = true.
Proof. intros ->. rewrite truthy_number_zero. reflexivity. Qed.

Lemma needs_of_nil {A : Type} (l : list A) : l = [] -> unset_list l = true.
Proof. intros ->. reflexivity. Qed.

Lemma emotionLogicValue_anchor (trait : string) :
  In (emotionLogicValue trait) [0.9; 0.7; 0.5; 0.3; 0.1].
Proof.
  unfold emotionLogicValue, emotionLogicMap. cbn [Map_get].
  repeat match goal with
         | |- context [if ?k =? trait then _ else _] =>
             destruct (k =? trait)
         | |- context [if truthy_number ?v then _ else _] =>
             destruct (truthy_number v)
         end;
    cbn; tauto.
Qed.

Lemma top3_length (traits : JSMap R) :
  length (top3 traits) = Nat.min 3 (length traits).
Proof.
  unfold top3, Array_slice. cbn [skipn Nat.sub].
  rewrite length_firstn, Array_sort_length. reflexivity.
Qed.

Lemma top3_keys (traits : JSMap R) :
  Forall (fun entry => In (fst entry) (Map_keys traits)) (top3 traits).
Proof.
  unfold top3, Array_slice. cbn [skipn Nat.sub].
  apply Forall_forall. intros entry Hin. apply firstn_member in Hin.
  pose proof (Array_sort_Permutation
                (fun x y : string * R => snd y - snd x) traits) as Hperm.
  apply (Permutation_in _ (Permutation_sym Hperm)) in Hin.
  unfold Map_keys. apply in_map. exact Hin.
Qed.

(** The result of a known category, as the blocks use it. *)
Lemma block_result (evidence : list EvidenceVariable) (category : string) :
  Engine.getTraitsForCategory PRIORS category <> [] ->
  exists result,
    getInferenceResult (performInference evidence) category = Some result
    /\ In (recommendedTrait result)
          (map prior_trait (Engine.getTraitsForCategory PRIORS category))
    /\ length (top3 (res_traits result))
       = Nat.min 3 (length (Engine.getTraitsForCategory PRIORS category))
    /\ Forall (fun entry =>
                 In (fst entry)
                    (map prior_trait
                         (Engine.getTraitsForCategory PRIORS category)))
              (top3 (res_traits result)).
Proof.
  intros Hne.
  destruct (getInferenceResult_shape evidence category Hne)
    as [result [Hres [_ [Htraits [_ Hin]]]]].
  exists result. split; [exact Hres |]. split; [exact Hin |].
  pose proof (shipped_posteriors_keys category evidence) as Hkeys.
  rewrite <- Htraits in Hkeys.
  split.
  - rewrite top3_length. f_equal.
    rewrite <- (length_map prior_trait), <- Hkeys.
    unfold Map_keys. rewrite length_map. reflexivity.
  - rewrite <- Hkeys. apply top3_keys.
Qed.

(** The block of a field that is unset assigns it from the result. *)
Ltac written Hneeds cat :=
  unfold autocompleteCharacter, JSON_copy; cbv zeta;
  peel;
  match goal with
  | |- context [fill ?u cat ?a (performInference ?ev) ?x] =>
      let result := fresh "result" in
      let Hres := fresh "Hres" in
      let Hin := fresh "Hin" in
      let Hlen := fresh "Hlen" in
      let Hkeys := fresh "Hkeys" in
      destruct (block_result ev cat) as [result [Hres [Hin [Hlen Hkeys]]]];
      [ cbn; discriminate | ];
      rewrite (fill_true u cat a (performInference ev) x result);
      [ | peel; exact Hneeds | exact Hres ];
      unfold_blocks
  end.

(** X12. A field that [autocompleteCharacter] finds unset is assigned from
    the result of its own category: a scalar field receives one of the
    traits of the category, the emotion-vs-logic value one of the five
    anchors 0.9, 0.7, 0.5, 0.3, 0.1, and a list field three entries whose
    types are traits of the category. *)
Theorem autocomplete_writes_from_category (c : Character) :
  let c' := autocompleteCharacter c in
  (get_introversionExtroversion c = "" ->
   In (get_introversionExtroversion c')
      (map prior_trait (getTraitsForCategory "introversionExtroversion")))
  /\ (get_attachmentStyle c = "" ->
      In (get_attachmentStyle c')
         (map prior_trait (getTraitsForCategory "attachmentStyle")))
  /\ (get_trustLevel c = "" ->
      In (get_trustLevel c')
         (map prior_trait (getTraitsForCategory "trustLevel")))
  /\ (get_role c = "" ->
      In (get_role c') (map prior_trait (getTraitsForCategory "socialRole")))
  /\ (get_primaryStyle c = "" ->
      In (get_primaryStyle c')
         (map prior_trait (getTraitsForCategory "communicationStyle")))
  /\ (get_pacing c = "" ->
      In (get_pacing c')
         (map prior_trait (getTraitsForCategory "decisionPacing")))
  /\ (get_emotionVsLogic c = 0 ->
      In (get_emotionVsLogic c') [0.9; 0.7; 0.5; 0.3; 0.1])
  /\ (get_likelyVulnerabilities c = [] ->
      length (get_likelyVulnerabilities c') = 3%nat
      /\ Forall (fun v =>
                   In (vuln_type v)
                      (map prior_trait
                           (getTraitsForCategory "vulnerabilities")))
                (get_likelyVulnerabilities c'))
  /\ (get_desires c = [] ->
      length (get_desires c') = 3%nat
      /\ Forall (fun d =>
                   In (motivation_type d)
                      (map prior_trait (getTraitsForCategory "desires")))
                (get_desires c'))
  /\ (get_fears c = [] ->
      length (get_fears c') = 3%nat
      /\ Forall (fun f =>
                   In (insecurity_type f)
                      (map prior_trait (getTraitsForCategory "fears")))
                (get_fears c'))
  /\ (get_triggers c = [] ->
      length (get_triggers c') = 3%nat
      /\ Forall (fun t =>
                   In (trigger_type t)
                      (map prior_trait
                           (getTraitsForCategory "trustTriggers")))
                (get_triggers c'))
  /\ (get_coreAnchors c = [] ->
      length (get_coreAnchors c') = 3%nat
      /\ Forall (fun a =>
                   In (anchor_type a)
                      (map prior_trait
                           (getTraitsForCategory "identityAnchors"))
                   /\ anchor_visibility a = 0.5)
                (get_coreAnchors c')).
Proof.
  intros c'. subst c'. unfold getTraitsForCategory.
  repeat match goal with |- _ /\ _ => split end.
  - intros H. apply needs_of_empty_string in H.
    fold (needs_introversionExtroversion c) in H.
    written H "introversionExtroversion". exact Hin.
  - intros H. apply needs_of_empty_string in H.
    fold (needs_attachmentStyle c) in H.
    written H "attachmentStyle". exact Hin.
  - intros H. apply needs_of_empty_string in H.
    fold (needs_trustLevel c) in H.
    written H "trustLevel". exact Hin.
  - intros H. apply needs_of_empty_string in H.
    fold (needs_role c) in H.
    written H "socialRole". exact Hin.
  - intros H. apply needs_of_empty_string in H.
    fold (needs_primaryStyle c) in H.
    written H "communicationStyle". exact Hin.
  - intros H. apply needs_of_empty_string in H.
    fold (needs_pacing c) in H.
    written H "decisionPacing". exact Hin.
  - intros H. apply needs_of_zero in H.
    fold (needs_emotionVsLogic c) in H.
    written H "emotionVsLogic". apply emotionLogicValue_anchor.
  - intros H. apply needs_of_nil in H.
    fold (needs_likelyVulnerabilities c) in H.
    written H "vulnerabilities".
    split; [rewrite length_map; exact Hlen |].
    apply Forall_map. eapply Forall_impl; [| exact Hkeys].
    intros [trait prob] Hk. exact Hk.
  - intros H. apply needs_of_nil in H.
    fold (needs_desires c) in H.
    written H "desires".
    split; [rewrite length_map; exact Hlen |].
    apply Forall_map. eapply Forall_impl; [| exact Hkeys].
    intros [trait prob] Hk. exact Hk.
  - intros H. apply needs_of_nil in H.
    fold (needs_fears c) in H.
    written H "fears".
    split; [rewrite length_map; exact Hlen |].
    apply Forall_map. eapply Forall_impl; [| exact Hkeys].
    intros [trait prob] Hk. exact Hk.
  - intros H. apply needs_of_nil in H.
    fold (needs_triggers c) in H.
    written H "trustTriggers".
    split; [rewrite length_map; exact Hlen |].
    apply Forall_map. eapply Forall_impl; [| exact Hkeys].
    intros [trait prob] Hk. exact Hk.
  - intros H. apply needs_of_nil in H.
    fold (needs_coreAnchors c) in H.
    written H "identityAnchors".
    split; [rewrite length_map; exact Hlen |].
    apply Forall_map. eapply Forall_impl; [| exact Hkeys].
    intros [trait prob] Hk. split; [exact Hk | reflexivity].
Qed.

Lemma autocomplete_writes_from_category_witness :
  get_role blank_character = ""
  /\ In (get_role (autocompleteCharacter blank_character))
        [ "Leader"; "Follower"; "Connector"; "Outlier"; "Gatekeeper";
          "Mediator" ]
  /\ get_emotionVsLogic blank_character = 0
  /\ In (get_emotionVsLogic (autocompleteCharacter blank_character))
        [0.9; 0.7; 0.5; 0.3; 0.1]
  /\ get_fears blank_character = []
  /\ length (get_fears (autocompleteCharacter blank_character)) = 3%nat.
Proof.
  pose proof (autocomplete_writes_from_category blank_character) as H.
  cbv zeta in H.
  destruct H as (_ & _ & _ & Hrole & _ & _ & Hemo & _ & _ & Hfears & _).
  split; [reflexivity |].
  split; [exact (Hrole eq_refl) |].
  split; [reflexivity |].
  split; [exact (Hemo eq_refl) |].
  split; [reflexivity |].
  exact (proj1 (Hfears eq_refl)).
Defined.

(** ** Compatibility: range and diagonal *)

Lemma getIntroversionExtroversionValue_range (ie : string) :
  0 <= getIntroversionExtroversionValue ie <= 4.
Proof.
  unfold getIntroversionExtroversionValue.
  repeat match goal with
         | |- context [if ?b then _ else _] => destruct b
         end; lra.
Qed.

Lemma attachmentFactor_range (a1 a2 : string) :
  0.3 <= attachmentFactor a1 a2 <= 1.
Proof.
  unfold attachmentFactor.
  repeat match goal with
         | |- context [if ?b then _ else _] => destruct b
         end; lra.
Qed.

Lemma introExtroFactor_range (ie1 ie2 : string) :
  0 <= introExtroFactor ie1 ie2 <= 1.
Proof.
  unfold introExtroFactor.
  rewrite <- !getIntroversionExtroversionValue_ordinal.
  pose proof (getIntroversionExtroversionValue_range ie1).
  pose proof (getIntroversionExtroversionValue_range ie2).
  unfold Rabs. destruct (Rcase_abs _); lra.
Qed.

Lemma communicationFactor_range (s1 s2 : string) :
  0.4 <= communicationFactor s1 s2 <= 1.
Proof.
  unfold communicationFactor.
  repeat match goal with
         | |- context [if ?b then _ else _] => destruct b
         end; lra.
Qed.

Lemma decisionFactor_range (e1 e2 : R) :
  0 <= e1 <= 1 -> 0 <= e2 <= 1 -> 0 <= decisionFactor e1 e2 <= 1.
Proof.
  intros H1 H2. unfold decisionFactor, Rabs. destruct (Rcase_abs _); lra.
Qed.

Lemma calculateCompatibility_bounds (a b : Character) :
  0 <= get_emotionVsLogic a <= 1 ->
  0 <= get_emotionVsLogic b <= 1 ->
  0.175 <= calculateCompatibility a b <= 1.
Proof.
  unfold get_emotionVsLogic. intros Ha Hb.
  rewrite calculateCompatibility_factors.
  pose proof (attachmentFactor_range
                (attachmentStyle (psychologicalProfile a))
                (attachmentStyle (psychologicalProfile b))).
  pose proof (introExtroFactor_range
                (introversionExtroversion (psychologicalProfile a))
                (introversionExtroversion (psychologicalProfile b))).
  pose proof (communicationFactor_range
                (primaryStyle (communication a))
                (primaryStyle (communication b))).
  pose proof (decisionFactor_range _ _ Ha Hb).
  lra.
Qed.

Lemma calculateCompatibility_swap (a b : Character) :
  calculateCompatibility a b = calculateCompatibility b a.
Proof.
  rewrite !calculateCompatibility_factors.
  rewrite (attachmentFactor_sym (attachmentStyle (psychologicalProfile a))).
  rewrite (introExtroFactor_sym
             (introversionExtroversion (psychologicalProfile a))).
  rewrite (communicationFactor_sym (primaryStyle (communication a))).
  rewrite (decisionFactor_sym (emotionVsLogic (decisionMaking a))).
  reflexivity.
Qed.

(** X13. For two profiles with emotion-vs-logic values in [[0, 1]] the
    score of [calculateCompatibility] lies between 0.175 and 1; it is never
    0. *)
Theorem compatibility_range (a b : Character) :
  0 <= get_emotionVsLogic a <= 1 ->
  0 <= get_emotionVsLogic b <= 1 ->
  0.175 <= calculateCompatibility a b <= 1.
Proof. apply calculateCompatibility_bounds. Qed.

Lemma compatibility_range_witness :
  0 <= get_emotionVsLogic blank_character <= 1
  /\ 0 <= get_emotionVsLogic purely_logical <= 1
  /\ 0.175 <= calculateCompatibility blank_character purely_logical <= 1.
Proof.
  assert (0 <= get_emotionVsLogic blank_character <= 1) as Ha
      by (cbn; lra).
  assert (0 <= get_emotionVsLogic purely_logical <= 1) as Hb
      by (cbn; lra).
  split; [exact Ha |]. split; [exact Hb |].
  exact (compatibility_range blank_character purely_logical Ha Hb).
Defined.

(** X14. The compatibility of a profile with itself is 1 when its
    attachment style is Secure and 0.875 otherwise: the attachment factor
    of two equal styles other than Secure is 0.5. *)
Theorem compatibility_with_itself (a : Character) :
  calculateCompatibility a a
  = if get_attachmentStyle a =? AttachmentStyle.SECURE then 1 else 0.875.
Proof.
  rewrite calculateCompatibility_factors.
  unfold attachmentFactor, introExtroFactor, communicationFactor,
    decisionFactor, get_attachmentStyle.
  rewrite String.eqb_refl, !Rminus_diag, Rabs_R0.
  generalize (attachmentStyle (psychologicalProfile a)) as s. intros s.
  destruct (String.eqb_spec s AttachmentStyle.SECURE) as [-> | Hs]; cbn.
  - lra.
  - destruct (String.eqb_spec s AttachmentStyle.ANXIOUS) as [Ea | Ha];
      destruct (String.eqb_spec s AttachmentStyle.AVOIDANT) as [Ev | Hv];
      try (rewrite Ea in Ev; discriminate Ev); cbn; lra.
Qed.

(** X20. The communication factor of [calculateCompatibility], what is
    left of four times the score after the three other factors, is 1 for
    two equal primary styles (two unset styles included) and 0.4 or 0.6 for
    two different ones; the branch of the source that adds 0.9 is never
    taken. *)
Theorem communication_factor_values (c1 c2 : Character) :
  let comm :=
    4 * calculateCompatibility c1 c2
    - attachmentFactor (get_attachmentStyle c1) (get_attachmentStyle c2)
    - introExtroFactor (get_introversionExtroversion c1)
                       (get_introversionExtroversion c2)
    - decisionFactor (get_emotionVsLogic c1) (get_emotionVsLogic c2) in
  (get_primaryStyle c1 = get_primaryStyle c2 -> comm = 1)
  /\ (get_primaryStyle c1 <> get_primaryStyle c2 ->
      comm = 0.4 \/ comm = 0.6)
  /\ comm <> 0.9.
Proof.
  intros comm. subst comm.
  unfold get_attachmentStyle, get_introversionExtroversion,
    get_emotionVsLogic, get_primaryStyle.
  rewrite calculateCompatibility_factors.
  unfold communicationFactor.
  generalize (attachmentFactor (attachmentStyle (psychologicalProfile c1))
                               (attachmentStyle (psychologicalProfile c2)))
    as att.
  generalize (introExtroFactor
                (introversionExtroversion (psychologicalProfile c1))
                (introversionExtroversion (psychologicalProfile c2))) as ie.
  generalize (decisionFactor (emotionVsLogic (decisionMaking c1))
                             (emotionVsLogic (decisionMaking c2))) as dec.
  intros dec ie att.
  destruct (String.eqb_spec (primaryStyle (communication c1))
                            (primaryStyle (communication c2))) as [E | Hne].
  - split; [intros _; lra | split; [intros H; contradiction | lra]].
  - destruct (_ || _);
      (split; [intros H; contradiction | split; [intros _ | ]; lra]).
Qed.

Lemma communication_factor_values_witness :
  get_primaryStyle blank_character = get_primaryStyle blank_character
  /\ 4 * calculateCompatibility blank_character blank_character
     - attachmentFactor (get_attachmentStyle blank_character)
                        (get_attachmentStyle blank_character)
     - introExtroFactor (get_introversionExtroversion blank_character)
                        (get_introversionExtroversion blank_character)
     - decisionFactor (get_emotionVsLogic blank_character)
                      (get_emotionVsLogic blank_character)
     = 1.
Proof.
  split; [reflexivity |].
  exact (proj1 (communication_factor_values blank_character blank_character)
               eq_refl).
Defined.

(** ** Rapport strategies *)

Lemma snd_let {A B C : Type} (a : A) (f : A -> B * C) (r : C) :
  (forall x, snd (f x) = r) -> snd (let x := a in f x) = r.
Proof. intros H. apply H. Qed.

Lemma rapport_after (c : Character) :
  snd (generateRapportStrategy c)
  = set_desires
      (set_triggers
         c (Array_sort (fun a b => trigger_effectiveness b
                                   - trigger_effectiveness a)
                       (get_triggers c)))
      (Array_sort (fun a b => motivation_strength b - motivation_strength a)
                  (get_desires c)).
Proof.
  cbv beta delta [generateRapportStrategy get_triggers get_desires].
  do 7 (match goal with
        | |- snd (let x := ?a in @?f x) = ?r =>
            refine (snd_let a f r _); intros ?; cbv beta
        end).
  destruct c as [psy soc [des fe] [trig] com dec anc].
  cbn [triggers trustSignalsVulnerabilityMarkers desires
       motivationsInsecurities].
  destruct trig as [| t ts].
  - destruct des as [| d ds]; [reflexivity |].
    pose proof (Array_sort_length
                  (fun a b => motivation_strength b - motivation_strength a)
                  (d :: ds)) as Hlen.
    cbn [set_desires set_triggers motivationsInsecurities desires].
    destruct (Array_sort _ (d :: ds)) as [| m ms] eqn:E;
      [discriminate Hlen | reflexivity].
  - pose proof (Array_sort_length
                  (fun a b => trigger_effectiveness b
                              - trigger_effectiveness a)
                  (t :: ts)) as Hlen.
    cbv zeta.
    destruct (Array_sort _ (t :: ts)) as [| m ms] eqn:E;
      [discriminate Hlen |].
    cbn [set_triggers motivationsInsecurities desires].
    destruct des as [| d ds]; [reflexivity |].
    pose proof (Array_sort_length
                  (fun a b => motivation_strength b - motivation_strength a)
                  (d :: ds)) as Hlen'.
    destruct (Array_sort _ (d :: ds)) as [| m' ms'] eqn:E';
      [discriminate Hlen' | reflexivity].
Qed.

(** X15. [generateRapportStrategy] is not pure: it leaves the trust
    triggers of its argument sorted by descending effectiveness and the
    desires sorted by descending strength (the same entries, reordered), and
    changes nothing else of the profile. *)
Theorem generateRapportStrategy_sorts_argument (c : Character) :
  let c' := snd (generateRapportStrategy c) in
  Permutation (get_triggers c) (get_triggers c')
  /\ StronglySorted
       (fun a b => trigger_effectiveness b <= trigger_effectiveness a)
       (get_triggers c')
  /\ Permutation (get_desires c) (get_desires c')
  /\ StronglySorted
       (fun a b => motivation_strength b <= motivation_strength a)
       (get_desires c')
  /\ psychologicalProfile c' = psychologicalProfile c
  /\ socialHierarchyPosition c' = socialHierarchyPosition c
  /\ communication c' = communication c
  /\ decisionMaking c' = decisionMaking c
  /\ identityAnchors c' = identityAnchors c
  /\ get_fears c' = get_fears c.
Proof.
  intros c'. subst c'. rewrite rapport_after.
  unfold get_triggers, get_desires, get_fears.
  cbn [set_desires set_triggers trustSignalsVulnerabilityMarkers triggers
       motivationsInsecurities desires fears psychologicalProfile
       socialHierarchyPosition communication decisionMaking identityAnchors].
  repeat match goal with |- _ /\ _ => split end; try reflexivity.
  - apply Array_sort_Permutation.
  - apply (Array_sort_sorted _ trigger_effectiveness). reflexivity.
  - apply Array_sort_Permutation.
  - apply (Array_sort_sorted _ motivation_strength). reflexivity.
Qed.

Lemma rapport_reorders_argument :
  map trigger_type (get_triggers unsorted_triggers)
  = ["Shared humor"; "Shared values"]
  /\ map trigger_type
         (get_triggers (snd (generateRapportStrategy unsorted_triggers)))
     = ["Shared values"; "Shared humor"]
  /\ fst (generateRapportStrategy unsorted_triggers)
     = ["Identify and emphasize shared values or beliefs"].
Proof.
  split; [reflexivity |].
  unfold generateRapportStrategy, get_triggers. cbn.
  destruct (Rlt_dec 0 (0.9 - 0.2)) as [_ | H]; [| exfalso; apply H; lra].
  cbn. split; reflexivity.
Qed.

(** * The store *)

Module StoreFacts.
Import CharacterContext.

Lemma replace_ids (id : string) (x : StoredCharacter)
    (l : list StoredCharacter) :
char_id x = id ->
map char_id (map (fun c => if char_id c =? id then x else c) l)
= map char_id l.
Proof.
intros Hx. rewrite map_map. apply map_ext. intros c.
destruct (String.eqb_spec (char_id c) id) as [E | _];
  [rewrite Hx, E; reflexivity | reflexivity].
Qed.

Lemma replace_absent (id : string) (x : StoredCharacter)
    (l : list StoredCharacter) :
~ In id (map char_id l) ->
map (fun c => if char_id c =? id then x else c) l = l.
Proof.
induction l as [| c l IH]; cbn; intros Hid; [reflexivity |].
destruct (String.eqb_spec (char_id c) id) as [E | _].
- exfalso. apply Hid. left. exact E.
- rewrite IH; [reflexivity |]. intros H. apply Hid. right. exact H.
Qed.

Lemma replace_twice (id : string) (x : StoredCharacter)
    (l : list StoredCharacter) :
map (fun c => if char_id c =? id then x else c)
    (map (fun c => if char_id c =? id then x else c) l)
= map (fun c => if char_id c =? id then x else c) l.
Proof.
rewrite map_map. apply map_ext. intros c.
destruct (char_id c =? id) eqn:E; [| rewrite E; reflexivity].
destruct (char_id x =? id); reflexivity.
Qed.

Lemma find_replaced (id : string) (x found : StoredCharacter)
    (l : list StoredCharacter) :
char_id x = id ->
find (fun c => char_id c =? id) l = Some found ->
find (fun c => char_id c =? id)
     (map (fun c => if char_id c =? id then x else c) l)
= Some x.
Proof.
intros Hx. induction l as [| c l IH]; cbn; [discriminate |].
destruct (char_id c =? id) eqn:E.
- intros _. rewrite Hx, String.eqb_refl. reflexivity.
- rewrite E. exact IH.
Qed.

Lemma find_absent (id : string) (l : list StoredCharacter) :
find (fun c => char_id c =? id) l = None <-> ~ In id (map char_id l).
Proof.
induction l as [| c l IH]; cbn; [tauto |].
destruct (String.eqb_spec (char_id c) id) as [E | Hne].
- split; [discriminate | intros H; exfalso; apply H; left; exact E].
- rewrite IH. tauto.
Qed.

Lemma autocompleteStored_twice (c : StoredCharacter) :
autocompleteStored (autocompleteStored c) = autocompleteStored c.
Proof.
unfold autocompleteStored. cbn [char_id char_profile]. f_equal.
apply autocompleteCharacter_of_complete.
apply autocompleteCharacter_complete.
Qed.

(** X16. Dispatching [AUTOCOMPLETE_CHARACTER] for an id that is not in the
  store leaves the state as it is; for an id of the store it keeps the
  ids of the characters (their number and order), the characters with
  another id, the relationships, the selection and the theme; and
  dispatching it a second time changes nothing more. *)
Theorem autocomplete_dispatch (state : CharacterState) (id : string) :
let state' := characterReducer state (AUTOCOMPLETE_CHARACTER id) in
(~ In id (map char_id (characters state)) -> state' = state)
/\ map char_id (characters state') = map char_id (characters state)
/\ (forall c, In c (characters state) -> char_id c <> id ->
              In c (characters state'))
/\ relationships state' = relationships state
/\ selectedCharacterId state' = selectedCharacterId state
/\ theme state' = theme state
/\ characterReducer state' (AUTOCOMPLETE_CHARACTER id) = state'.
Proof.
intros state'. subst state'. unfold characterReducer.
destruct (find (fun c => char_id c =? id) (characters state))
  as [found |] eqn:Hfind.
- pose proof (find_some _ _ Hfind) as [Hin Hid].
  apply String.eqb_eq in Hid. cbv zeta.
  cbn [characters relationships selectedCharacterId theme].
  repeat match goal with |- _ /\ _ => split end; try reflexivity.
  + intros Habsent. exfalso. apply Habsent.
    rewrite <- Hid. apply in_map. exact Hin.
  + apply replace_ids. exact Hid.
  + intros c Hc Hne. apply in_map_iff. exists c. split; [| exact Hc].
    destruct (String.eqb_spec (char_id c) id); [contradiction |].
    reflexivity.
  + rewrite (find_replaced id (autocompleteStored found) found
                           (characters state) Hid Hfind).
    rewrite autocompleteStored_twice, replace_twice. reflexivity.
- repeat match goal with |- _ /\ _ => split end; try reflexivity.
  + intros c Hc _. exact Hc.
  + rewrite Hfind. reflexivity.
Qed.

Lemma autocomplete_dispatch_witness :
~ In "carol" (map char_id (characters sample_state))
/\ characterReducer sample_state (AUTOCOMPLETE_CHARACTER "carol")
   = sample_state.
Proof.
assert (~ In "carol" (map char_id (characters sample_state))) as Habsent
    by (cbn; intuition discriminate).
split; [exact Habsent |].
exact (proj1 (autocomplete_dispatch sample_state "carol") Habsent).
Defined.

(** X17. [UPDATE_CHARACTER] never adds a character: for an id that is not
  in the store the state is unchanged, and in every case the ids of the
  characters, their number and their order stay as they were. *)
Theorem update_character_is_no_upsert (state : CharacterState)
      (updated : StoredCharacter) :
let state' := characterReducer state (UPDATE_CHARACTER updated) in
(~ In (char_id updated) (map char_id (characters state)) ->
 state' = state)
/\ map char_id (characters state') = map char_id (characters state)
/\ (In (char_id updated) (map char_id (characters state)) ->
    In updated (characters state')).
Proof.
intros state'. subst state'. cbn [characterReducer].
cbn [characters]. split; [| split].
- intros Habsent. rewrite (replace_absent _ _ _ Habsent).
  destruct state; reflexivity.
- apply replace_ids. reflexivity.
- intros Hin. apply in_map_iff in Hin. destruct Hin as [c [Hid Hc]].
  apply in_map_iff. exists c. split; [| exact Hc].
  rewrite Hid, String.eqb_refl. reflexivity.
Qed.

Lemma update_character_is_no_upsert_witness :
let carol := {| char_id := "carol"; char_profile := blank_character |} in
~ In (char_id carol) (map char_id (characters sample_state))
/\ characterReducer sample_state (UPDATE_CHARACTER carol) = sample_state.
Proof.
intros carol.
assert (~ In (char_id carol) (map char_id (characters sample_state)))
  as Habsent by (cbn; intuition discriminate).
split; [exact Habsent |].
exact (proj1 (update_character_is_no_upsert sample_state carol) Habsent).
Defined.

Lemma filter_ids (id : string) (l : list StoredCharacter) (x : string) :
In x (map char_id l) -> x <> id ->
In x (map char_id (filter (fun c => negb (char_id c =? id)) l)).
Proof.
intros Hin Hne. apply in_map_iff in Hin. destruct Hin as [c [Hx Hc]].
apply in_map_iff. exists c. split; [exact Hx |].
apply filter_In. split; [exact Hc |].
rewrite Hx. destruct (String.eqb_spec x id); [contradiction | reflexivity].
Qed.

(** X18. Referential integrity is an invariant of the reducer: if both ends
  of every relationship are characters of the store, this still holds
  after any action that does not bring relationships or characters from
  outside.  In particular [DELETE_CHARACTER] removes every relationship
  of the deleted character. *)
Theorem reducer_keeps_integrity (state : CharacterState)
      (action : CharacterAction) :
referential_integrity state ->
brings_outside_data action = false ->
referential_integrity (characterReducer state action).
Proof.
unfold referential_integrity. intros Hint Haction.
destruct action; try discriminate Haction; cbn [characterReducer].
- (* ADD_CHARACTER *)
  cbn [characters relationships]. intros r Hr.
  destruct (Hint r Hr) as [Hs Ht]. rewrite map_app, !in_app_iff. tauto.
- (* UPDATE_CHARACTER *)
  cbn [characters relationships]. intros r Hr.
  rewrite replace_ids by reflexivity. apply Hint. exact Hr.
- (* DELETE_CHARACTER *)
  cbn [characters relationships]. intros r Hr.
  apply filter_In in Hr. destruct Hr as [Hr Hkeep].
  apply andb_true_iff in Hkeep. destruct Hkeep as [Hs Ht].
  apply negb_true_iff in Hs. apply negb_true_iff in Ht.
  apply String.eqb_neq in Hs. apply String.eqb_neq in Ht.
  destruct (Hint r Hr) as [Hsrc Htgt].
  split; apply filter_ids; assumption.
- (* SELECT_CHARACTER *) exact Hint.
- (* DELETE_RELATIONSHIP *)
  cbn [characters relationships]. intros r Hr.
  apply filter_In in Hr. apply Hint. tauto.
- (* GENERATE_NETWORK_GRAPH *) exact Hint.
- (* TOGGLE_THEME *) exact Hint.
- (* SET_UI_STATE *) exact Hint.
- (* AUTOCOMPLETE_CHARACTER *)
  destruct (find _ (characters state)) as [found |] eqn:Hfind;
    [| exact Hint].
  pose proof (find_some _ _ Hfind) as [_ Hid].
  apply String.eqb_eq in Hid.
  cbv zeta. cbn [characters relationships]. intros r Hr.
  rewrite replace_ids by exact Hid. apply Hint. exact Hr.
- (* RESET_STATE *) intros r Hr. contradiction.
Qed.

Lemma reducer_keeps_integrity_witness :
referential_integrity sample_state
/\ brings_outside_data (DELETE_CHARACTER "bob") = false
/\ referential_integrity
     (characterReducer sample_state (DELETE_CHARACTER "bob"))
/\ relationships (characterReducer sample_state (DELETE_CHARACTER "bob"))
   = []
/\ selectedCharacterId
     (characterReducer sample_state (DELETE_CHARACTER "bob"))
   = None.
Proof.
assert (referential_integrity sample_state) as Hint.
{ intros r [<- | []]. cbn. tauto. }
split; [exact Hint |]. split; [reflexivity |].
split; [exact (reducer_keeps_integrity sample_state
                 (DELETE_CHARACTER "bob") Hint eq_refl) |].
split; reflexivity.
Defined.

(** X19. The compatibility of two characters given by id is 0 exactly when
  one of the ids is not in the store, provided the emotion-vs-logic values
  of the stored characters lie in [[0, 1]]; otherwise it lies between
  0.175 and 1, and it does not depend on the order of the two ids. *)
Theorem compatibility_by_id (state : CharacterState) (id1 id2 : string) :
(forall c, In c (characters state) ->
           0 <= get_emotionVsLogic (char_profile c) <= 1) ->
(CharacterContext.calculateCompatibility state id1 id2 = 0 <->
 ~ In id1 (map char_id (characters state))
 \/ ~ In id2 (map char_id (characters state)))
/\ (In id1 (map char_id (characters state)) ->
    In id2 (map char_id (characters state)) ->
    0.175 <= CharacterContext.calculateCompatibility state id1 id2 <= 1)
/\ CharacterContext.calculateCompatibility state id1 id2
   = CharacterContext.calculateCompatibility state id2 id1.
Proof.
intros Hrange. unfold CharacterContext.calculateCompatibility. cbv zeta.
destruct (find (fun c => char_id c =? id1) (characters state))
  as [c1 |] eqn:H1;
  destruct (find (fun c => char_id c =? id2) (characters state))
    as [c2 |] eqn:H2.
- pose proof (find_some _ _ H1) as [Hin1 Hid1].
  pose proof (find_some _ _ H2) as [Hin2 Hid2].
  apply String.eqb_eq in Hid1. apply String.eqb_eq in Hid2.
  pose proof (calculateCompatibility_bounds
                (char_profile c1) (char_profile c2)
                (Hrange c1 Hin1) (Hrange c2 Hin2)) as Hb.
  split; [| split].
  + split; [intros H0; lra |].
    intros [Habs | Habs]; exfalso; apply Habs.
    * rewrite <- Hid1. apply in_map. exact Hin1.
    * rewrite <- Hid2. apply in_map. exact Hin2.
  + intros _ _. exact Hb.
  + apply calculateCompatibility_swap.
- apply find_absent in H2.
  split; [| split]; [split; [tauto | reflexivity] | | reflexivity].
  intros _ Hin2. contradiction.
- apply find_absent in H1.
  split; [| split]; [split; [tauto | reflexivity] | | reflexivity].
  intros Hin1 _. contradiction.
- apply find_absent in H1.
  split; [| split]; [split; [tauto | reflexivity] | | reflexivity].
  intros Hin1 _. contradiction.
Qed.

Lemma compatibility_by_id_witness :
(forall c, In c (characters sample_state) ->
           0 <= get_emotionVsLogic (char_profile c) <= 1)
/\ In "alice" (map char_id (characters sample_state))
/\ In "bob" (map char_id (characters sample_state))
/\ 0.175
   <= CharacterContext.calculateCompatibility sample_state "alice" "bob"
   <= 1
/\ CharacterContext.calculateCompatibility sample_state "alice" "carol"
   = 0.
Proof.
assert (forall c, In c (characters sample_state) ->
                  0 <= get_emotionVsLogic (char_profile c) <= 1)
  as Hrange.
{ intros c [<- | [<- | []]]; cbn; lra. }
assert (In "alice" (map char_id (characters sample_state))) as Ha
    by (cbn; tauto).
assert (In "bob" (map char_id (characters sample_state))) as Hb
    by (cbn; tauto).
split; [exact Hrange |]. split; [exact Ha |]. split; [exact Hb |].
split.
- exact (proj1 (proj2 (compatibility_by_id sample_state "alice" "bob"
                                           Hrange)) Ha Hb).
- apply (proj1 (compatibility_by_id sample_state "alice" "carol" Hrange)).
  right. cbn. intuition discriminate.
Defined.

End StoreFacts.

(** ** Overflow on doubles *)

(** The tables of [Double] have the rows of [PRIORS] and
    [LIKELIHOOD_MULTIPLIERS], in the same order. *)
Lemma double_tables_rows :
  map (fun p => (Double.prior_trait p, Double.prior_category p))
      Double.PRIORS
  = map (fun p => (prior_trait p, prior_category p)) PRIORS
  /\ map (fun lm => (Double.lm_evidence lm, Double.lm_trait lm))
         Double.LIKELIHOOD_MULTIPLIERS
     = map (fun lm => (lm_evidence lm, lm_trait lm)) LIKELIHOOD_MULTIPLIERS.
Proof. split; reflexivity. Qed.

(** A comparison with [NaN] fails. *)
Lemma nan_not_within (tolerance : PrimFloat.float) :
  PrimFloat.leb PrimFloat.nan tolerance = false.
Proof. rewrite FloatAxioms.leb_spec. reflexivity. Qed.

(** C2, counterexample.  On doubles, with 777 pieces of evidence "Anxious"
    of weight 1.0 and the category "vulnerabilities" (twelve prior entries),
    the score of "Fear of abandonment", 0.15 * 2.5 ^ 777, overflows to
    infinity, so does the normalization factor, and the posterior
    infinity / infinity is [NaN]: the sum of the posteriors is [NaN], which
    is not 0 and is within no tolerance of 1. *)
Lemma normalization_fails_on_overflow :
  let evidence := Double.anxious 777 in
  Double.getTraitsForCategory "vulnerabilities" <> []
  /\ Double.weights_in_unit evidence = true
  /\ Double.calculateNormalizationFactor "vulnerabilities" evidence
     = Some PrimFloat.infinity
  /\ exists posteriors,
      Double.calculatePosteriors "vulnerabilities" evidence = Some posteriors
      /\ Map_get "Fear of abandonment" posteriors = Some PrimFloat.nan
      /\ PrimFloat.eqb (Double.sum (Map_values posteriors)) PrimFloat.zero
         = false
      /\ forall tolerance,
          PrimFloat.leb
            (PrimFloat.abs
               (PrimFloat.sub (Double.sum (Map_values posteriors))
                             PrimFloat.one))
            tolerance
          = false.
Proof.
  intros evidence. subst evidence.
  split; [vm_compute; discriminate |].
  split; [vm_compute; reflexivity |].
  split; [vm_compute; reflexivity |].
  eexists. split; [vm_compute; reflexivity |].
  split; [vm_compute; reflexivity |].
  split; [vm_compute; reflexivity |].
  intros tolerance.
  match goal with
  | |- PrimFloat.leb ?x _ = false =>
      replace x with PrimFloat.nan by (vm_compute; reflexivity)
  end.
  apply nan_not_within.
Qed.

(** Below the overflow the doubles behave as the reals do: with 100 pieces
    of the same evidence, the longest list of [within_double_range], the
    posteriors on doubles are all positive and their sum is the double 1,
    and so it is with 776 pieces, the last length before the overflow. *)
Lemma normalization_on_doubles_in_range :
  forall count, count = 100%nat \/ count = 776%nat ->
  exists posteriors,
    Double.calculatePosteriors "vulnerabilities" (Double.anxious count)
    = Some posteriors
    /\ forallb (fun entry => PrimFloat.ltb PrimFloat.zero (snd entry))
               posteriors
       = true
    /\ Double.sum (Map_values posteriors) = PrimFloat.one.
Proof.
  intros count [-> | ->];
    (eexists; split; [vm_compute; reflexivity |];
     split; vm_compute; reflexivity).
Qed.
